(** * openai_fastmcp: media generation and artifact persistence

    A shallow embedding of [src/openai_fastmcp/openai_service.py] (the
    [OpenAIService] and [AzureBlobUploader] classes), of the records of
    [config.py] they read, and of the [generate_video] tool of [app.py].

    Python [str] values are modelled as [string] (a sequence of 8-bit
    characters); the case and [repr] helpers below are exact on ASCII text
    and leave characters above 127 untouched.  Coroutines are modelled in a
    state-and-exception monad over the chronological list of interactions
    with the outside world (provider calls, blob uploads, log records); what
    the outside world answers is read from an [Env] of oracles. *)

From Stdlib Require Import Bool Arith NArith ZArith QArith List String Ascii Lia.
From Stdlib Require Import Strings.Byte.
Import ListNotations.

Close Scope Q_scope.
Local Open Scope string_scope.

(** ** Python string helpers *)

Module Py.

Definition bytes := list byte.

(** Truthiness of a [str]: only the empty string is falsy. *)
Definition truthy (s : string) : bool :=
  match s with
  | EmptyString => false
  | String _ _ => true
  end.

(** Truthiness of a [str | None]. *)
Definition truthy_opt (o : option string) : bool :=
  match o with
  | None => false
  | Some s => truthy s
  end.

(** [a or b] for [a : str | None] and [b : str]. *)
Definition or_else (a : option string) (b : string) : string :=
  match a with
  | Some s => if truthy s then s else b
  | None => b
  end.

(** [s or d] for two strings. *)
Definition str_or (s d : string) : string := if truthy s then s else d.

Definition is_upper (c : ascii) : bool :=
  let n := N_of_ascii c in ((65 <=? n) && (n <=? 90))%N.

Definition lower_char (c : ascii) : ascii :=
  if is_upper c then ascii_of_N (N_of_ascii c + 32) else c.

(** [str.lower()] *)
Fixpoint lower (s : string) : string :=
  match s with
  | EmptyString => EmptyString
  | String c r => String (lower_char c) (lower r)
  end.

(** [s.lstrip(c)] for a one-character set [c]. *)
Fixpoint lstrip (c : ascii) (s : string) : string :=
  match s with
  | EmptyString => EmptyString
  | String a r => if Ascii.eqb a c then lstrip c r else s
  end.

(** [s.rstrip(c)] for a one-character set [c]. *)
Fixpoint rstrip (c : ascii) (s : string) : string :=
  match s with
  | EmptyString => EmptyString
  | String a r =>
      match rstrip c r with
      | EmptyString => if Ascii.eqb a c then EmptyString else String a EmptyString
      | r' => String a r'
      end
  end.

(** [s.strip(c)] for a one-character set [c]. *)
Definition strip (c : ascii) (s : string) : string := rstrip c (lstrip c s).

(** [sep.join(parts)] *)
Fixpoint join (sep : string) (parts : list string) : string :=
  match parts with
  | [] => ""
  | [p] => p
  | p :: rest => p ++ sep ++ join sep rest
  end.

(** [x in xs] for strings. *)
Definition mem (x : string) (xs : list string) : bool :=
  existsb (String.eqb x) xs.

(** [d.get(k, default)] for a dict literal written as an association list. *)
Fixpoint get {V : Type} (d : list (string * V)) (k : string) (default : V) : V :=
  match d with
  | [] => default
  | (k', v) :: rest => if String.eqb k k' then v else get rest k default
  end.

(** Lexicographic order on strings by character code, as [str.__lt__]. *)
Fixpoint ltb (a b : string) : bool :=
  match a, b with
  | EmptyString, EmptyString => false
  | EmptyString, String _ _ => true
  | String _ _, EmptyString => false
  | String x a', String y b' =>
      if (N_of_ascii x <? N_of_ascii y)%N then true
      else if (N_of_ascii y <? N_of_ascii x)%N then false
      else ltb a' b'
  end.

Fixpoint insert_sorted (x : string) (xs : list string) : list string :=
  match xs with
  | [] => [x]
  | y :: ys => if ltb y x then y :: insert_sorted x ys else x :: xs
  end.

(** [sorted(xs)] on strings. *)
Definition sorted (xs : list string) : list string :=
  fold_right insert_sorted [] xs.

(** *** Numerals *)

Definition digit_char (n : N) : ascii := ascii_of_N (48 + n mod 10).

(** The [k] low decimal digits of [n], most significant first: the
    zero-padded fields of [strftime]. *)
Fixpoint zpad (k : nat) (n : N) : string :=
  match k with
  | O => ""
  | S k' => zpad k' (n / 10) ++ String (digit_char n) ""
  end.

Definition hex_char (n : N) : ascii :=
  let d := (n mod 16)%N in
  if (d <? 10)%N then ascii_of_N (48 + d) else ascii_of_N (87 + d).

(** The [k] low hexadecimal digits of [n], lowercase, most significant first. *)
Fixpoint hex_lower (k : nat) (n : N) : string :=
  match k with
  | O => ""
  | S k' => hex_lower k' (n / 16) ++ String (hex_char n) ""
  end.

(** Decimal rendering of a non-negative integer, [fuel] bounding the number
    of digits. *)
Fixpoint dec_digits (fuel : nat) (n : N) : string :=
  match fuel with
  | O => ""
  | S f =>
      if (n <? 10)%N then String (digit_char n) ""
      else dec_digits f (n / 10) ++ String (digit_char n) ""
  end.

Definition str_of_N (n : N) : string := dec_digits (S (N.to_nat (N.log2 n))) n.

(** [str(z)] for an [int]. *)
Definition str_of_Z (z : Z) : string :=
  match z with
  | Z0 => "0"
  | Zpos p => str_of_N (Npos p)
  | Zneg p => "-" ++ str_of_N (Npos p)
  end.

(** *** [repr] of a [str] *)

Fixpoint contains_char (c : ascii) (s : string) : bool :=
  match s with
  | EmptyString => false
  | String a r => Ascii.eqb a c || contains_char c r
  end.

Definition squote : ascii := "'"%char.
Definition dquote : ascii := ascii_of_N 34.
Definition backslash : ascii := ascii_of_N 92.

(** The quote [repr] wraps a string in: double quotes only when the text
    holds a single quote and no double quote. *)
Definition repr_quote (s : string) : ascii :=
  if contains_char squote s && negb (contains_char dquote s) then dquote else squote.

Definition repr_char (q c : ascii) : string :=
  let n := N_of_ascii c in
  if Ascii.eqb c backslash then String backslash (String backslash "")
  else if Ascii.eqb c q then String backslash (String q "")
  else if (n =? 9)%N then String backslash "t"
  else if (n =? 10)%N then String backslash "n"
  else if (n =? 13)%N then String backslash "r"
  else if ((n <? 32) || (n =? 127))%N then String backslash ("x" ++ hex_lower 2 n)
  else String c "".

Fixpoint repr_body (q : ascii) (s : string) : string :=
  match s with
  | EmptyString => ""
  | String c r => repr_char q c ++ repr_body q r
  end.

(** [repr(s)] *)
Definition repr (s : string) : string :=
  let q := repr_quote s in
  String q (repr_body q s ++ String q "").

End Py.

(** ** Python values of type [Any]

    The message content handed to [_extract_text] is untyped.  [PObj s] is
    an object that is neither a string, a dict nor a list (a number-like or
    SDK object) whose [str()] and [repr()] are both [s]; it is truthy and
    not iterable. *)

#[warnings="-register-all"]
Inductive pyval : Type :=
| PNone
| PBool (b : bool)
| PInt (z : Z)
| PStr (s : string)
| PList (items : list pyval)
| PDict (entries : list (string * pyval))
| PObj (shown : string).

Module PyVal.

Definition truthy (v : pyval) : bool :=
  match v with
  | PNone => false
  | PBool b => b
  | PInt z => negb (Z.eqb z 0)
  | PStr s => Py.truthy s
  | PList l => match l with [] => false | _ => true end
  | PDict d => match d with [] => false | _ => true end
  | PObj _ => true
  end.

(** [repr(v)] *)
Fixpoint repr (v : pyval) : string :=
  match v with
  | PNone => "None"
  | PBool true => "True"
  | PBool false => "False"
  | PInt z => Py.str_of_Z z
  | PStr s => Py.repr s
  | PList l => "[" ++ Py.join ", " (map repr l) ++ "]"
  | PDict d =>
      "{" ++ Py.join ", " (map (fun kv => Py.repr (fst kv) ++ ": " ++ repr (snd kv)) d) ++ "}"
  | PObj s => s
  end.

(** [str(v)]: the text itself for a string, [repr] for everything else. *)
Definition str (v : pyval) : string :=
  match v with
  | PStr s => s
  | _ => repr v
  end.

(** [d.get(k)] on a dict: [None] when the key is missing. *)
Fixpoint dict_get (d : list (string * pyval)) (k : string) : pyval :=
  match d with
  | [] => PNone
  | (k', v) :: rest => if String.eqb k k' then v else dict_get rest k
  end.

(** [v == s] for a string literal [s]. *)
Definition eq_str (v : pyval) (s : string) : bool :=
  match v with
  | PStr t => String.eqb t s
  | _ => false
  end.

End PyVal.

(** ** Configuration records ([config.py]) *)

Inductive Provider : Type := openai | azure.

Record OpenAIConfig : Type := {
  provider : Provider;
  api_key : string;
  base_url : option string;
  organization : option string;
  azure_endpoint : option string;
  azure_api_version : option string;
  azure_ad_token : option string;
  chat_model : string;
  image_model : string;
  audio_model : string;
  default_voice : string;
  video_model : string
}.

Record AzureBlobStorageConfig : Type := {
  connection_string : string;
  container : string;
  public_base_url : string;
  path_prefix : option string;
  image_root : string;
  audio_root : string;
  video_root : string
}.

(** ** Exceptions, provider payloads and the outside world *)

(** [ExternalError] stands for any [Exception] subclass raised by the OpenAI
    or Azure SDKs; [BaseOnly] for the exceptions that derive from
    [BaseException] alone (task cancellation, interrupts), which
    [except Exception] does not catch. *)
Inductive exn : Type :=
| ValueError (msg : string)
| RuntimeError (msg : string)
| IndexError (msg : string)
| ExternalError (name msg : string)
| BaseOnly (name : string).

Definition is_Exception (e : exn) : bool :=
  match e with
  | BaseOnly _ => false
  | _ => true
  end.

Inductive outcome (A : Type) : Type :=
| Ok (a : A)
| Raise (e : exn).
Arguments Ok {A} a.
Arguments Raise {A} e.

Record response_format_param : Type := { rf_type : string }.

Record chat_request : Type := {
  cr_model : string;
  cr_messages : list (string * string);
  cr_temperature : Q;
  cr_top_p : Q;
  cr_max_tokens : option Z;
  cr_response_format : option response_format_param;
  cr_user : option string;
  cr_seed : option Z;
  cr_presence_penalty : Q;
  cr_frequency_penalty : Q;
  cr_metadata : option pyval
}.

Record choice : Type := {
  message_content : pyval;
  finish_reason : string
}.

Record completion : Type := {
  choices : list choice;
  completion_model : string;
  usage : option pyval;
  model_dump : pyval
}.

Record images_request : Type := {
  ir_model : string;
  ir_prompt : string;
  ir_size : string;
  ir_quality : string;
  ir_n : Z;
  ir_user : option string
}.

Record image_item : Type := {
  b64_json : option string;
  item_revised_prompt : option string
}.

Record images_response : Type := {
  data : list image_item;
  response_model : option string;
  created : Z
}.

Record speech_request : Type := {
  sr_model : string;
  sr_voice : string;
  sr_input : string;
  sr_response_format : string;
  sr_speed : Q
}.

Record video_request : Type := {
  vr_prompt : string;
  vr_model : string;
  vr_seconds : Z;
  vr_size : string
}.

Record Video : Type := {
  video_id : string;
  status : string;
  video_job_model : string;
  video_size : string;
  video_seconds : string
}.

(** Every interaction with the outside world, in the order it happens. *)
Inductive event : Type :=
| EvChatCreate (req : chat_request)
| EvImagesGenerate (req : images_request)
| EvSpeechCreate (req : speech_request)
| EvVideosCreateAndPoll (req : video_request)
| EvVideosDownload (id variant : string)
| EvUploadBlob (blob_name : string) (content : Py.bytes) (content_type : string)
| EvLogException (msg : string).

Definition world := list event.

Record datetime : Type := {
  year : N; month : N; day : N; hour : N; minute : N; second : N
}.

(** What the outside world answers.  Each oracle sees the history so far, so
    that two calls at different moments may be answered differently.
    [audio_speech_create] and [videos_download_content] stand for the call
    followed by [aread()] of the returned body; [b64decode] is
    [base64.b64decode] on a [str], [None] when it raises [binascii.Error] or
    [ValueError]; [uuid4] is the integer of the drawn UUID. *)
Record Env : Type := {
  chat_completions_create : world -> chat_request -> outcome completion;
  images_generate : world -> images_request -> outcome images_response;
  audio_speech_create : world -> speech_request -> outcome Py.bytes;
  videos_create_and_poll : world -> video_request -> outcome Video;
  videos_download_content : world -> string -> string -> outcome Py.bytes;
  upload_blob : world -> string -> Py.bytes -> string -> option exn;
  utcnow : world -> datetime;
  uuid4 : world -> N;
  b64decode : string -> option Py.bytes
}.

(** ** The coroutine monad *)

Definition M (A : Type) : Type := world -> outcome A * world.

Definition ret {A : Type} (a : A) : M A := fun w => (Ok a, w).

Definition raise {A : Type} (e : exn) : M A := fun w => (Raise e, w).

Definition bind {A B : Type} (m : M A) (k : A -> M B) : M B :=
  fun w =>
    match m w with
    | (Ok a, w') => k a w'
    | (Raise e, w') => (Raise e, w')
    end.

Notation "x <- m ;; k" := (bind m (fun x => k))
  (at level 61, m at next level, right associativity).

(** A pure computation that may raise. *)
Definition lift {A : Type} (o : outcome A) : M A := fun w => (o, w).

Definition emit (ev : event) : M unit := fun w => (Ok tt, (w ++ [ev])%list).

(** An awaited call to the outside: the request is recorded, then the
    answer the oracle gives for the history before the call is returned
    or raised. *)
Definition call {A : Type} (ev : event) (answer : world -> outcome A) : M A :=
  fun w => (answer w, (w ++ [ev])%list).

(** [try: body  except Exception: handler] *)
Definition try_except_Exception {A : Type} (body : M A) (handler : exn -> M A) : M A :=
  fun w =>
    match body w with
    | (Ok a, w') => (Ok a, w')
    | (Raise e, w') => if is_Exception e then handler e w' else (Raise e, w')
    end.

(** [datetime.strftime("%Y%m%dT%H%M%S")], for the four-digit years a clock
    reading has. *)
Definition strftime (t : datetime) : string :=
  Py.zpad 4 (year t) ++ Py.zpad 2 (month t) ++ Py.zpad 2 (day t) ++ "T"
  ++ Py.zpad 2 (hour t) ++ Py.zpad 2 (minute t) ++ Py.zpad 2 (second t).

(** [uuid.UUID.hex]: the 128-bit integer as 32 lowercase hexadecimal digits. *)
Definition uuid_hex (n : N) : string := Py.hex_lower 32 n.

(** ** Module constants of [openai_service.py] *)

Definition _DEFAULT_CONTENT_TYPE : string := "application/octet-stream".

Definition _STORAGE_REQUIRED_MSG : string :=
  "Azure Blob Storage uploads are not configured. Set AZURE_STORAGE_CONNECTION_STRING, "
  ++ "AZURE_BLOB_CONTAINER, and AZURE_BLOB_PUBLIC_BASE_URL to enable asset URLs.".

Definition _AUDIO_CONTENT_TYPES : list (string * string) :=
  [ ("mp3", "audio/mpeg"); ("wav", "audio/wav"); ("flac", "audio/flac");
    ("opus", "audio/ogg"); ("ogg", "audio/ogg"); ("aac", "audio/aac");
    ("m4a", "audio/mp4") ].

(** ** [class AzureBlobUploader] *)

Module AzureBlobUploader.

Section Uploader.

Variable env : Env.
Variable _config : AzureBlobStorageConfig.

Definition _root_for_category (category : string) : string :=
  let normalized := Py.str_or (Py.strip "/" (Py.str_or category "media")) "media" in
  let mapping :=
    [ ("images", image_root _config);
      ("image", image_root _config);
      ("audio", audio_root _config);
      ("videos", video_root _config);
      ("video", video_root _config) ] in
  Py.get mapping normalized normalized.

(** [[segment for segment in candidates if segment]] *)
Fixpoint truthy_segments (candidates : list (option string)) : list string :=
  match candidates with
  | [] => []
  | Some s :: rest => if Py.truthy s then s :: truthy_segments rest else truthy_segments rest
  | None :: rest => truthy_segments rest
  end.

(** The name built from an instant and a drawn UUID. *)
Definition blob_name_at (now : datetime) (drawn : N) (category extension : string) : string :=
  let timestamp := strftime now in
  let unique := uuid_hex drawn in
  let sanitized_category := _root_for_category category in
  let filename := timestamp ++ "-" ++ unique ++ "." ++ extension in
  let segments :=
    truthy_segments [path_prefix _config; Some sanitized_category; Some filename] in
  Py.join "/" segments.

Definition _build_blob_name (category extension : string) : M string :=
  fun w => (Ok (blob_name_at (utcnow env w) (uuid4 env w) category extension), w).

Definition upload (content : Py.bytes) (category extension content_type : string) : M string :=
  blob_name <- _build_blob_name category extension ;;
  _ <- call (EvUploadBlob blob_name content content_type)
         (fun w => match upload_blob env w blob_name content content_type with
                   | None => Ok tt
                   | Some e => Raise e
                   end) ;;
  ret (public_base_url _config ++ "/" ++ blob_name).

End Uploader.

End AzureBlobUploader.

(** ** [class OpenAIService] *)

Record image_entry : Type := {
  blob_url : string;
  revised_prompt : option string
}.

Record chat_result : Type := {
  chat_text : string;
  chat_finish_reason : string;
  chat_model_used : string;
  chat_usage : option pyval;
  chat_raw : pyval
}.

Record image_result : Type := {
  image_model_used : string;
  image_created : Z;
  images : list image_entry
}.

Record audio_result : Type := {
  audio_voice : string;
  audio_format : string;
  audio_byte_length : nat;
  audio_blob_url : string
}.

Record video_result : Type := {
  vres_video_id : string;
  vres_status : string;
  vres_model : string;
  vres_size : string;
  vres_seconds : string;
  vres_variant : string;
  vres_byte_length : nat;
  vres_blob_url : string
}.

Module OpenAIService.

(** The state set up by [__init__]: the configuration and the uploader,
    which exists exactly when a storage configuration was given. *)
Record t : Type := {
  config : OpenAIConfig;
  _blob_uploader : option AzureBlobStorageConfig
}.

Definition __init__ (cfg : OpenAIConfig) (storage : option AzureBlobStorageConfig) : t :=
  {| config := cfg; _blob_uploader := storage |}.

Definition missing_url_msg (asset_type : string) : string :=
  "Unable to produce a publicly accessible " ++ asset_type ++ " asset URL. "
  ++ _STORAGE_REQUIRED_MSG.

Definition _require_blob_url (blob_url : option string) (asset_type : string) : outcome string :=
  match blob_url with
  | Some u =>
      if Py.truthy u then Ok u else Raise (RuntimeError (missing_url_msg asset_type))
  | None => Raise (RuntimeError (missing_url_msg asset_type))
  end.

Definition _audio_content_type (response_format : string) : string :=
  Py.get _AUDIO_CONTENT_TYPES (Py.lower response_format) _DEFAULT_CONTENT_TYPE.

Definition _video_variant_meta (variant : string) : string * string :=
  let normalized := Py.lower variant in
  let mapping :=
    [ ("video", ("mp4", "video/mp4"));
      ("thumbnail", ("png", "image/png"));
      ("spritesheet", ("json", "application/json")) ] in
  Py.get mapping normalized ("bin", _DEFAULT_CONTENT_TYPE).

Definition _build_messages (prompt : string) (system_prompt : option string)
  : list (string * string) :=
  let messages :=
    match system_prompt with
    | Some sp => if Py.truthy sp then [("system", sp)] else []
    | None => []
    end in
  (messages ++ [("user", prompt)])%list.

(** One pass of the loop body of [_extract_text] over a chunk. *)
Definition chunk_text (chunk : pyval) : list string :=
  match chunk with
  | PDict d =>
      if PyVal.eq_str (PyVal.dict_get d "type") "text" && PyVal.truthy (PyVal.dict_get d "text")
      then [PyVal.str (PyVal.dict_get d "text")]
      else if PyVal.eq_str (PyVal.dict_get d "type") "tool_call"
      then [PyVal.str chunk]
      else []
  | _ => [PyVal.str chunk]
  end.

(** [content] is [None], a [str], an iterable ([PList]: its items;
    [PDict]: its keys), or anything else. *)
Definition _extract_text (content : pyval) : string :=
  match content with
  | PNone => ""
  | PStr s => s
  | PList items => Py.join "" (flat_map chunk_text items)
  | PDict d => Py.join "" (flat_map (fun kv => chunk_text (PStr (fst kv))) d)
  | _ => PyVal.str content
  end.

(** Lines 71-76 of [chat_completion]. *)
Definition response_format_param_of (response_format : option string)
  : option response_format_param :=
  match response_format with
  | Some rf =>
      if Py.truthy rf
      then if String.eqb (Py.lower rf) "json"
           then Some {| rf_type := "json_object" |}
           else Some {| rf_type := rf |}
      else None
  | None => None
  end.

(** Lines 116-128 of [generate_image]. *)
Definition normalize_quality (quality : string) : outcome string :=
  let normalized_quality := Py.lower quality in
  let legacy_aliases := [("standard", "medium"); ("hd", "high")] in
  let normalized_quality := Py.get legacy_aliases normalized_quality normalized_quality in
  let allowed_qualities := ["low"; "medium"; "high"; "auto"] in
  if negb (Py.mem normalized_quality allowed_qualities)
  then
    let allowed_str := Py.join ", " (Py.sorted allowed_qualities) in
    Raise (ValueError ("quality must be one of " ++ allowed_str
                       ++ " (received: " ++ Py.repr quality ++ ")"))
  else Ok normalized_quality.

(** Lines 130-136 of [generate_image]. *)
Definition normalize_size (size : string) : outcome string :=
  let normalized_size := Py.lower size in
  let allowed_sizes := ["1024x1024"; "1024x1536"; "1536x1024"; "auto"] in
  if negb (Py.mem normalized_size allowed_sizes)
  then
    let allowed_size_str := Py.join ", " (Py.sorted allowed_sizes) in
    Raise (ValueError ("size must be one of " ++ allowed_size_str
                       ++ " (received: " ++ Py.repr size ++ ")"))
  else Ok normalized_size.

Section Service.

Variable env : Env.
Variable self : t.

Definition _persist_media_bytes
    (payload : option Py.bytes) (category extension : string) (content_type : option string)
  : M (option string) :=
  match payload with
  | None | Some [] => ret None
  | Some content =>
      match _blob_uploader self with
      | None => raise (RuntimeError _STORAGE_REQUIRED_MSG)
      | Some storage =>
          let sanitized_extension := Py.lower (Py.str_or (Py.lstrip "." extension) "bin") in
          try_except_Exception
            (url <- AzureBlobUploader.upload env storage content category sanitized_extension
                      (Py.or_else content_type _DEFAULT_CONTENT_TYPE) ;;
             ret (Some url))
            (fun _ =>
               _ <- emit (EvLogException
                            ("Failed to upload " ++ category
                             ++ " artifact to Azure Blob Storage")) ;;
               ret None)
      end
  end.

Definition _persist_base64_media
    (base64_payload : option string) (category extension : string)
    (content_type : option string)
  : M (option string) :=
  if negb (Py.truthy_opt base64_payload) then ret None
  else
    match b64decode env (Py.or_else base64_payload "") with
    | None =>
        _ <- emit (EvLogException
                     ("Received invalid base64 payload for " ++ category ++ " artifact")) ;;
        ret None
    | Some decoded => _persist_media_bytes (Some decoded) category extension content_type
    end.

Definition chat_completion
    (prompt : string) (system_prompt model : option string) (temperature top_p : Q)
    (max_output_tokens : option Z) (user response_format : option string)
    (presence_penalty frequency_penalty : Q) (seed : option Z) (metadata : option pyval)
  : M chat_result :=
  let final_model := Py.or_else model (chat_model (config self)) in
  let messages := _build_messages prompt system_prompt in
  let response_format_param := response_format_param_of response_format in
  let request :=
    {| cr_model := final_model;
       cr_messages := messages;
       cr_temperature := temperature;
       cr_top_p := top_p;
       cr_max_tokens := max_output_tokens;
       cr_response_format := response_format_param;
       cr_user := user;
       cr_seed := seed;
       cr_presence_penalty := presence_penalty;
       cr_frequency_penalty := frequency_penalty;
       cr_metadata := metadata |} in
  completion <- call (EvChatCreate request)
                  (fun w => chat_completions_create env w request) ;;
  match choices completion with
  | [] => raise (IndexError "list index out of range")
  | choice :: _ =>
      let text := _extract_text (message_content choice) in
      ret {| chat_text := text;
             chat_finish_reason := finish_reason choice;
             chat_model_used := completion_model completion;
             chat_usage := usage completion;
             chat_raw := model_dump completion |}
  end.

(** The [for item in response.data] loop of [generate_image]. *)
Fixpoint persist_images (items : list image_item) : M (list image_entry) :=
  match items with
  | [] => ret []
  | item :: rest =>
      persisted <- _persist_base64_media (b64_json item) "images" "png" (Some "image/png") ;;
      url <- lift (_require_blob_url persisted "image") ;;
      entries <- persist_images rest ;;
      ret ({| blob_url := url; revised_prompt := item_revised_prompt item |} :: entries)
  end.

Definition generate_image
    (prompt size quality : string) (count : Z) (user : option string)
  : M image_result :=
  let final_model := image_model (config self) in
  normalized_quality <- lift (normalize_quality quality) ;;
  normalized_size <- lift (normalize_size size) ;;
  let request :=
    {| ir_model := final_model;
       ir_prompt := prompt;
       ir_size := normalized_size;
       ir_quality := normalized_quality;
       ir_n := count;
       ir_user := user |} in
  response <- call (EvImagesGenerate request) (fun w => images_generate env w request) ;;
  entries <- persist_images (data response) ;;
  ret {| image_model_used :=
           match response_model response with Some m => m | None => final_model end;
         image_created := created response;
         images := entries |}.

Definition generate_audio
    (text : string) (model voice : option string) (response_format : string) (speed : Q)
  : M audio_result :=
  let final_model := Py.or_else model (audio_model (config self)) in
  let final_voice := Py.or_else voice (default_voice (config self)) in
  let request :=
    {| sr_model := final_model;
       sr_voice := final_voice;
       sr_input := text;
       sr_response_format := response_format;
       sr_speed := speed |} in
  audio_bytes <- call (EvSpeechCreate request) (fun w => audio_speech_create env w request) ;;
  persisted <- _persist_media_bytes (Some audio_bytes) "audio" response_format
                 (Some (_audio_content_type response_format)) ;;
  url <- lift (_require_blob_url persisted "audio") ;;
  ret {| audio_voice := final_voice;
         audio_format := response_format;
         audio_byte_length := List.length audio_bytes;
         audio_blob_url := url |}.

Definition generate_video
    (prompt : string) (model : option string) (seconds : Z) (size variant : string)
  : M video_result :=
  match provider (config self) with
  | azure => raise (RuntimeError "Azure OpenAI does not currently support video generation")
  | openai =>
      let final_model := Py.or_else model (video_model (config self)) in
      let request :=
        {| vr_prompt := prompt;
           vr_model := final_model;
           vr_seconds := seconds;
           vr_size := size |} in
      video_job <- call (EvVideosCreateAndPoll request)
                     (fun w => videos_create_and_poll env w request) ;;
      if negb (String.eqb (status video_job) "completed")
      then raise (RuntimeError
                    ("Video job " ++ video_id video_job
                     ++ " did not complete successfully (status=" ++ status video_job ++ ")"))
      else
        video_bytes <- call (EvVideosDownload (video_id video_job) variant)
                         (fun w => videos_download_content env w (video_id video_job) variant) ;;
        let (extension, content_type) := _video_variant_meta variant in
        persisted <- _persist_media_bytes (Some video_bytes) "videos" extension
                       (Some content_type) ;;
        url <- lift (_require_blob_url persisted "video") ;;
        ret {| vres_video_id := video_id video_job;
               vres_status := status video_job;
               vres_model := video_job_model video_job;
               vres_size := video_size video_job;
               vres_seconds := video_seconds video_job;
               vres_variant := variant;
               vres_byte_length := List.length video_bytes;
               vres_blob_url := url |}
  end.

End Service.

End OpenAIService.

(** ** The [generate_video] tool of [app.py] *)

Module App.

Section Tools.

Variable env : Env.
Variable service : OpenAIService.t.

Definition generate_video
    (prompt : string) (model : option string) (seconds : Z) (size variant : string)
  : M video_result :=
  let allowed_seconds := [4; 8; 12]%Z in
  if negb (existsb (Z.eqb seconds) allowed_seconds)
  then raise (ValueError "seconds must be one of 4, 8, or 12")
  else
    let allowed_variants := ["video"; "thumbnail"; "spritesheet"] in
    if negb (Py.mem variant allowed_variants)
    then raise (ValueError "variant must be video, thumbnail, or spritesheet")
    else OpenAIService.generate_video env service prompt model seconds size variant.

End Tools.

End App.

(** ** Reading the outside world's answers *)

(** Substring test, used to check what an error message names. *)
Fixpoint contains (sub s : string) : bool :=
  String.prefix sub s ||
  match s with
  | EmptyString => false
  | String _ r => contains sub r
  end.

Fixpoint all_chars (p : ascii -> bool) (s : string) : bool :=
  match s with
  | EmptyString => true
  | String c r => p c && all_chars p r
  end.

Definition is_digit (c : ascii) : bool :=
  let n := N_of_ascii c in ((48 <=? n) && (n <=? 57))%N.

Definition is_lower_hex (c : ascii) : bool :=
  let n := N_of_ascii c in
  (((48 <=? n) && (n <=? 57)) || ((97 <=? n) && (n <=? 102)))%N.

(** The answer of the storage backend to the upload that
    [_persist_media_bytes] attempts in world [w]. *)
Definition attempted_blob_name
    (env : Env) (storage : AzureBlobStorageConfig) (w : world) (category extension : string)
  : string :=
  AzureBlobUploader.blob_name_at storage (utcnow env w) (uuid4 env w) category
    (Py.lower (Py.str_or (Py.lstrip "." extension) "bin")).

Definition attempted_upload
    (env : Env) (storage : AzureBlobStorageConfig) (w : world)
    (content : Py.bytes) (category extension : string) (content_type : option string)
  : option exn :=
  upload_blob env w (attempted_blob_name env storage w category extension) content
    (Py.or_else content_type _DEFAULT_CONTENT_TYPE).

Definition attempted_upload_event
    (env : Env) (storage : AzureBlobStorageConfig) (w : world)
    (content : Py.bytes) (category extension : string) (content_type : option string)
  : event :=
  EvUploadBlob (attempted_blob_name env storage w category extension) content
    (Py.or_else content_type _DEFAULT_CONTENT_TYPE).

(** The requests the service sends for given arguments. *)
Definition speech_request_of
    (self : OpenAIService.t) (text : string) (model voice : option string)
    (response_format : string) (speed : Q) : speech_request :=
  {| sr_model := Py.or_else model (audio_model (OpenAIService.config self));
     sr_voice := Py.or_else voice (default_voice (OpenAIService.config self));
     sr_input := text;
     sr_response_format := response_format;
     sr_speed := speed |}.

Definition video_request_of
    (self : OpenAIService.t) (prompt : string) (model : option string) (seconds : Z)
    (size : string) : video_request :=
  {| vr_prompt := prompt;
     vr_model := Py.or_else model (video_model (OpenAIService.config self));
     vr_seconds := seconds;
     vr_size := size |}.

Definition images_request_of
    (self : OpenAIService.t) (prompt normalized_size normalized_quality : string)
    (count : Z) (user : option string) : images_request :=
  {| ir_model := image_model (OpenAIService.config self);
     ir_prompt := prompt;
     ir_size := normalized_size;
     ir_quality := normalized_quality;
     ir_n := count;
     ir_user := user |}.

(** ** Sample configurations and worlds *)

Definition sample_storage : AzureBlobStorageConfig :=
  {| connection_string := "UseDevelopmentStorage=true";
     container := "media";
     public_base_url := "https://cdn.example.net/media";
     path_prefix := Some "prod";
     image_root := "images";
     audio_root := "audio";
     video_root := "videos" |}.

Definition sample_config (p : Provider) : OpenAIConfig :=
  {| provider := p;
     api_key := "sk-test";
     base_url := None;
     organization := None;
     azure_endpoint := None;
     azure_api_version := None;
     azure_ad_token := None;
     chat_model := "gpt-4.1-mini";
     image_model := "gpt-image-1";
     audio_model := "gpt-4o-mini-tts";
     default_voice := "alloy";
     video_model := "sora-2" |}.

Definition sample_job : Video :=
  {| video_id := "video_123";
     status := "completed";
     video_job_model := "sora-2";
     video_size := "1280x720";
     video_seconds := "8" |}.

Definition sample_completion : completion :=
  {| choices := [ {| message_content := PStr "hello"; finish_reason := "stop" |} ];
     completion_model := "gpt-4.1-mini";
     usage := None;
     model_dump := PDict [] |}.

(** A world whose provider answers every call with [payload] (one image
    item carrying [b64]), whose storage answers every upload with
    [upload_answer], and whose base64 decoder knows one word. *)
Definition sample_env (payload : Py.bytes) (b64 : option string) (upload_answer : option exn)
  : Env :=
  {| chat_completions_create := fun _ _ => Ok sample_completion;
     images_generate := fun _ _ =>
       Ok {| data := [ {| b64_json := b64; item_revised_prompt := None |} ];
             response_model := None;
             created := 1762246080%Z |};
     audio_speech_create := fun _ _ => Ok payload;
     videos_create_and_poll := fun _ _ => Ok sample_job;
     videos_download_content := fun _ _ _ => Ok payload;
     upload_blob := fun _ _ _ _ => upload_answer;
     utcnow := fun _ =>
       {| year := 2026; month := 11; day := 4; hour := 8; minute := 48; second := 5 |};
     uuid4 := fun w => (7 + N.of_nat (List.length w))%N;
     b64decode := fun s => if String.eqb s "aGk=" then Some [x68; x69] else None |}.

Definition no_storage (p : Provider) : OpenAIService.t :=
  OpenAIService.__init__ (sample_config p) None.

Definition with_storage (p : Provider) : OpenAIService.t :=
  OpenAIService.__init__ (sample_config p) (Some sample_storage).

(** ** The specification's wording, for comparison *)

(** The spec's account of [_extract_text] on a chunk: text chunks give
    their text, tool-call chunks their textual representation, every
    other kind of chunk nothing. *)
Definition spec_chunk_text (chunk : pyval) : list string :=
  match chunk with
  | PDict d =>
      if PyVal.eq_str (PyVal.dict_get d "type") "text"
      then [PyVal.str (PyVal.dict_get d "text")]
      else if PyVal.eq_str (PyVal.dict_get d "type") "tool_call"
      then [PyVal.str chunk]
      else []
  | _ => []
  end.

Definition spec_extract_text (content : pyval) : string :=
  match content with
  | PNone => ""
  | PStr s => s
  | PList items => Py.join "" (flat_map spec_chunk_text items)
  | _ => ""
  end.

(** The spec's account of lines 71-76 of [chat_completion]: only the
    string equal to [json] becomes the structured-output directive. *)
Definition spec_response_format_param_of (response_format : option string)
  : option response_format_param :=
  match response_format with
  | Some rf =>
      if String.eqb rf "" then None
      else if String.eqb rf "json" then Some {| rf_type := "json_object" |}
      else Some {| rf_type := rf |}
  | None => None
  end.

(** The spec's account of [_root_for_category]: the five known names go to
    their configured roots, anything else to itself. *)
Definition spec_root_for_category (cfg : AzureBlobStorageConfig) (category : string) : string :=
  if String.eqb category "images" || String.eqb category "image" then image_root cfg
  else if String.eqb category "audio" then audio_root cfg
  else if String.eqb category "videos" || String.eqb category "video" then video_root cfg
  else category.

(** A segment followed by its separator, or nothing for an empty segment. *)
Definition segment_slash (s : string) : string :=
  if Py.truthy s then s ++ "/" else "".

Definition known_categories : list string :=
  ["images"; "image"; "audio"; "videos"; "video"].

Definition allowed_qualities : list string := ["low"; "medium"; "high"; "auto"].

Definition quality_error (quality : string) : exn :=
  ValueError ("quality must be one of auto, high, low, medium (received: "
              ++ Py.repr quality ++ ")").

(** ** Reading a timestamp back *)

Definition digit_value (c : ascii) : N := (N_of_ascii c - 48)%N.

Fixpoint decimal_value_from (acc : N) (s : string) : N :=
  match s with
  | EmptyString => acc
  | String c r => decimal_value_from (10 * acc + digit_value c) r
  end.

(** The number a string of decimal digits stands for. *)
Definition decimal_value (s : string) : N := decimal_value_from 0 s.

(** The instant a text of the form yyyyMMddTHHmmss stands for: four digits
    of year, two each of month and day, [T], two each of hour, minute and
    second. *)
Definition parse_timestamp (s : string) : option datetime :=
  if (String.length s =? 15)%nat
     && String.eqb (String.substring 8 1 s) "T"
     && all_chars is_digit (String.substring 0 8 s)
     && all_chars is_digit (String.substring 9 6 s)
  then Some {| year := decimal_value (String.substring 0 4 s);
               month := decimal_value (String.substring 4 2 s);
               day := decimal_value (String.substring 6 2 s);
               hour := decimal_value (String.substring 9 2 s);
               minute := decimal_value (String.substring 11 2 s);
               second := decimal_value (String.substring 13 2 s) |}
  else None.

(** The fields of a clock reading: a year of at most four digits, the
    others of at most two. *)
Definition clock_reading (t : datetime) : Prop :=
  (year t < 10000 /\ month t < 100 /\ day t < 100
   /\ hour t < 100 /\ minute t < 100 /\ second t < 100)%N.

(** A world whose clock shows [t], whose next UUID is [drawn] and whose
    storage accepts every upload. *)
Definition clock_env (t : datetime) (drawn : N) : Env :=
  {| chat_completions_create := chat_completions_create (sample_env [] None None);
     images_generate := images_generate (sample_env [] None None);
     audio_speech_create := audio_speech_create (sample_env [] None None);
     videos_create_and_poll := videos_create_and_poll (sample_env [] None None);
     videos_download_content := videos_download_content (sample_env [] None None);
     upload_blob := fun _ _ _ _ => None;
     utcnow := fun _ => t;
     uuid4 := fun _ => drawn;
     b64decode := b64decode (sample_env [] None None) |}.

(** A deployment that relocates every media type and uses no prefix. *)
Definition relocated_storage : AzureBlobStorageConfig :=
  {| connection_string := "UseDevelopmentStorage=true";
     container := "assets";
     public_base_url := "https://assets.example.org";
     path_prefix := None;
     image_root := "img/raw";
     audio_root := "snd";
     video_root := "vid" |}.

Definition new_year_eve : datetime :=
  {| year := 1999; month := 12; day := 31; hour := 23; minute := 59; second := 59 |}.

Definition early_january : datetime :=
  {| year := 2026; month := 1; day := 2; hour := 3; minute := 4; second := 5 |}.

(** ** More Python string helpers *)

Module PyText.

(** The ASCII characters [str.isspace] accepts. *)
Definition is_space (c : ascii) : bool :=
  let n := N_of_ascii c in
  (((9 <=? n) && (n <=? 13)) || ((28 <=? n) && (n <=? 32)))%N.

Fixpoint lstrip_by (p : ascii -> bool) (s : string) : string :=
  match s with
  | EmptyString => EmptyString
  | String a r => if p a then lstrip_by p r else s
  end.

Fixpoint rstrip_by (p : ascii -> bool) (s : string) : string :=
  match s with
  | EmptyString => EmptyString
  | String a r =>
      match rstrip_by p r with
      | EmptyString => if p a then EmptyString else String a EmptyString
      | r' => String a r'
      end
  end.

(** [s.strip()] *)
Definition strip_ws (s : string) : string := rstrip_by is_space (lstrip_by is_space s).

(** [s.split(c)] for a one-character separator: never an empty list. *)
Fixpoint split_on (c : ascii) (s : string) : list string :=
  match s with
  | EmptyString => [EmptyString]
  | String a r =>
      if Ascii.eqb a c then EmptyString :: split_on c r
      else match split_on c r with
           | [] => [String a EmptyString]
           | piece :: pieces => String a piece :: pieces
           end
  end.

(** [s.replace(c, d)] for one-character [c] and [d]. *)
Fixpoint replace_char (c d : ascii) (s : string) : string :=
  match s with
  | EmptyString => EmptyString
  | String a r => String (if Ascii.eqb a c then d else a) (replace_char c d r)
  end.

(** [s[:k]] *)
Fixpoint take (k : nat) (s : string) : string :=
  match k, s with
  | S k', String a r => String a (take k' r)
  | _, _ => EmptyString
  end.

Fixpoint drop (k : nat) (s : string) : string :=
  match k, s with
  | S k', String _ r => drop k' r
  | _, _ => s
  end.

(** [s[-k:]] for [k > 0]: the last [k] characters, all of [s] when shorter. *)
Definition last_chars (k : nat) (s : string) : string := drop (String.length s - k) s.

Definition is_ascii (s : string) : bool := all_chars (fun c => (N_of_ascii c <? 128)%N) s.

(** [a or b] for two optional strings. *)
Definition opt_or (a b : option string) : option string :=
  if Py.truthy_opt a then a else b.

End PyText.

(** ** [config.py]: settings read from the environment *)

Module Config.

Section FromEnv.

(** [os.getenv(name)]: [None] for a variable that is not set. *)
Variable getenv : string -> option string.

(** [os.getenv(name, default)] *)
Definition getenv_default (name default : string) : string :=
  match getenv name with
  | Some v => v
  | None => default
  end.

Definition _require (name : string) : outcome string :=
  match getenv name with
  | Some value =>
      if Py.truthy value then Ok value
      else Raise (RuntimeError ("Missing required environment variable: " ++ name))
  | None => Raise (RuntimeError ("Missing required environment variable: " ++ name))
  end.

Definition _as_scopes (raw : option string) : list string :=
  match raw with
  | None => []
  | Some r =>
      if negb (Py.truthy r) then []
      else
        let separators := [","%char; " "%char] in
        let replaced :=
          fold_left (fun acc sep => PyText.replace_char sep " " acc) separators r in
        flat_map
          (fun scope =>
             if Py.truthy (PyText.strip_ws scope) then [PyText.strip_ws scope] else [])
          (PyText.split_on " " replaced)
  end.

Definition _value_with_fallback (primary_var : string) (fallback : option string)
    (default : string) : string :=
  let primary := getenv primary_var in
  if Py.truthy_opt primary && Py.truthy (PyText.strip_ws (Py.or_else primary ""))
  then PyText.strip_ws (Py.or_else primary "")
  else if Py.truthy_opt fallback && Py.truthy (PyText.strip_ws (Py.or_else fallback ""))
  then PyText.strip_ws (Py.or_else fallback "")
  else default.

Definition _normalize_path_segment (raw : option string) : option string :=
  match raw with
  | None => None
  | Some r =>
      if negb (Py.truthy r) then None
      else
        let trimmed := Py.strip "/" (PyText.strip_ws r) in
        if negb (Py.truthy trimmed) then None
        else
          let parts := filter Py.truthy (PyText.split_on "/" trimmed) in
          match parts with
          | [] => None
          | _ => Some (Py.join "/" parts)
          end
  end.

(** [_normalize_path_segment(raw) or default] *)
Definition normalized_or (raw : option string) (default : string) : string :=
  Py.or_else (_normalize_path_segment raw) default.

Definition _load_blob_storage_config : option AzureBlobStorageConfig :=
  let connection_string := getenv "AZURE_STORAGE_CONNECTION_STRING" in
  let container := getenv "AZURE_BLOB_CONTAINER" in
  let public_base_url := getenv "AZURE_BLOB_PUBLIC_BASE_URL" in
  if negb (Py.truthy_opt connection_string && Py.truthy_opt container
           && Py.truthy_opt public_base_url)
  then None
  else
    let prefix := getenv "AZURE_BLOB_PATH_PREFIX" in
    let normalized_prefix := _normalize_path_segment prefix in
    let image_root := normalized_or (getenv "AZURE_BLOB_IMAGE_ROOT") "images" in
    let audio_root := normalized_or (getenv "AZURE_BLOB_AUDIO_ROOT") "audio" in
    let video_root := normalized_or (getenv "AZURE_BLOB_VIDEO_ROOT") "videos" in
    Some {| connection_string := Py.or_else connection_string "";
            container := Py.or_else container "";
            public_base_url := Py.rstrip "/" (Py.or_else public_base_url "");
            path_prefix := normalized_prefix;
            image_root := image_root;
            audio_root := audio_root;
            video_root := video_root |}.

Definition _load_openai_config : outcome OpenAIConfig :=
  let use_azure := Py.truthy_opt (getenv "AZURE_OPENAI_ENDPOINT") in
  let default_voice := getenv_default "OPENAI_DEFAULT_VOICE" "alloy" in
  if use_azure then
    match _require "AZURE_OPENAI_API_KEY" with
    | Raise e => Raise e
    | Ok api_key =>
        match _require "AZURE_OPENAI_ENDPOINT" with
        | Raise e => Raise e
        | Ok endpoint =>
            let api_version :=
              Py.or_else (getenv "AZURE_OPENAI_API_VERSION")
                (getenv_default "OPENAI_API_VERSION" "2024-10-21") in
            let chat_model :=
              _value_with_fallback "AZURE_OPENAI_CHAT_DEPLOYMENT"
                (PyText.opt_or (getenv "AZURE_OPENAI_DEPLOYMENT") (getenv "OPENAI_CHAT_MODEL"))
                "gpt-4o-mini" in
            let image_model :=
              _value_with_fallback "AZURE_OPENAI_IMAGE_DEPLOYMENT"
                (PyText.opt_or (getenv "AZURE_OPENAI_DEPLOYMENT") (getenv "OPENAI_IMAGE_MODEL"))
                "gpt-image-1" in
            let audio_model :=
              _value_with_fallback "AZURE_OPENAI_AUDIO_DEPLOYMENT"
                (PyText.opt_or (getenv "AZURE_OPENAI_DEPLOYMENT") (getenv "OPENAI_AUDIO_MODEL"))
                "gpt-4o-mini-tts" in
            Ok {| provider := azure;
                  api_key := api_key;
                  base_url := None;
                  organization := None;
                  azure_endpoint := Some endpoint;
                  azure_api_version := Some api_version;
                  azure_ad_token := getenv "AZURE_OPENAI_AD_TOKEN";
                  chat_model := chat_model;
                  image_model := image_model;
                  audio_model := audio_model;
                  default_voice := default_voice;
                  video_model :=
                    _value_with_fallback "AZURE_OPENAI_VIDEO_DEPLOYMENT"
                      (PyText.opt_or (getenv "AZURE_OPENAI_DEPLOYMENT")
                         (getenv "OPENAI_VIDEO_MODEL"))
                      "sora-2" |}
        end
    end
  else
    match _require "OPENAI_API_KEY" with
    | Raise e => Raise e
    | Ok api_key =>
        Ok {| provider := openai;
              api_key := api_key;
              base_url := getenv "OPENAI_BASE_URL";
              organization := getenv "OPENAI_ORG";
              azure_endpoint := None;
              azure_api_version := None;
              azure_ad_token := None;
              chat_model := getenv_default "OPENAI_CHAT_MODEL" "gpt-4.1-mini";
              image_model := getenv_default "OPENAI_IMAGE_MODEL" "gpt-image-1";
              audio_model := getenv_default "OPENAI_AUDIO_MODEL" "gpt-4o-mini-tts";
              default_voice := default_voice;
              video_model := getenv_default "OPENAI_VIDEO_MODEL" "sora-2" |}
    end.

End FromEnv.

End Config.

(** ** [OpenAIService.list_supported_models] *)

Module ServiceModels.

Record model_entry : Type := {
  configured_model : string;
  entry_provider : Provider;
  azure_supported : bool;
  notes : option string
}.

Record provider_metadata : Type := {
  meta_provider : Provider;
  meta_base_url : option string;
  meta_azure_endpoint : option string
}.

(** The returned dict: the capability entries in insertion order, and the
    [_provider] entry when it was asked for. *)
Record models_payload : Type := {
  capabilities : list (string * model_entry);
  _provider : option provider_metadata
}.

Definition _CAPABILITY_TO_FIELD : list (string * (OpenAIConfig -> string)) :=
  [ ("chat", chat_model); ("image", image_model);
    ("audio", audio_model); ("video", video_model) ].

Definition video_notes : string :=
  "Video generation requires api.openai.com; Azure deployments do not support /videos.".

Definition provider_is_azure (p : Provider) : bool :=
  match p with
  | azure => true
  | openai => false
  end.

(** One pass of the loop body for the pair [(cap, field_name)]. *)
Definition capability_entry (self : OpenAIService.t) (normalized : option string)
    (item : string * (OpenAIConfig -> string)) : list (string * model_entry) :=
  let (cap, field) := item in
  if Py.truthy_opt normalized && negb (String.eqb cap (Py.or_else normalized ""))
  then []
  else
    let model_name := field (OpenAIService.config self) in
    if negb (Py.truthy model_name) then []
    else
      [ (cap,
         {| configured_model := model_name;
            entry_provider := provider (OpenAIService.config self);
            azure_supported :=
              provider_is_azure (provider (OpenAIService.config self))
              && negb (String.eqb cap "video");
            notes := if String.eqb cap "video" then Some video_notes else None |}) ].

(** The coroutine awaits nothing: its result is a value or an exception. *)
Definition list_supported_models (self : OpenAIService.t) (capability : option string)
    (include_provider_metadata : bool) : outcome models_payload :=
  let normalized :=
    match capability with
    | Some c => if Py.truthy c then Some (Py.lower c) else None
    | None => None
    end in
  if Py.truthy_opt normalized
     && negb (Py.mem (Py.or_else normalized "") (map fst _CAPABILITY_TO_FIELD))
  then Raise (ValueError "capability must be one of chat, image, audio, video")
  else
    Ok {| capabilities := flat_map (capability_entry self normalized) _CAPABILITY_TO_FIELD;
          _provider :=
            if include_provider_metadata
            then Some {| meta_provider := provider (OpenAIService.config self);
                         meta_base_url := base_url (OpenAIService.config self);
                         meta_azure_endpoint := azure_endpoint (OpenAIService.config self) |}
            else None |}.

End ServiceModels.

(** ** The other tools of [app.py] *)

Module AppTools.

Inductive ModelCapability : Type := CHAT | IMAGE | AUDIO | VIDEO.

Definition value (m : ModelCapability) : string :=
  match m with
  | CHAT => "chat"
  | IMAGE => "image"
  | AUDIO => "audio"
  | VIDEO => "video"
  end.

(** What the [capability] argument can be at run time: an enum member, a
    plain string, or anything else ([None]). *)
Inductive capability_arg : Type :=
| Member (m : ModelCapability)
| Plain (s : string)
| Absent.

Section Tools.

Variable env : Env.
Variable service : OpenAIService.t.

Definition generate_image (prompt size quality : string) (count : Z) (user : option string)
  : M image_result :=
  if negb ((1 <=? count)%Z && (count <=? 10)%Z)
  then raise (ValueError "count must be between 1 and 10")
  else OpenAIService.generate_image env service prompt size quality count user.

Definition synthesize_speech (text : string) (model voice : option string)
    (response_format : string) (speed : Q) : M audio_result :=
  OpenAIService.generate_audio env service text model voice response_format speed.

Definition list_supported_models (capability : capability_arg)
    (include_provider_metadata : bool) : M ServiceModels.models_payload :=
  let normalized :=
    match capability with
    | Member m => Some (value m)
    | Plain s => Some (Py.lower s)
    | Absent => None
    end in
  lift (ServiceModels.list_supported_models service normalized include_provider_metadata).

End Tools.

End AppTools.

(** ** [auth.py] *)

Module Auth.

Record AccessToken : Type := {
  token : string;
  client_id : string;
  scopes : list string;
  expires_at : option Z;
  claims : list (string * string)
}.

Record StaticAPIKeyAuth : Type := {
  _api_key : string;
  required_scopes : list string
}.

Definition _mask_token (tok : option string) : string :=
  match tok with
  | None => "<missing>"
  | Some t =>
      if negb (Py.truthy t) then "<missing>"
      else if (String.length t <=? 8)%nat
      then PyText.take 2 t ++ "***" ++ PyText.last_chars 2 t
      else PyText.take 4 t ++ "***" ++ PyText.last_chars 4 t
  end.

(** A log record: its level, its message and the [extra] mapping. *)
Record log_record : Type := {
  level : string;
  message : string;
  extra : list (string * pyval)
}.

(** [verify_token] returns a token, returns [None], or lets the [TypeError]
    of [secrets.compare_digest] on non-ASCII text escape. *)
Inductive verification : Type :=
| Verified (t : AccessToken)
| Refused
| CompareTypeError.

Definition verify_token (self : StaticAPIKeyAuth) (tok : string)
  : verification * list log_record :=
  let masked := _mask_token (Some tok) in
  let scopes_logged := PList (map PStr (required_scopes self)) in
  let debug :=
    {| level := "debug"; message := "StaticAPIKeyAuth verifying token";
       extra := [ ("masked_token", PStr masked);
                  ("provided", PBool (Py.truthy tok));
                  ("required_scopes", scopes_logged) ] |} in
  let rejected :=
    {| level := "warning"; message := "API key rejected";
       extra := [ ("masked_token", PStr masked); ("provided", PBool (Py.truthy tok)) ] |} in
  if Py.truthy tok then
    if negb (PyText.is_ascii tok && PyText.is_ascii (_api_key self))
    then (CompareTypeError, [debug])
    else if String.eqb tok (_api_key self)
    then (Verified {| token := tok;
                      client_id := "static-api-key";
                      scopes := required_scopes self;
                      expires_at := None;
                      claims := [("auth", "api-key")] |},
          [debug; {| level := "info"; message := "API key accepted";
                     extra := [ ("masked_token", PStr masked);
                                ("scopes", scopes_logged) ] |}])
    else (Refused, [debug; rejected])
  else (Refused, [debug; rejected]).

End Auth.

(** ** Kinds of interaction *)

Definition is_provider_call (ev : event) : bool :=
  match ev with
  | EvChatCreate _ | EvImagesGenerate _ | EvSpeechCreate _
  | EvVideosCreateAndPoll _ | EvVideosDownload _ _ => true
  | _ => false
  end.

Definition is_upload (ev : event) : bool :=
  match ev with
  | EvUploadBlob _ _ _ => true
  | _ => false
  end.

(** The extension [_persist_media_bytes] hands to the uploader. *)
Definition sanitized_extension (extension : string) : string :=
  Py.lower (Py.str_or (Py.lstrip "." extension) "bin").

(** An in-memory environment. *)
Fixpoint environ (vars : list (string * string)) (name : string) : option string :=
  match vars with
  | [] => None
  | (k, v) :: rest => if String.eqb name k then Some v else environ rest name
  end.

Definition allowed_sizes : list string := ["1024x1024"; "1024x1536"; "1536x1024"; "auto"].

Definition size_error (size : string) : exn :=
  ValueError ("size must be one of 1024x1024, 1024x1536, 1536x1024, auto (received: "
              ++ Py.repr size ++ ")").

(** No provider call among the events, and at most [n] uploads. *)
Definition storage_only (n : nat) (events : list event) : Prop :=
  Forall (fun ev => is_provider_call ev = false) events
  /\ (List.length (filter is_upload events) <= n)%nat.

(** The request [chat_completion] sends for given arguments. *)
Definition chat_request_of
    (self : OpenAIService.t) (prompt : string) (system_prompt model : option string)
    (temperature top_p : Q) (max_output_tokens : option Z)
    (user response_format : option string) (presence_penalty frequency_penalty : Q)
    (seed : option Z) (metadata : option pyval) : chat_request :=
  {| cr_model := Py.or_else model (chat_model (OpenAIService.config self));
     cr_messages := OpenAIService._build_messages prompt system_prompt;
     cr_temperature := temperature;
     cr_top_p := top_p;
     cr_max_tokens := max_output_tokens;
     cr_response_format := OpenAIService.response_format_param_of response_format;
     cr_user := user;
     cr_seed := seed;
     cr_presence_penalty := presence_penalty;
     cr_frequency_penalty := frequency_penalty;
     cr_metadata := metadata |}.

Definition job_failure_msg (job : Video) : string :=
  "Video job " ++ video_id job ++ " did not complete successfully (status="
  ++ status job ++ ")".

Definition allowed_variants : list string := ["video"; "thumbnail"; "spritesheet"].

(** A provider that refuses every call and reports every video job failed. *)
Definition rate_limited : exn := ExternalError "RateLimitError" "429".

Definition failing_provider : Env :=
  {| chat_completions_create := fun _ _ => Raise rate_limited;
     images_generate := fun _ _ => Raise rate_limited;
     audio_speech_create := fun _ _ => Raise rate_limited;
     videos_create_and_poll := fun _ _ =>
       Ok {| video_id := "video_9"; status := "failed"; video_job_model := "sora-2";
             video_size := "1280x720"; video_seconds := "4" |};
     videos_download_content := fun _ _ _ => Raise rate_limited;
     upload_blob := fun _ _ _ _ => None;
     utcnow := utcnow (sample_env [] None None);
     uuid4 := uuid4 (sample_env [] None None);
     b64decode := b64decode (sample_env [] None None) |}.


(** One returned image, the entry built for it and the upload behind it. *)
Definition image_backed_by_upload
    (env : Env) (self : OpenAIService.t) (triple : image_item * (image_entry * event))
  : Prop :=
  let '(item, (entry, ev)) := triple in
  exists storage b64 decoded stem,
    OpenAIService._blob_uploader self = Some storage
    /\ b64_json item = Some b64
    /\ b64decode env b64 = Some decoded
    /\ decoded <> []
    /\ ev = EvUploadBlob (stem ++ ".png") decoded "image/png"
    /\ blob_url entry = public_base_url storage ++ "/" ++ stem ++ ".png"
    /\ revised_prompt entry = item_revised_prompt item.


(** What [generate_video] may put on record for a given request and variant:
    the job request, a download of that variant, an upload tagged and named
    after the variant, or a log record. *)
Definition video_event_ok (req : video_request) (variant : string) (ev : event) : Prop :=
  ev = EvVideosCreateAndPoll req
  \/ (exists id, ev = EvVideosDownload id variant)
  \/ (exists stem content,
        ev = EvUploadBlob
               (stem ++ "." ++ sanitized_extension (fst (OpenAIService._video_variant_meta variant)))
               content (snd (OpenAIService._video_variant_meta variant)))
  \/ (exists msg, ev = EvLogException msg).


Definition capability_names : list string := ["chat"; "image"; "audio"; "video"].

(** What an entry of the payload says about its capability. *)
Definition entry_describes (self : OpenAIService.t)
    (pair : string * ServiceModels.model_entry) : Prop :=
  let (cap, entry) := pair in
  (exists field,
     In (cap, field) ServiceModels._CAPABILITY_TO_FIELD
     /\ ServiceModels.configured_model entry = field (OpenAIService.config self))
  /\ ServiceModels.configured_model entry <> ""
  /\ ServiceModels.entry_provider entry = provider (OpenAIService.config self)
  /\ (ServiceModels.azure_supported entry = true
      <-> provider (OpenAIService.config self) = azure /\ cap <> "video")
  /\ (ServiceModels.notes entry = Some ServiceModels.video_notes <-> cap = "video")
  /\ (ServiceModels.notes entry = None <-> cap <> "video").


(** A path whose [/]-separated segments are all non-empty: it is not empty,
    has no leading or trailing slash and no doubled slash. *)
Definition clean_path (s : string) : bool :=
  forallb Py.truthy (PyText.split_on "/" s).


(** A scope as a caller would write it: not empty, without a comma and
    without any whitespace. *)
Definition plain_scope (scope : string) : Prop :=
  scope <> ""
  /\ Py.contains_char "," scope = false
  /\ all_chars (fun c => negb (PyText.is_space c)) scope = true.


(** The three settings without which there is no storage configuration. *)
Definition storage_settings_present (getenv : string -> option string) : bool :=
  Py.truthy_opt (getenv "AZURE_STORAGE_CONNECTION_STRING")
  && Py.truthy_opt (getenv "AZURE_BLOB_CONTAINER")
  && Py.truthy_opt (getenv "AZURE_BLOB_PUBLIC_BASE_URL").

Definition sample_environ : string -> option string :=
  environ [ ("AZURE_OPENAI_ENDPOINT", "https://example.openai.azure.com");
            ("AZURE_OPENAI_API_KEY", "azure-key");
            ("AZURE_OPENAI_DEPLOYMENT", " shared-deployment ");
            ("AZURE_STORAGE_CONNECTION_STRING", "UseDevelopmentStorage=true");
            ("AZURE_BLOB_CONTAINER", "media");
            ("AZURE_BLOB_PUBLIC_BASE_URL", "https://cdn.example.net/media//");
            ("AZURE_BLOB_PATH_PREFIX", " /prod//eu/ ");
            ("AZURE_BLOB_IMAGE_ROOT", "///") ].


(** What [sample_environ] yields as a storage configuration. *)
Definition sample_loaded_storage : AzureBlobStorageConfig :=
  {| connection_string := "UseDevelopmentStorage=true";
     container := "media";
     public_base_url := "https://cdn.example.net/media";
     path_prefix := Some "prod/eu";
     image_root := "images";
     audio_root := "audio";
     video_root := "videos" |}.

(** The variable holding the API key for the provider the environment selects. *)
Definition api_key_variable (getenv : string -> option string) : string :=
  if Py.truthy_opt (getenv "AZURE_OPENAI_ENDPOINT")
  then "AZURE_OPENAI_API_KEY" else "OPENAI_API_KEY".

(** * Properties *)

(** ** Strings *)

Section StringFacts.

Lemma append_nil_r (s : string) : s ++ "" = s.
Proof. induction s as [|c s IH]; simpl; [reflexivity | now rewrite IH]. Qed.

Lemma append_assoc (a b c : string) : (a ++ b) ++ c = a ++ (b ++ c).
Proof. induction a as [|x a IH]; simpl; [reflexivity | now rewrite IH]. Qed.

Lemma length_append (a b : string) :
  String.length (a ++ b) = String.length a + String.length b.
Proof. induction a as [|x a IH]; simpl; [reflexivity | now rewrite IH]. Qed.

Lemma all_chars_append (p : ascii -> bool) (a b : string) :
  all_chars p (a ++ b) = all_chars p a && all_chars p b.
Proof.
  induction a as [|x a IH]; simpl; [reflexivity|].
  rewrite IH. now rewrite andb_assoc.
Qed.

Lemma truthy_append_r (a b : string) : Py.truthy b = true -> Py.truthy (a ++ b) = true.
Proof. destruct a; simpl; auto. Qed.

Lemma truthy_false_iff (s : string) : Py.truthy s = false <-> s = "".
Proof. destruct s; simpl; split; intro H; try reflexivity; discriminate. Qed.

Lemma truthy_true_iff (s : string) : Py.truthy s = true <-> s <> "".
Proof.
  destruct s; simpl; split; intro H; try reflexivity; try discriminate.
  now contradiction H.
Qed.

Lemma str_or_nonempty (s d : string) : s <> "" -> Py.str_or s d = s.
Proof. intro H. unfold Py.str_or. now rewrite (proj2 (truthy_true_iff s) H). Qed.

Lemma join_empty_app (l1 l2 : list string) :
  Py.join "" (l1 ++ l2)%list = Py.join "" l1 ++ Py.join "" l2.
Proof.
  induction l1 as [|a l1 IH]; [reflexivity|].
  change ((a :: l1) ++ l2)%list with (a :: (l1 ++ l2))%list.
  assert (Hcons : forall l, Py.join "" (a :: l) = a ++ Py.join "" l).
  { intros [|b l]; simpl; [now rewrite append_nil_r | reflexivity]. }
  now rewrite !Hcons, IH, append_assoc.
Qed.

Lemma digit_char_is_digit (n : N) : is_digit (Py.digit_char n) = true.
Proof.
  unfold is_digit, Py.digit_char.
  assert (H : (n mod 10 < 10)%N) by (apply N.mod_lt; discriminate).
  generalize dependent (n mod 10)%N. intros m H.
  rewrite N_ascii_embedding by lia.
  apply andb_true_intro; split; apply N.leb_le; lia.
Qed.

Lemma hex_char_is_lower_hex (n : N) : is_lower_hex (Py.hex_char n) = true.
Proof.
  unfold is_lower_hex, Py.hex_char.
  assert (H : (n mod 16 < 16)%N) by (apply N.mod_lt; discriminate).
  generalize dependent (n mod 16)%N. intros m H. cbv zeta.
  destruct (N.ltb_spec m 10) as [Hlt | Hge];
    rewrite N_ascii_embedding by lia; apply orb_true_iff; [left | right];
    apply andb_true_intro; split; apply N.leb_le; lia.
Qed.

Lemma zpad_length (k : nat) (n : N) : String.length (Py.zpad k n) = k.
Proof.
  revert n; induction k as [|k IH]; intro n; simpl; [reflexivity|].
  rewrite length_append, IH. simpl. lia.
Qed.

Lemma zpad_digits (k : nat) (n : N) : all_chars is_digit (Py.zpad k n) = true.
Proof.
  revert n; induction k as [|k IH]; intro n; simpl; [reflexivity|].
  rewrite all_chars_append, IH. simpl. now rewrite digit_char_is_digit.
Qed.

Lemma hex_lower_length (k : nat) (n : N) : String.length (Py.hex_lower k n) = k.
Proof.
  revert n; induction k as [|k IH]; intro n; simpl; [reflexivity|].
  rewrite length_append, IH. simpl. lia.
Qed.

Lemma hex_lower_chars (k : nat) (n : N) : all_chars is_lower_hex (Py.hex_lower k n) = true.
Proof.
  revert n; induction k as [|k IH]; intro n; simpl; [reflexivity|].
  rewrite all_chars_append, IH. simpl. now rewrite hex_char_is_lower_hex.
Qed.

(** The rendered timestamp is eight digits, a [T], six digits. *)
Lemma strftime_shape (t : datetime) :
  exists d h : string,
    strftime t = d ++ "T" ++ h
    /\ String.length d = 8 /\ all_chars is_digit d = true
    /\ String.length h = 6 /\ all_chars is_digit h = true.
Proof.
  exists (Py.zpad 4 (year t) ++ Py.zpad 2 (month t) ++ Py.zpad 2 (day t)),
         (Py.zpad 2 (hour t) ++ Py.zpad 2 (minute t) ++ Py.zpad 2 (second t)).
  unfold strftime.
  split; [now rewrite !append_assoc|].
  split; [now rewrite !length_append, !zpad_length|].
  split; [now rewrite !all_chars_append, !zpad_digits|].
  split; [now rewrite !length_append, !zpad_length|].
  now rewrite !all_chars_append, !zpad_digits.
Qed.

Lemma strftime_truthy (t : datetime) : Py.truthy (strftime t) = true.
Proof.
  destruct (strftime_shape t) as (d & h & E & Hd & _).
  rewrite E. destruct d; [discriminate Hd | reflexivity].
Qed.

Lemma uuid_hex_shape (n : N) :
  String.length (uuid_hex n) = 32 /\ all_chars is_lower_hex (uuid_hex n) = true.
Proof. split; [apply hex_lower_length | apply hex_lower_chars]. Qed.

End StringFacts.

Example strftime_sample :
  strftime {| year := 2026; month := 11; day := 4; hour := 8; minute := 48; second := 5 |}
  = "20261104T084805".
Proof. reflexivity. Qed.

Example uuid_hex_sample : uuid_hex 48879 = "0000000000000000000000000000beef".
Proof. reflexivity. Qed.

Example repr_plain : Py.repr "ultra" = "'ultra'".
Proof. reflexivity. Qed.

Example repr_with_quote : Py.repr "it's" = String Py.dquote ("it's" ++ String Py.dquote "").
Proof. reflexivity. Qed.

Example str_of_Z_samples : Py.str_of_Z 120 = "120" /\ Py.str_of_Z (-7) = "-7".
Proof. split; reflexivity. Qed.

Example sorted_qualities :
  Py.sorted ["low"; "medium"; "high"; "auto"] = ["auto"; "high"; "low"; "medium"].
Proof. reflexivity. Qed.

Example strip_slashes : Py.strip "/" "//a/b/" = "a/b" /\ Py.strip "/" "///" = "".
Proof. split; reflexivity. Qed.

(** ** Category roots *)

Lemma mem_cons_false (x y : string) (l : list string) :
  Py.mem x (y :: l) = false -> String.eqb x y = false /\ Py.mem x l = false.
Proof. unfold Py.mem; simpl. intro H. now apply orb_false_elim in H. Qed.

Lemma mem_cons_true (x y : string) (l : list string) :
  Py.mem x (y :: l) = true -> x = y \/ Py.mem x l = true.
Proof.
  unfold Py.mem; simpl. intro H. apply orb_true_iff in H as [H | H]; [left | now right].
  now apply String.eqb_eq.
Qed.

Lemma root_for_category_normalized (cfg : AzureBlobStorageConfig) (c : string) :
  AzureBlobUploader._root_for_category cfg c
  = spec_root_for_category cfg (Py.str_or (Py.strip "/" (Py.str_or c "media")) "media").
Proof.
  unfold AzureBlobUploader._root_for_category, spec_root_for_category.
  generalize (Py.str_or (Py.strip "/" (Py.str_or c "media")) "media"); intro n.
  cbn [Py.get].
  destruct (String.eqb n "images"), (String.eqb n "image"), (String.eqb n "audio"),
    (String.eqb n "videos"), (String.eqb n "video"); reflexivity.
Qed.

Lemma spec_root_unknown (cfg : AzureBlobStorageConfig) (c : string) :
  Py.mem c known_categories = false -> spec_root_for_category cfg c = c.
Proof.
  intro H. unfold known_categories in H.
  apply mem_cons_false in H as [H1 H]. apply mem_cons_false in H as [H2 H].
  apply mem_cons_false in H as [H3 H]. apply mem_cons_false in H as [H4 H].
  apply mem_cons_false in H as [H5 _].
  unfold spec_root_for_category. now rewrite H1, H2, H3, H4, H5.
Qed.

(** C7 (as amended): the five known names resolve to the three configured
    roots, [image]/[images] and [video]/[videos] pairwise to the same one, so
    that blob names built under [image] and [images] coincide.  Any category
    is first stripped of leading and trailing slashes, [media] standing in
    when nothing remains, and then looked up: a stripped name that is in the
    table resolves to its configured root, one that is not resolves to the
    stripped name, and so a name outside the table that is non-empty and
    already free of such slashes resolves to itself. *)
Theorem root_for_category_mapping (cfg : AzureBlobStorageConfig) :
  AzureBlobUploader._root_for_category cfg "image" = image_root cfg
  /\ AzureBlobUploader._root_for_category cfg "images" = image_root cfg
  /\ AzureBlobUploader._root_for_category cfg "video" = video_root cfg
  /\ AzureBlobUploader._root_for_category cfg "videos" = video_root cfg
  /\ AzureBlobUploader._root_for_category cfg "audio" = audio_root cfg
  /\ (forall now drawn extension,
        AzureBlobUploader.blob_name_at cfg now drawn "image" extension
        = AzureBlobUploader.blob_name_at cfg now drawn "images" extension)
  /\ (forall c,
        let stripped := Py.str_or (Py.strip "/" (Py.str_or c "media")) "media" in
        Py.mem stripped known_categories = false ->
        AzureBlobUploader._root_for_category cfg c = stripped)
  /\ (forall c,
        c <> "" -> Py.strip "/" c = c -> Py.mem c known_categories = false ->
        AzureBlobUploader._root_for_category cfg c = c)
  /\ (forall c,
        AzureBlobUploader._root_for_category cfg c
        = spec_root_for_category cfg (Py.str_or (Py.strip "/" (Py.str_or c "media")) "media"))
  /\ (forall c,
        let stripped := Py.str_or (Py.strip "/" (Py.str_or c "media")) "media" in
        stripped = "images" \/ stripped = "image" ->
        AzureBlobUploader._root_for_category cfg c = image_root cfg)
  /\ (forall c,
        let stripped := Py.str_or (Py.strip "/" (Py.str_or c "media")) "media" in
        stripped = "audio" ->
        AzureBlobUploader._root_for_category cfg c = audio_root cfg)
  /\ (forall c,
        let stripped := Py.str_or (Py.strip "/" (Py.str_or c "media")) "media" in
        stripped = "videos" \/ stripped = "video" ->
        AzureBlobUploader._root_for_category cfg c = video_root cfg).
Proof.
  repeat match goal with |- _ /\ _ => split end; try reflexivity.
  - intros c stripped H. subst stripped.
    rewrite root_for_category_normalized. now apply spec_root_unknown.
  - intros c Hne Hstrip Hmem.
    rewrite root_for_category_normalized.
    rewrite (str_or_nonempty c "media" Hne), Hstrip, (str_or_nonempty c "media" Hne).
    now apply spec_root_unknown.
  - apply root_for_category_normalized.
  - intros c stripped H. subst stripped. rewrite root_for_category_normalized.
    destruct H as [-> | ->]; reflexivity.
  - intros c stripped H. subst stripped. rewrite root_for_category_normalized.
    now rewrite H.
  - intros c stripped H. subst stripped. rewrite root_for_category_normalized.
    destruct H as [-> | ->]; reflexivity.
Qed.

Lemma root_for_category_mapping_witness :
  AzureBlobUploader._root_for_category sample_storage "/clips/" = "clips"
  /\ AzureBlobUploader._root_for_category sample_storage "thumbnails" = "thumbnails"
  /\ AzureBlobUploader._root_for_category relocated_storage "/images/" = "img/raw"
  /\ AzureBlobUploader._root_for_category relocated_storage "audio/" = "snd"
  /\ AzureBlobUploader._root_for_category relocated_storage "//video" = "vid".
Proof.
  split; [|split; [|split; [|split]]].
  - destruct (root_for_category_mapping sample_storage)
      as (_ & _ & _ & _ & _ & _ & Hunknown & _).
    apply (Hunknown "/clips/"). reflexivity.
  - destruct (root_for_category_mapping sample_storage)
      as (_ & _ & _ & _ & _ & _ & _ & Hliteral & _).
    apply (Hliteral "thumbnails"); [discriminate | reflexivity | reflexivity].
  - destruct (root_for_category_mapping relocated_storage)
      as (_ & _ & _ & _ & _ & _ & _ & _ & _ & Himage & _).
    apply (Himage "/images/"). left. reflexivity.
  - destruct (root_for_category_mapping relocated_storage)
      as (_ & _ & _ & _ & _ & _ & _ & _ & _ & _ & Haudio & _).
    apply (Haudio "audio/"). reflexivity.
  - destruct (root_for_category_mapping relocated_storage)
      as (_ & _ & _ & _ & _ & _ & _ & _ & _ & _ & _ & Hvideo).
    apply (Hvideo "//video"). right. reflexivity.
Defined.

(** C7 (as stated) fails: a category outside the table need not resolve to
    its own literal name. *)
Lemma root_for_category_not_literal :
  Py.mem "/clips/" known_categories = false
  /\ spec_root_for_category sample_storage "/clips/" = "/clips/"
  /\ AzureBlobUploader._root_for_category sample_storage "/clips/" = "clips"
  /\ AzureBlobUploader._root_for_category sample_storage "/clips/"
     <> spec_root_for_category sample_storage "/clips/".
Proof. repeat split; discriminate. Qed.

(** ** Chat: response format and text extraction *)

Lemma response_format_cases (response_format : option string) :
  (forall s, response_format = Some s -> Py.lower s = "json" ->
     OpenAIService.response_format_param_of response_format
     = Some {| rf_type := "json_object" |})
  /\ (forall s, response_format = Some s -> s <> "" -> Py.lower s <> "json" ->
        OpenAIService.response_format_param_of response_format = Some {| rf_type := s |})
  /\ (response_format = None \/ response_format = Some "" ->
        OpenAIService.response_format_param_of response_format = None).
Proof.
  unfold OpenAIService.response_format_param_of.
  split; [|split].
  - intros s -> Hjson. rewrite Hjson.
    destruct s; [discriminate Hjson | reflexivity].
  - intros s -> Hne Hjson.
    rewrite (proj2 (truthy_true_iff s) Hne).
    now rewrite (proj2 (String.eqb_neq _ _) Hjson).
  - intros [-> | ->]; reflexivity.
Qed.

(** C8 (as amended): the request sent to the provider carries
    [{"type": "json_object"}] when the lowercase form of [response_format]
    is [json], [{"type": s}] for any other non-empty string [s], and no
    response format when it is empty or absent; that request is the one
    interaction of the call. *)
Theorem chat_response_format_dispatch
    (env : Env) (self : OpenAIService.t) (prompt : string)
    (system_prompt model : option string) (temperature top_p : Q)
    (max_output_tokens : option Z) (user response_format : option string)
    (presence_penalty frequency_penalty : Q) (seed : option Z) (metadata : option pyval)
    (w : world) :
  exists req : chat_request,
    snd (OpenAIService.chat_completion env self prompt system_prompt model temperature top_p
           max_output_tokens user response_format presence_penalty frequency_penalty seed
           metadata w)
    = (w ++ [EvChatCreate req])%list
    /\ (forall s, response_format = Some s -> Py.lower s = "json" ->
          cr_response_format req = Some {| rf_type := "json_object" |})
    /\ (forall s, response_format = Some s -> s <> "" -> Py.lower s <> "json" ->
          cr_response_format req = Some {| rf_type := s |})
    /\ (response_format = None \/ response_format = Some "" ->
          cr_response_format req = None).
Proof.
  unfold OpenAIService.chat_completion, bind, call.
  eexists; split.
  - match goal with |- context [chat_completions_create env w ?r] =>
      destruct (chat_completions_create env w r) as [c | e] end.
    + destruct (choices c); reflexivity.
    + reflexivity.
  - cbn [cr_response_format]. apply response_format_cases.
Qed.

Lemma chat_response_format_dispatch_witness :
  exists req : chat_request,
    snd (OpenAIService.chat_completion (sample_env [] None None) (with_storage openai)
           "hi" None None 0 1 None None (Some "JSON") 0 0 None None [])
    = [EvChatCreate req]
    /\ cr_response_format req = Some {| rf_type := "json_object" |}.
Proof.
  destruct (chat_response_format_dispatch (sample_env [] None None) (with_storage openai)
              "hi" None None 0 1 None None (Some "JSON") 0 0 None None [])
    as (req & Htrace & Hjson & _ & _).
  exists req. split; [exact Htrace | apply (Hjson "JSON"); reflexivity].
Defined.

(** C8 (as stated) fails: [JSON] is a non-empty string other than [json],
    yet it is not passed through as the named format. *)
Lemma response_format_uppercase_not_passed_through :
  "JSON" <> "json"
  /\ spec_response_format_param_of (Some "JSON") = Some {| rf_type := "JSON" |}
  /\ OpenAIService.response_format_param_of (Some "JSON") = Some {| rf_type := "json_object" |}
  /\ OpenAIService.response_format_param_of (Some "JSON")
     <> spec_response_format_param_of (Some "JSON").
Proof. repeat split; discriminate. Qed.

Lemma extract_text_app (items more : list pyval) :
  OpenAIService._extract_text (PList (items ++ more))
  = OpenAIService._extract_text (PList items) ++ OpenAIService._extract_text (PList more).
Proof.
  unfold OpenAIService._extract_text.
  now rewrite flat_map_app, join_empty_app.
Qed.

Lemma eq_str_true (v : pyval) (s : string) : PyVal.eq_str v s = true -> v = PStr s.
Proof.
  destruct v; simpl; try discriminate.
  intro H. apply String.eqb_eq in H. now subst.
Qed.

(** C9 (as amended): [None] gives the empty string and a string is returned
    unchanged; a list of chunks gives the concatenation, in order, of what
    each chunk contributes: a dict marked [text] with a non-empty text
    contributes that text, a dict marked [tool_call] its textual
    representation, any other dict nothing, and a chunk that is not a dict
    its textual representation. *)
Theorem extract_text_cases :
  OpenAIService._extract_text PNone = ""
  /\ (forall s, OpenAIService._extract_text (PStr s) = s)
  /\ OpenAIService._extract_text (PList []) = ""
  /\ (forall items more,
        OpenAIService._extract_text (PList (items ++ more))
        = OpenAIService._extract_text (PList items)
          ++ OpenAIService._extract_text (PList more))
  /\ (forall d,
        PyVal.eq_str (PyVal.dict_get d "type") "text" = true ->
        PyVal.truthy (PyVal.dict_get d "text") = true ->
        OpenAIService._extract_text (PList [PDict d]) = PyVal.str (PyVal.dict_get d "text"))
  /\ (forall d,
        PyVal.eq_str (PyVal.dict_get d "type") "tool_call" = true ->
        OpenAIService._extract_text (PList [PDict d]) = PyVal.repr (PDict d))
  /\ (forall d,
        PyVal.eq_str (PyVal.dict_get d "type") "tool_call" = false ->
        PyVal.eq_str (PyVal.dict_get d "type") "text" = false
        \/ PyVal.truthy (PyVal.dict_get d "text") = false ->
        OpenAIService._extract_text (PList [PDict d]) = "")
  /\ (forall chunk,
        (forall d, chunk <> PDict d) ->
        OpenAIService._extract_text (PList [chunk]) = PyVal.str chunk).
Proof.
  repeat match goal with |- _ /\ _ => split end; try reflexivity.
  - apply extract_text_app.
  - intros d Htype Htext.
    unfold OpenAIService._extract_text, flat_map, OpenAIService.chunk_text.
    rewrite Htype, Htext. simpl. reflexivity.
  - intros d Htool.
    unfold OpenAIService._extract_text, flat_map, OpenAIService.chunk_text.
    rewrite Htool, (eq_str_true _ _ Htool). reflexivity.
  - intros d Htool Hother.
    unfold OpenAIService._extract_text, flat_map, OpenAIService.chunk_text.
    rewrite Htool.
    destruct Hother as [H | H]; rewrite H; [|rewrite andb_false_r]; reflexivity.
  - intros chunk Hnot.
    destruct chunk; try reflexivity.
    now contradiction (Hnot entries).
Qed.

Lemma extract_text_cases_witness :
  OpenAIService._extract_text
    (PList [PDict [("type", PStr "text"); ("text", PStr "a")]]) = "a"
  /\ OpenAIService._extract_text (PList [PDict [("type", PStr "tool_call")]])
     = "{'type': 'tool_call'}"
  /\ OpenAIService._extract_text (PList [PDict [("type", PStr "image_url")]]) = ""
  /\ OpenAIService._extract_text (PList [PInt 7]) = "7".
Proof.
  destruct extract_text_cases as (_ & _ & _ & _ & Htext & Htool & Hother & Hplain).
  split; [|split; [|split]].
  - apply (Htext [("type", PStr "text"); ("text", PStr "a")]); reflexivity.
  - apply (Htool [("type", PStr "tool_call")]); reflexivity.
  - apply (Hother [("type", PStr "image_url")]); [reflexivity | left; reflexivity].
  - apply (Hplain (PInt 7)). discriminate.
Defined.

(** C9 (as stated) fails: a chunk that is not marked as text, here a bare
    string inside the list, is not excluded from the result. *)
Lemma extract_text_keeps_unmarked_chunk :
  spec_extract_text (PList [PStr "hello"]) = ""
  /\ OpenAIService._extract_text (PList [PStr "hello"]) = "hello"
  /\ OpenAIService._extract_text (PList [PStr "hello"])
     <> spec_extract_text (PList [PStr "hello"]).
Proof. repeat split; discriminate. Qed.

(** ** Validation before dispatch *)

Lemma normalize_quality_alias_standard (quality : string) :
  Py.lower quality = "standard" -> OpenAIService.normalize_quality quality = Ok "medium".
Proof. intro H. unfold OpenAIService.normalize_quality. now rewrite H. Qed.

Lemma normalize_quality_alias_hd (quality : string) :
  Py.lower quality = "hd" -> OpenAIService.normalize_quality quality = Ok "high".
Proof. intro H. unfold OpenAIService.normalize_quality. now rewrite H. Qed.

Lemma normalize_quality_canonical (quality : string) :
  Py.mem (Py.lower quality) allowed_qualities = true ->
  OpenAIService.normalize_quality quality = Ok (Py.lower quality).
Proof.
  intro H. unfold allowed_qualities in H.
  unfold OpenAIService.normalize_quality.
  repeat (apply mem_cons_true in H as [H | H]; [now rewrite H|]).
  discriminate H.
Qed.

Lemma normalize_quality_rejects (quality : string) :
  Py.mem (Py.lower quality) ("standard" :: "hd" :: allowed_qualities) = false ->
  OpenAIService.normalize_quality quality = Raise (quality_error quality).
Proof.
  intro H. unfold allowed_qualities in H.
  apply mem_cons_false in H as [H1 H]. apply mem_cons_false in H as [H2 H].
  pose proof H as Hmem.
  unfold OpenAIService.normalize_quality, quality_error.
  cbn [Py.get]. rewrite H1, H2, Hmem. reflexivity.
Qed.

Lemma normalize_quality_range (quality r : string) :
  OpenAIService.normalize_quality quality = Ok r -> Py.mem r allowed_qualities = true.
Proof.
  unfold OpenAIService.normalize_quality.
  set (n := Py.get _ (Py.lower quality) (Py.lower quality)).
  fold allowed_qualities.
  destruct (Py.mem n allowed_qualities) eqn:E; simpl; [|discriminate].
  intro H. injection H as <-. exact E.
Qed.

(** C3: the lowercase form of [quality] decides the result:
    [standard] gives [medium], [hd] gives [high], a member of
    {low, medium, high, auto} gives itself; every other string raises the
    [ValueError] naming the accepted values and the received one, and
    [generate_image] raises it with no interaction with the outside.  Every
    accepted input yields one of the four canonical values, as do
    [standard], [hd], [LOW], [High] and [auto]. *)
Theorem image_quality_normalization (quality : string) :
  (Py.lower quality = "standard" -> OpenAIService.normalize_quality quality = Ok "medium")
  /\ (Py.lower quality = "hd" -> OpenAIService.normalize_quality quality = Ok "high")
  /\ (Py.mem (Py.lower quality) allowed_qualities = true ->
        OpenAIService.normalize_quality quality = Ok (Py.lower quality))
  /\ (Py.mem (Py.lower quality) ("standard" :: "hd" :: allowed_qualities) = false ->
        OpenAIService.normalize_quality quality
        = Raise (ValueError ("quality must be one of auto, high, low, medium (received: "
                             ++ Py.repr quality ++ ")"))
        /\ forall env self prompt size count user w,
             OpenAIService.generate_image env self prompt size quality count user w
             = (Raise (ValueError
                         ("quality must be one of auto, high, low, medium (received: "
                          ++ Py.repr quality ++ ")")), w))
  /\ (forall r, OpenAIService.normalize_quality quality = Ok r ->
                Py.mem r allowed_qualities = true)
  /\ OpenAIService.normalize_quality "standard" = Ok "medium"
  /\ OpenAIService.normalize_quality "hd" = Ok "high"
  /\ OpenAIService.normalize_quality "LOW" = Ok "low"
  /\ OpenAIService.normalize_quality "High" = Ok "high"
  /\ OpenAIService.normalize_quality "auto" = Ok "auto".
Proof.
  repeat match goal with |- _ /\ _ => split end; try reflexivity.
  - apply normalize_quality_alias_standard.
  - apply normalize_quality_alias_hd.
  - apply normalize_quality_canonical.
  - intro H. split; [now apply normalize_quality_rejects|].
    intros env self prompt size count user w.
    unfold OpenAIService.generate_image, bind, lift.
    now rewrite (normalize_quality_rejects quality H).
  - apply normalize_quality_range.
Qed.

Lemma image_quality_normalization_witness :
  OpenAIService.normalize_quality "STANDARD" = Ok "medium"
  /\ OpenAIService.normalize_quality "Hd" = Ok "high"
  /\ OpenAIService.normalize_quality "Medium" = Ok "medium"
  /\ OpenAIService.generate_image (sample_env [] None None) (with_storage openai)
       "a cat" "auto" "ultra" 1 None []
     = (Raise (ValueError "quality must be one of auto, high, low, medium (received: 'ultra')"),
        []).
Proof.
  split; [|split; [|split]].
  - apply (proj1 (image_quality_normalization "STANDARD")). reflexivity.
  - apply (proj1 (proj2 (image_quality_normalization "Hd"))). reflexivity.
  - apply (proj1 (proj2 (proj2 (image_quality_normalization "Medium")))). reflexivity.
  - apply (proj2 (proj1 (proj2 (proj2 (proj2 (image_quality_normalization "ultra")))) eq_refl)).
Defined.

(** C6: the [generate_video] tool rejects any [seconds] other than 4, 8 and
    12 with a [ValueError], and nothing has been sent to the provider or to
    storage when it does. *)
Theorem video_seconds_validated
    (env : Env) (service : OpenAIService.t) (prompt : string) (model : option string)
    (seconds : Z) (size variant : string) (w : world) :
  seconds <> 4%Z -> seconds <> 8%Z -> seconds <> 12%Z ->
  App.generate_video env service prompt model seconds size variant w
  = (Raise (ValueError "seconds must be one of 4, 8, or 12"), w).
Proof.
  intros H4 H8 H12.
  unfold App.generate_video. cbn [existsb].
  rewrite (proj2 (Z.eqb_neq _ _) H4), (proj2 (Z.eqb_neq _ _) H8),
    (proj2 (Z.eqb_neq _ _) H12).
  reflexivity.
Qed.

Lemma video_seconds_validated_witness :
  App.generate_video (sample_env [x68] None None) (with_storage openai)
    "a cat" None 5 "1280x720" "video" []
  = (Raise (ValueError "seconds must be one of 4, 8, or 12"), []).
Proof.
  apply (video_seconds_validated (sample_env [x68] None None) (with_storage openai)
           "a cat" None 5 "1280x720" "video" []); discriminate.
Defined.

Lemma generate_video_azure
    (env : Env) (self : OpenAIService.t) (prompt : string) (model : option string)
    (seconds : Z) (size variant : string) (w : world) :
  provider (OpenAIService.config self) = azure ->
  OpenAIService.generate_video env self prompt model seconds size variant w
  = (Raise (RuntimeError "Azure OpenAI does not currently support video generation"), w).
Proof.
  intro H. unfold OpenAIService.generate_video. now rewrite H.
Qed.

(** C4: on the [azure] provider [OpenAIService.generate_video] raises the
    unsupported-capability error whatever its arguments, and the history of
    interactions is left as it was: no provider call has been made. *)
Theorem video_unsupported_on_azure
    (env : Env) (self : OpenAIService.t) (prompt : string) (model : option string)
    (seconds : Z) (size variant : string) (w : world) :
  provider (OpenAIService.config self) = azure ->
  OpenAIService.generate_video env self prompt model seconds size variant w
  = (Raise (RuntimeError "Azure OpenAI does not currently support video generation"), w).
Proof.
  intro H. unfold OpenAIService.generate_video. now rewrite H.
Qed.

Lemma video_unsupported_on_azure_witness :
  OpenAIService.generate_video (sample_env [x68] None None) (with_storage azure)
    "a cat" None 5 "not-a-size" "unknown" []
  = (Raise (RuntimeError "Azure OpenAI does not currently support video generation"), []).
Proof.
  apply (video_unsupported_on_azure (sample_env [x68] None None) (with_storage azure)
           "a cat" None 5 "not-a-size" "unknown" []).
  reflexivity.
Defined.

(** Through the tool, an [azure] deployment never reaches the provider
    either: the call raises with the history unchanged. *)
Lemma tool_video_on_azure_no_interaction
    (env : Env) (service : OpenAIService.t) (prompt : string) (model : option string)
    (seconds : Z) (size variant : string) (w : world) :
  provider (OpenAIService.config service) = azure ->
  exists e, App.generate_video env service prompt model seconds size variant w = (Raise e, w).
Proof.
  intro H. unfold App.generate_video.
  destruct (negb (existsb (Z.eqb seconds) [4%Z; 8%Z; 12%Z])); [eexists; reflexivity|].
  destruct (negb (Py.mem variant ["video"; "thumbnail"; "spritesheet"]));
    [eexists; reflexivity|].
  eexists. now apply generate_video_azure.
Qed.

(** ** Blob names and URLs *)

Lemma truthy_append_l (a b : string) : Py.truthy a = true -> Py.truthy (a ++ b) = true.
Proof. destruct a; simpl; [discriminate | reflexivity]. Qed.

Lemma join_segments (prefix : option string) (root filename : string) :
  Py.truthy filename = true ->
  Py.join "/" (AzureBlobUploader.truthy_segments [prefix; Some root; Some filename])
  = segment_slash (Py.or_else prefix "") ++ segment_slash root ++ filename.
Proof.
  intro Hf. unfold segment_slash, Py.or_else.
  cbn [AzureBlobUploader.truthy_segments]. rewrite Hf.
  destruct filename as [|f fn]; [discriminate Hf|].
  destruct prefix as [[|c p]|], root as [|r rt]; cbn [Py.truthy Py.join];
    rewrite ?append_assoc; reflexivity.
Qed.

Lemma blob_name_at_closed_form
    (cfg : AzureBlobStorageConfig) (now : datetime) (drawn : N) (category extension : string) :
  AzureBlobUploader.blob_name_at cfg now drawn category extension
  = segment_slash (Py.or_else (path_prefix cfg) "")
    ++ segment_slash (AzureBlobUploader._root_for_category cfg category)
    ++ (strftime now ++ "-" ++ uuid_hex drawn ++ "." ++ extension).
Proof.
  unfold AzureBlobUploader.blob_name_at.
  apply join_segments. apply truthy_append_l, strftime_truthy.
Qed.

Lemma digit_value_digit_char (n : N) : digit_value (Py.digit_char n) = (n mod 10)%N.
Proof.
  unfold digit_value, Py.digit_char.
  assert (H : (n mod 10 < 10)%N) by (apply N.mod_lt; discriminate).
  generalize dependent (n mod 10)%N. intros m H.
  rewrite N_ascii_embedding by lia. lia.
Qed.

Lemma decimal_value_from_append (a b : string) :
  forall acc, decimal_value_from acc (a ++ b) = decimal_value_from (decimal_value_from acc a) b.
Proof. induction a as [|c a IH]; intro acc; simpl; [reflexivity | apply IH]. Qed.

(** Reading the zero-padded digits back gives the number, up to the width. *)
Lemma decimal_value_zpad (k : nat) :
  forall n : N, decimal_value (Py.zpad k n) = (n mod 10 ^ N.of_nat k)%N.
Proof.
  unfold decimal_value.
  induction k as [|k IH]; intro n.
  - simpl. now rewrite N.mod_1_r.
  - cbn [Py.zpad]. rewrite decimal_value_from_append, IH.
    cbn [decimal_value_from]. rewrite digit_value_digit_char.
    rewrite Nat2N.inj_succ, N.pow_succ_r', N.Div0.mod_mul_r. lia.
Qed.

Lemma strftime_fields (t : datetime) :
  String.length (strftime t) = 15
  /\ String.substring 8 1 (strftime t) = "T"
  /\ String.substring 0 8 (strftime t)
     = Py.zpad 4 (year t) ++ Py.zpad 2 (month t) ++ Py.zpad 2 (day t)
  /\ String.substring 9 6 (strftime t)
     = Py.zpad 2 (hour t) ++ Py.zpad 2 (minute t) ++ Py.zpad 2 (second t)
  /\ String.substring 0 4 (strftime t) = Py.zpad 4 (year t)
  /\ String.substring 4 2 (strftime t) = Py.zpad 2 (month t)
  /\ String.substring 6 2 (strftime t) = Py.zpad 2 (day t)
  /\ String.substring 9 2 (strftime t) = Py.zpad 2 (hour t)
  /\ String.substring 11 2 (strftime t) = Py.zpad 2 (minute t)
  /\ String.substring 13 2 (strftime t) = Py.zpad 2 (second t).
Proof. repeat split. Qed.

(** The timestamp reads back as the clock's year, month, day, hour, minute
    and second, each taken to the width of its field. *)
Lemma parse_timestamp_strftime (t : datetime) :
  parse_timestamp (strftime t)
  = Some {| year := (year t mod 10000)%N; month := (month t mod 100)%N;
            day := (day t mod 100)%N; hour := (hour t mod 100)%N;
            minute := (minute t mod 100)%N; second := (second t mod 100)%N |}.
Proof.
  destruct (strftime_fields t)
    as (Hlen & HT & Hdate & Htime & Hy & Hmo & Hd & Hh & Hmi & Hs).
  unfold parse_timestamp.
  rewrite Hlen, HT, Hdate, Htime, Hy, Hmo, Hd, Hh, Hmi, Hs.
  rewrite !all_chars_append, !zpad_digits.
  cbn [Nat.eqb String.eqb Ascii.eqb Bool.eqb andb].
  now rewrite !decimal_value_zpad.
Qed.

Lemma parse_timestamp_clock_reading (t : datetime) :
  clock_reading t -> parse_timestamp (strftime t) = Some t.
Proof.
  intros (Hy & Hmo & Hd & Hh & Hmi & Hs).
  rewrite parse_timestamp_strftime. destruct t as [y mo d h mi s]. cbn in *.
  now rewrite !N.mod_small by assumption.
Qed.

(** C1: the blob name is the configured prefix (when there is a non-empty
    one), the root resolved for the category (when non-empty) and the file
    name, each followed by [/] except the last.  The root is the configured
    image, audio or video root for the five known category names, and in
    general the root the fixed table gives for the stripped name.  The file
    name is the timestamp, a dash, 32 lowercase hexadecimal digits, a dot
    and the extension; the timestamp is eight digits, [T] and six digits
    that read back as the year, month, day, hour, minute and second of the
    clock reading.  [upload] sends the content under that name and, when the
    storage accepts it, returns the public base URL, [/] and the name. *)
Theorem blob_path_format
    (env : Env) (cfg : AzureBlobStorageConfig) (content : Py.bytes)
    (category extension content_type : string) (w : world) :
  let filename :=
    strftime (utcnow env w) ++ "-" ++ uuid_hex (uuid4 env w) ++ "." ++ extension in
  let path :=
    segment_slash (Py.or_else (path_prefix cfg) "")
    ++ segment_slash (AzureBlobUploader._root_for_category cfg category)
    ++ filename in
  AzureBlobUploader._build_blob_name env cfg category extension w = (Ok path, w)
  /\ (exists d h : string,
        strftime (utcnow env w) = d ++ "T" ++ h
        /\ String.length d = 8 /\ all_chars is_digit d = true
        /\ String.length h = 6 /\ all_chars is_digit h = true)
  /\ String.length (uuid_hex (uuid4 env w)) = 32
  /\ all_chars is_lower_hex (uuid_hex (uuid4 env w)) = true
  /\ (upload_blob env w path content content_type = None ->
        AzureBlobUploader.upload env cfg content category extension content_type w
        = (Ok (public_base_url cfg ++ "/" ++ path),
           (w ++ [EvUploadBlob path content content_type])%list))
  /\ (forall e, upload_blob env w path content content_type = Some e ->
        AzureBlobUploader.upload env cfg content category extension content_type w
        = (Raise e, (w ++ [EvUploadBlob path content content_type])%list))
  /\ parse_timestamp (strftime (utcnow env w))
     = Some {| year := (year (utcnow env w) mod 10000)%N;
               month := (month (utcnow env w) mod 100)%N;
               day := (day (utcnow env w) mod 100)%N;
               hour := (hour (utcnow env w) mod 100)%N;
               minute := (minute (utcnow env w) mod 100)%N;
               second := (second (utcnow env w) mod 100)%N |}
  /\ (clock_reading (utcnow env w) ->
        parse_timestamp (strftime (utcnow env w)) = Some (utcnow env w))
  /\ (category = "images" \/ category = "image" ->
        AzureBlobUploader._root_for_category cfg category = image_root cfg)
  /\ (category = "audio" ->
        AzureBlobUploader._root_for_category cfg category = audio_root cfg)
  /\ (category = "videos" \/ category = "video" ->
        AzureBlobUploader._root_for_category cfg category = video_root cfg)
  /\ AzureBlobUploader._root_for_category cfg category
     = spec_root_for_category cfg
         (Py.str_or (Py.strip "/" (Py.str_or category "media")) "media").
Proof.
  intros filename path.
  assert (Hname : AzureBlobUploader.blob_name_at cfg (utcnow env w) (uuid4 env w)
                    category extension = path)
    by apply blob_name_at_closed_form.
  split; [unfold AzureBlobUploader._build_blob_name; now rewrite Hname|].
  split; [apply strftime_shape|].
  split; [apply uuid_hex_shape|].
  split; [apply uuid_hex_shape|].
  split.
  { intro Hok.
    unfold AzureBlobUploader.upload, AzureBlobUploader._build_blob_name, bind, call, ret.
    now rewrite Hname, Hok. }
  split.
  { intros e Hfail.
    unfold AzureBlobUploader.upload, AzureBlobUploader._build_blob_name, bind, call, ret.
    now rewrite Hname, Hfail. }
  split; [apply parse_timestamp_strftime|].
  split; [apply parse_timestamp_clock_reading|].
  split; [intros [-> | ->]; reflexivity|].
  split; [intros ->; reflexivity|].
  split; [intros [-> | ->]; reflexivity|].
  apply root_for_category_normalized.
Qed.

Lemma blob_path_format_witness :
  AzureBlobUploader.upload (clock_env early_january 48879) relocated_storage [x68; x69]
    "image" "png" "image/png" []
  = (Ok "https://assets.example.org/img/raw/20260102T030405-0000000000000000000000000000beef.png",
     [EvUploadBlob "img/raw/20260102T030405-0000000000000000000000000000beef.png"
        [x68; x69] "image/png"])
  /\ AzureBlobUploader.upload (clock_env new_year_eve 7) sample_storage [x68]
       "videos" "mp4" "video/mp4" []
     = (Ok "https://cdn.example.net/media/prod/videos/19991231T235959-00000000000000000000000000000007.mp4",
        [EvUploadBlob "prod/videos/19991231T235959-00000000000000000000000000000007.mp4"
           [x68] "video/mp4"])
  /\ parse_timestamp "19991231T235959" = Some new_year_eve
  /\ AzureBlobUploader._root_for_category relocated_storage "image" = "img/raw".
Proof.
  split; [|split; [|split]].
  - destruct (blob_path_format (clock_env early_january 48879) relocated_storage [x68; x69]
                "image" "png" "image/png" [])
      as (_ & _ & _ & _ & Hupload & _).
    apply Hupload. reflexivity.
  - destruct (blob_path_format (clock_env new_year_eve 7) sample_storage [x68]
                "videos" "mp4" "video/mp4" [])
      as (_ & _ & _ & _ & Hupload & _).
    apply Hupload. reflexivity.
  - destruct (blob_path_format (clock_env new_year_eve 7) sample_storage [x68]
                "videos" "mp4" "video/mp4" [])
      as (_ & _ & _ & _ & _ & _ & _ & Hclock & _).
    apply Hclock. repeat split.
  - destruct (blob_path_format (clock_env early_january 48879) relocated_storage [x68; x69]
                "image" "png" "image/png" [])
      as (_ & _ & _ & _ & _ & _ & _ & _ & Himage & _).
    apply Himage. right. reflexivity.
Defined.

Example blob_name_without_prefix :
  AzureBlobUploader.blob_name_at
    {| connection_string := "c"; container := "media";
       public_base_url := "https://cdn.example.net"; path_prefix := None;
       image_root := "img/raw"; audio_root := "audio"; video_root := "videos" |}
    {| year := 2026; month := 1; day := 2; hour := 3; minute := 4; second := 5 |}
    48879 "image" "png"
  = "img/raw/20260102T030405-0000000000000000000000000000beef.png".
Proof. reflexivity. Qed.

(** ** Persistence *)

Ltac run_monad := unfold bind, call, lift, ret, raise, emit, try_except_Exception.

Section Persistence.

Variable env : Env.
Variable self : OpenAIService.t.

Lemma require_blob_url_none (asset_type : string) :
  OpenAIService._require_blob_url None asset_type
  = Raise (RuntimeError (OpenAIService.missing_url_msg asset_type)).
Proof. reflexivity. Qed.

Lemma require_blob_url_ok (o : option string) (asset_type url : string) :
  OpenAIService._require_blob_url o asset_type = Ok url -> o = Some url /\ url <> "".
Proof.
  unfold OpenAIService._require_blob_url.
  destruct o as [[|c u]|]; simpl; try discriminate.
  intro H. injection H as <-. split; [reflexivity | discriminate].
Qed.

Lemma persist_media_bytes_empty
    (payload : option Py.bytes) (category extension : string) (content_type : option string)
    (w : world) :
  payload = None \/ payload = Some [] ->
  OpenAIService._persist_media_bytes env self payload category extension content_type w
  = (Ok None, w).
Proof. intros [-> | ->]; reflexivity. Qed.

Lemma persist_media_bytes_without_storage
    (content : Py.bytes) (category extension : string) (content_type : option string)
    (w : world) :
  OpenAIService._blob_uploader self = None -> content <> [] ->
  OpenAIService._persist_media_bytes env self (Some content) category extension content_type w
  = (Raise (RuntimeError _STORAGE_REQUIRED_MSG), w).
Proof.
  intros Hnone Hne. unfold OpenAIService._persist_media_bytes.
  destruct content as [|b content]; [now contradiction Hne|].
  now rewrite Hnone.
Qed.

Lemma persist_media_bytes_upload
    (storage : AzureBlobStorageConfig) (content : Py.bytes) (category extension : string)
    (content_type : option string) (w : world) :
  OpenAIService._blob_uploader self = Some storage -> content <> [] ->
  OpenAIService._persist_media_bytes env self (Some content) category extension content_type w
  = match attempted_upload env storage w content category extension content_type with
    | None =>
        (Ok (Some (public_base_url storage ++ "/"
                   ++ attempted_blob_name env storage w category extension)),
         (w ++ [attempted_upload_event env storage w content category extension
                  content_type])%list)
    | Some e =>
        if is_Exception e
        then (Ok None,
              ((w ++ [attempted_upload_event env storage w content category extension
                        content_type])
               ++ [EvLogException ("Failed to upload " ++ category
                                   ++ " artifact to Azure Blob Storage")])%list)
        else (Raise e,
              (w ++ [attempted_upload_event env storage w content category extension
                       content_type])%list)
    end.
Proof.
  intros Hsome Hne. unfold OpenAIService._persist_media_bytes.
  destruct content as [|b content]; [now contradiction Hne|].
  rewrite Hsome.
  unfold attempted_upload, attempted_upload_event, attempted_blob_name.
  unfold AzureBlobUploader.upload, AzureBlobUploader._build_blob_name.
  run_monad.
  destruct (upload_blob env w _ (b :: content) _) as [e|]; [|reflexivity].
  destruct (is_Exception e); reflexivity.
Qed.

(** Without an uploader, persisting bytes yields no URL: it returns [None]
    for an empty payload and raises otherwise, with no interaction. *)
Lemma persist_media_bytes_no_uploader
    (payload : option Py.bytes) (category extension : string) (content_type : option string)
    (w : world) :
  OpenAIService._blob_uploader self = None ->
  OpenAIService._persist_media_bytes env self payload category extension content_type w
  = (Ok None, w)
  \/ OpenAIService._persist_media_bytes env self payload category extension content_type w
     = (Raise (RuntimeError _STORAGE_REQUIRED_MSG), w).
Proof.
  intro Hnone.
  destruct payload as [[|b content]|].
  - left; reflexivity.
  - right. apply persist_media_bytes_without_storage; [exact Hnone | discriminate].
  - left; reflexivity.
Qed.

Lemma persist_base64_media_empty
    (base64_payload : option string) (category extension : string)
    (content_type : option string) (w : world) :
  base64_payload = None \/ base64_payload = Some "" ->
  OpenAIService._persist_base64_media env self base64_payload category extension content_type w
  = (Ok None, w).
Proof. intros [-> | ->]; reflexivity. Qed.

Lemma persist_base64_media_decoded
    (b64 : string) (category extension : string) (content_type : option string) (w : world) :
  b64 <> "" ->
  OpenAIService._persist_base64_media env self (Some b64) category extension content_type w
  = match b64decode env b64 with
    | None =>
        (Ok None,
         (w ++ [EvLogException ("Received invalid base64 payload for " ++ category
                                ++ " artifact")])%list)
    | Some decoded =>
        OpenAIService._persist_media_bytes env self (Some decoded) category extension
          content_type w
    end.
Proof.
  intro Hne. unfold OpenAIService._persist_base64_media.
  destruct b64 as [|c b64]; [now contradiction Hne|].
  cbn [Py.truthy_opt Py.truthy negb Py.or_else].
  destruct (b64decode env (String c b64)); reflexivity.
Qed.

Lemma persist_base64_media_no_uploader
    (base64_payload : option string) (category extension : string)
    (content_type : option string) (w : world) :
  OpenAIService._blob_uploader self = None ->
  (exists w',
     OpenAIService._persist_base64_media env self base64_payload category extension
       content_type w = (Ok None, w'))
  \/ OpenAIService._persist_base64_media env self base64_payload category extension
       content_type w = (Raise (RuntimeError _STORAGE_REQUIRED_MSG), w).
Proof.
  intro Hnone.
  destruct base64_payload as [[|c b64]|].
  - left; eexists; reflexivity.
  - rewrite persist_base64_media_decoded by discriminate.
    destruct (b64decode env (String c b64)) as [decoded|].
    + destruct (persist_media_bytes_no_uploader (Some decoded) category extension
                  content_type w Hnone) as [H | H]; rewrite H;
        [left; eexists; reflexivity | right; reflexivity].
    + left; eexists; reflexivity.
  - left; eexists; reflexivity.
Qed.

(** The loop over the returned images stops at the first item without a URL. *)
Lemma persist_images_first_without_url
    (item : image_item) (rest : list image_item) (w w' : world) :
  OpenAIService._persist_base64_media env self (b64_json item) "images" "png"
    (Some "image/png") w = (Ok None, w') ->
  OpenAIService.persist_images env self (item :: rest) w
  = (Raise (RuntimeError (OpenAIService.missing_url_msg "image")), w').
Proof.
  intro H. cbn [OpenAIService.persist_images]. unfold bind at 1. now rewrite H.
Qed.

Lemma persist_images_first_raises
    (item : image_item) (rest : list image_item) (w w' : world) (e : exn) :
  OpenAIService._persist_base64_media env self (b64_json item) "images" "png"
    (Some "image/png") w = (Raise e, w') ->
  OpenAIService.persist_images env self (item :: rest) w = (Raise e, w').
Proof.
  intro H. cbn [OpenAIService.persist_images]. unfold bind at 1. now rewrite H.
Qed.


End Persistence.

(** ** The generation calls, once the provider has answered *)

Section AfterProvider.

Variable env : Env.
Variable self : OpenAIService.t.

Lemma generate_audio_after_provider
    (text : string) (model voice : option string) (response_format : string) (speed : Q)
    (w : world) (payload : Py.bytes) :
  let req := speech_request_of self text model voice response_format speed in
  audio_speech_create env w req = Ok payload ->
  OpenAIService.generate_audio env self text model voice response_format speed w
  = match OpenAIService._persist_media_bytes env self (Some payload) "audio" response_format
            (Some (OpenAIService._audio_content_type response_format))
            (w ++ [EvSpeechCreate req])%list with
    | (Ok persisted, w') =>
        match OpenAIService._require_blob_url persisted "audio" with
        | Ok url =>
            (Ok {| audio_voice := sr_voice req;
                   audio_format := response_format;
                   audio_byte_length := List.length payload;
                   audio_blob_url := url |}, w')
        | Raise e => (Raise e, w')
        end
    | (Raise e, w') => (Raise e, w')
    end.
Proof.
  intros req H. unfold OpenAIService.generate_audio.
  fold (speech_request_of self text model voice response_format speed). fold req.
  unfold bind at 1, call. rewrite H.
  unfold bind at 1.
  destruct (OpenAIService._persist_media_bytes env self (Some payload) "audio" response_format
              (Some (OpenAIService._audio_content_type response_format))
              (w ++ [EvSpeechCreate req])%list) as [[persisted | e] w']; [|reflexivity].
  unfold bind, lift, ret.
  destruct (OpenAIService._require_blob_url persisted "audio"); reflexivity.
Qed.

Lemma generate_video_after_provider
    (prompt : string) (model : option string) (seconds : Z) (size variant : string)
    (w : world) (job : Video) (payload : Py.bytes) :
  let req := video_request_of self prompt model seconds size in
  let w1 := (w ++ [EvVideosCreateAndPoll req])%list in
  let w2 := (w1 ++ [EvVideosDownload (video_id job) variant])%list in
  provider (OpenAIService.config self) = openai ->
  videos_create_and_poll env w req = Ok job ->
  status job = "completed" ->
  videos_download_content env w1 (video_id job) variant = Ok payload ->
  OpenAIService.generate_video env self prompt model seconds size variant w
  = match OpenAIService._persist_media_bytes env self (Some payload) "videos"
            (fst (OpenAIService._video_variant_meta variant))
            (Some (snd (OpenAIService._video_variant_meta variant))) w2 with
    | (Ok persisted, w') =>
        match OpenAIService._require_blob_url persisted "video" with
        | Ok url =>
            (Ok {| vres_video_id := video_id job;
                   vres_status := status job;
                   vres_model := video_job_model job;
                   vres_size := video_size job;
                   vres_seconds := video_seconds job;
                   vres_variant := variant;
                   vres_byte_length := List.length payload;
                   vres_blob_url := url |}, w')
        | Raise e => (Raise e, w')
        end
    | (Raise e, w') => (Raise e, w')
    end.
Proof.
  intros req w1 w2 Hprov Hjob Hdone Hbytes. unfold OpenAIService.generate_video.
  rewrite Hprov.
  fold (video_request_of self prompt model seconds size). fold req.
  unfold bind at 1, call. rewrite Hjob. fold w1.
  rewrite Hdone. cbn [String.eqb Ascii.eqb Bool.eqb negb].
  unfold bind at 1. rewrite Hbytes. fold w2.
  destruct (OpenAIService._video_variant_meta variant) as [extension content_type].
  cbn [fst snd]. unfold bind at 1.
  destruct (OpenAIService._persist_media_bytes env self (Some payload) "videos" extension
              (Some content_type) w2) as [[persisted | e] w']; [|reflexivity].
  unfold bind, lift, ret.
  destruct (OpenAIService._require_blob_url persisted "video"); reflexivity.
Qed.

Lemma generate_image_after_provider
    (prompt size quality : string) (count : Z) (user : option string)
    (w : world) (q s : string) (response : images_response) :
  let req := images_request_of self prompt s q count user in
  OpenAIService.normalize_quality quality = Ok q ->
  OpenAIService.normalize_size size = Ok s ->
  images_generate env w req = Ok response ->
  OpenAIService.generate_image env self prompt size quality count user w
  = match OpenAIService.persist_images env self (data response)
            (w ++ [EvImagesGenerate req])%list with
    | (Ok entries, w') =>
        (Ok {| image_model_used :=
                 match response_model response with
                 | Some m => m
                 | None => image_model (OpenAIService.config self)
                 end;
               image_created := created response;
               images := entries |}, w')
    | (Raise e, w') => (Raise e, w')
    end.
Proof.
  intros req Hq Hs Hresp. unfold OpenAIService.generate_image.
  unfold bind at 1, lift. rewrite Hq.
  unfold bind at 1. rewrite Hs.
  fold (images_request_of self prompt s q count user). fold req.
  unfold bind at 1, call. rewrite Hresp.
  unfold bind, ret.
  destruct (OpenAIService.persist_images env self (data response)
              (w ++ [EvImagesGenerate req])%list) as [[entries | e] w']; reflexivity.
Qed.

End AfterProvider.

(** ** Without a storage configuration *)

Section NoUploader.

Variable env : Env.
Variable self : OpenAIService.t.
Hypothesis no_uploader : OpenAIService._blob_uploader self = None.

Lemma generate_audio_no_uploader
    (text : string) (model voice : option string) (response_format : string) (speed : Q)
    (w : world) :
  exists e w',
    OpenAIService.generate_audio env self text model voice response_format speed w
    = (Raise e, w').
Proof.
  destruct (audio_speech_create env w
              (speech_request_of self text model voice response_format speed))
    as [payload | e] eqn:Hcall.
  - rewrite (generate_audio_after_provider env self _ _ _ _ _ _ _ Hcall).
    match goal with
    | |- context [OpenAIService._persist_media_bytes env self ?p ?c ?x ?t ?v] =>
        destruct (persist_media_bytes_no_uploader env self p c x t v no_uploader) as [H | H];
          rewrite H; eexists; eexists; reflexivity
    end.
  - unfold speech_request_of in Hcall.
    unfold OpenAIService.generate_audio, bind, call. cbv zeta. rewrite Hcall.
    eexists; eexists; reflexivity.
Qed.

Lemma generate_video_no_uploader
    (prompt : string) (model : option string) (seconds : Z) (size variant : string)
    (w : world) :
  exists e w',
    OpenAIService.generate_video env self prompt model seconds size variant w = (Raise e, w').
Proof.
  destruct (provider (OpenAIService.config self)) eqn:Hprov.
  2:{ rewrite (generate_video_azure env self _ _ _ _ _ _ Hprov).
      eexists; eexists; reflexivity. }
  destruct (videos_create_and_poll env w (video_request_of self prompt model seconds size))
    as [job | e] eqn:Hjob.
  2:{ unfold video_request_of in Hjob.
      unfold OpenAIService.generate_video, bind, call. rewrite Hprov. cbv zeta.
      rewrite Hjob. eexists; eexists; reflexivity. }
  destruct (String.eqb (status job) "completed") eqn:Hdone.
  2:{ unfold video_request_of in Hjob.
      unfold OpenAIService.generate_video, bind, call, raise. rewrite Hprov. cbv zeta.
      rewrite Hjob, Hdone. eexists; eexists; reflexivity. }
  apply String.eqb_eq in Hdone.
  destruct (videos_download_content env
              (w ++ [EvVideosCreateAndPoll
                       (video_request_of self prompt model seconds size)])%list
              (video_id job) variant) as [payload | e] eqn:Hbytes.
  2:{ unfold video_request_of in Hjob, Hbytes.
      unfold OpenAIService.generate_video, bind, call. rewrite Hprov. cbv zeta.
      rewrite Hjob, Hdone. cbn [String.eqb Ascii.eqb Bool.eqb negb]. rewrite Hbytes.
      eexists; eexists; reflexivity. }
  rewrite (generate_video_after_provider env self _ _ _ _ _ _ _ _ Hprov Hjob Hdone Hbytes).
  match goal with
  | |- context [OpenAIService._persist_media_bytes env self ?p ?c ?x ?t ?v] =>
      destruct (persist_media_bytes_no_uploader env self p c x t v no_uploader) as [H | H];
        rewrite H; eexists; eexists; reflexivity
  end.
Qed.

Lemma persist_images_no_uploader (item : image_item) (rest : list image_item) (w : world) :
  exists e w', OpenAIService.persist_images env self (item :: rest) w = (Raise e, w').
Proof.
  destruct (persist_base64_media_no_uploader env self (b64_json item) "images" "png"
              (Some "image/png") w no_uploader) as [[w' H] | H].
  - rewrite (persist_images_first_without_url env self item rest w w' H).
    eexists; eexists; reflexivity.
  - rewrite (persist_images_first_raises env self item rest w w _ H).
    eexists; eexists; reflexivity.
Qed.

Lemma generate_image_no_uploader
    (prompt size quality : string) (count : Z) (user : option string)
    (w w' : world) (r : image_result) :
  OpenAIService.generate_image env self prompt size quality count user w = (Ok r, w') ->
  images r = [].
Proof.
  destruct (OpenAIService.normalize_quality quality) as [q | e] eqn:Hq.
  2:{ unfold OpenAIService.generate_image, bind, lift. rewrite Hq. discriminate. }
  destruct (OpenAIService.normalize_size size) as [s | e] eqn:Hs.
  2:{ unfold OpenAIService.generate_image, bind, lift. rewrite Hq, Hs. discriminate. }
  destruct (images_generate env w (images_request_of self prompt s q count user))
    as [response | e] eqn:Hresp.
  2:{ unfold images_request_of in Hresp.
      unfold OpenAIService.generate_image, bind, lift, call. rewrite Hq, Hs. cbv zeta.
      rewrite Hresp. discriminate. }
  rewrite (generate_image_after_provider env self _ _ _ _ _ _ _ _ _ Hq Hs Hresp).
  destruct (data response) as [|item rest].
  - cbn [OpenAIService.persist_images]. unfold ret. intro H. now injection H as <- _.
  - destruct (persist_images_no_uploader item rest
                (w ++ [EvImagesGenerate (images_request_of self prompt s q count user)])%list)
      as (e & w1 & H).
    rewrite H. discriminate.
Qed.

Lemma missing_url_msg_suffix (asset_type : string) :
  OpenAIService.missing_url_msg asset_type
  = ("Unable to produce a publicly accessible " ++ asset_type ++ " asset URL. ")
    ++ _STORAGE_REQUIRED_MSG.
Proof. unfold OpenAIService.missing_url_msg. now rewrite !append_assoc. Qed.

(** Whatever was to be persisted, the error met without an uploader is a
    [RuntimeError] whose message ends with the storage-not-configured text. *)
Lemma persist_then_require_no_uploader
    (payload : option Py.bytes) (category extension asset_type : string)
    (content_type : option string) (w : world) :
  exists prefix,
    match OpenAIService._persist_media_bytes env self payload category extension
            content_type w with
    | (Ok persisted, w') =>
        match OpenAIService._require_blob_url persisted asset_type with
        | Ok url => None
        | Raise e => Some e
        end
    | (Raise e, w') => Some e
    end = Some (RuntimeError (prefix ++ _STORAGE_REQUIRED_MSG)).
Proof.
  destruct (persist_media_bytes_no_uploader env self payload category extension content_type
              w no_uploader) as [H | H]; rewrite H.
  - eexists. cbn [OpenAIService._require_blob_url]. now rewrite missing_url_msg_suffix.
  - exists "". reflexivity.
Qed.

Lemma generate_audio_names_storage
    (text : string) (model voice : option string) (response_format : string) (speed : Q)
    (w : world) (payload : Py.bytes) :
  audio_speech_create env w (speech_request_of self text model voice response_format speed)
  = Ok payload ->
  exists prefix,
    fst (OpenAIService.generate_audio env self text model voice response_format speed w)
    = Raise (RuntimeError (prefix ++ _STORAGE_REQUIRED_MSG)).
Proof.
  intro Hcall. rewrite (generate_audio_after_provider env self _ _ _ _ _ _ _ Hcall).
  match goal with
  | |- context [OpenAIService._persist_media_bytes env self ?p ?c ?x ?t ?v] =>
      destruct (persist_then_require_no_uploader p c x "audio" t v) as [prefix H];
        exists prefix; revert H;
        destruct (OpenAIService._persist_media_bytes env self p c x t v)
          as [[persisted | e] w']
  end.
  - destruct (OpenAIService._require_blob_url persisted "audio"); [discriminate|].
    intro H. now injection H as ->.
  - intro H. now injection H as ->.
Qed.

Lemma generate_video_names_storage
    (prompt : string) (model : option string) (seconds : Z) (size variant : string)
    (w : world) (job : Video) (payload : Py.bytes) :
  provider (OpenAIService.config self) = openai ->
  videos_create_and_poll env w (video_request_of self prompt model seconds size) = Ok job ->
  status job = "completed" ->
  videos_download_content env
    (w ++ [EvVideosCreateAndPoll (video_request_of self prompt model seconds size)])%list
    (video_id job) variant = Ok payload ->
  exists prefix,
    fst (OpenAIService.generate_video env self prompt model seconds size variant w)
    = Raise (RuntimeError (prefix ++ _STORAGE_REQUIRED_MSG)).
Proof.
  intros Hprov Hjob Hdone Hbytes.
  rewrite (generate_video_after_provider env self _ _ _ _ _ _ _ _ Hprov Hjob Hdone Hbytes).
  match goal with
  | |- context [OpenAIService._persist_media_bytes env self ?p ?c ?x ?t ?v] =>
      destruct (persist_then_require_no_uploader p c x "video" t v) as [prefix H];
        exists prefix; revert H;
        destruct (OpenAIService._persist_media_bytes env self p c x t v)
          as [[persisted | e] w']
  end.
  - destruct (OpenAIService._require_blob_url persisted "video"); [discriminate|].
    intro H. now injection H as ->.
  - intro H. now injection H as ->.
Qed.

Lemma generate_image_names_storage
    (prompt size quality : string) (count : Z) (user : option string)
    (w : world) (q s : string) (response : images_response) :
  OpenAIService.normalize_quality quality = Ok q ->
  OpenAIService.normalize_size size = Ok s ->
  images_generate env w (images_request_of self prompt s q count user) = Ok response ->
  data response <> [] ->
  exists prefix,
    fst (OpenAIService.generate_image env self prompt size quality count user w)
    = Raise (RuntimeError (prefix ++ _STORAGE_REQUIRED_MSG)).
Proof.
  intros Hq Hs Hresp Hdata.
  rewrite (generate_image_after_provider env self _ _ _ _ _ _ _ _ _ Hq Hs Hresp).
  destruct (data response) as [|item rest]; [now contradiction Hdata|].
  match goal with
  | |- context [OpenAIService.persist_images env self _ ?v] =>
      destruct (persist_base64_media_no_uploader env self (b64_json item) "images" "png"
                  (Some "image/png") v no_uploader) as [[w' H] | H]
  end.
  - rewrite (persist_images_first_without_url env self item rest _ w' H).
    eexists. cbn [fst]. now rewrite missing_url_msg_suffix.
  - rewrite (persist_images_first_raises env self item rest _ _ _ H).
    exists "". reflexivity.
Qed.

End NoUploader.

(** C2: with no storage configuration, a generation call whose provider
    returned a non-empty payload raises the storage-not-configured error,
    whose message names the three settings to provide, right after the
    provider interaction.  Whatever the provider returned, the error raised
    is a [RuntimeError] whose message ends with that text; and no audio or
    video call ever returns a result, an image call only one that holds no
    image at all, so no result with a missing URL reaches the caller. *)
Theorem storage_absent_fails_loudly (env : Env) (self : OpenAIService.t) :
  OpenAIService._blob_uploader self = None ->
  (forall text model voice response_format speed w payload,
     audio_speech_create env w
       (speech_request_of self text model voice response_format speed) = Ok payload ->
     payload <> [] ->
     OpenAIService.generate_audio env self text model voice response_format speed w
     = (Raise (RuntimeError _STORAGE_REQUIRED_MSG),
        (w ++ [EvSpeechCreate
                 (speech_request_of self text model voice response_format speed)])%list))
  /\ (forall prompt model seconds size variant w job payload,
        provider (OpenAIService.config self) = openai ->
        videos_create_and_poll env w (video_request_of self prompt model seconds size)
        = Ok job ->
        status job = "completed" ->
        videos_download_content env
          (w ++ [EvVideosCreateAndPoll (video_request_of self prompt model seconds size)])%list
          (video_id job) variant = Ok payload ->
        payload <> [] ->
        OpenAIService.generate_video env self prompt model seconds size variant w
        = (Raise (RuntimeError _STORAGE_REQUIRED_MSG),
           ((w ++ [EvVideosCreateAndPoll (video_request_of self prompt model seconds size)])
            ++ [EvVideosDownload (video_id job) variant])%list))
  /\ (forall prompt size quality count user w q s response item rest b64 payload,
        OpenAIService.normalize_quality quality = Ok q ->
        OpenAIService.normalize_size size = Ok s ->
        images_generate env w (images_request_of self prompt s q count user) = Ok response ->
        data response = item :: rest ->
        b64_json item = Some b64 -> b64 <> "" ->
        b64decode env b64 = Some payload -> payload <> [] ->
        OpenAIService.generate_image env self prompt size quality count user w
        = (Raise (RuntimeError _STORAGE_REQUIRED_MSG),
           (w ++ [EvImagesGenerate (images_request_of self prompt s q count user)])%list))
  /\ (forall text model voice response_format speed w payload,
        audio_speech_create env w
          (speech_request_of self text model voice response_format speed) = Ok payload ->
        exists prefix,
          fst (OpenAIService.generate_audio env self text model voice response_format speed w)
          = Raise (RuntimeError (prefix ++ _STORAGE_REQUIRED_MSG)))
  /\ (forall prompt model seconds size variant w job payload,
        provider (OpenAIService.config self) = openai ->
        videos_create_and_poll env w (video_request_of self prompt model seconds size)
        = Ok job ->
        status job = "completed" ->
        videos_download_content env
          (w ++ [EvVideosCreateAndPoll (video_request_of self prompt model seconds size)])%list
          (video_id job) variant = Ok payload ->
        exists prefix,
          fst (OpenAIService.generate_video env self prompt model seconds size variant w)
          = Raise (RuntimeError (prefix ++ _STORAGE_REQUIRED_MSG)))
  /\ (forall prompt size quality count user w q s response,
        OpenAIService.normalize_quality quality = Ok q ->
        OpenAIService.normalize_size size = Ok s ->
        images_generate env w (images_request_of self prompt s q count user) = Ok response ->
        data response <> [] ->
        exists prefix,
          fst (OpenAIService.generate_image env self prompt size quality count user w)
          = Raise (RuntimeError (prefix ++ _STORAGE_REQUIRED_MSG)))
  /\ (forall text model voice response_format speed w,
        exists e w',
          OpenAIService.generate_audio env self text model voice response_format speed w
          = (Raise e, w'))
  /\ (forall prompt model seconds size variant w,
        exists e w',
          OpenAIService.generate_video env self prompt model seconds size variant w
          = (Raise e, w'))
  /\ (forall prompt size quality count user w w' r,
        OpenAIService.generate_image env self prompt size quality count user w = (Ok r, w') ->
        images r = [])
  /\ contains "AZURE_STORAGE_CONNECTION_STRING" _STORAGE_REQUIRED_MSG = true
  /\ contains "AZURE_BLOB_CONTAINER" _STORAGE_REQUIRED_MSG = true
  /\ contains "AZURE_BLOB_PUBLIC_BASE_URL" _STORAGE_REQUIRED_MSG = true.
Proof.
  intro Hnone.
  repeat match goal with |- _ /\ _ => split end; try reflexivity.
  - intros text model voice response_format speed w payload Hcall Hne.
    rewrite (generate_audio_after_provider env self _ _ _ _ _ _ _ Hcall).
    now rewrite (persist_media_bytes_without_storage env self _ _ _ _ _ Hnone Hne).
  - intros prompt model seconds size variant w job payload Hprov Hjob Hdone Hbytes Hne.
    rewrite (generate_video_after_provider env self _ _ _ _ _ _ _ _ Hprov Hjob Hdone Hbytes).
    now rewrite (persist_media_bytes_without_storage env self _ _ _ _ _ Hnone Hne).
  - intros prompt size quality count user w q s response item rest b64 payload
      Hq Hs Hresp Hdata Hitem Hb64 Hdecode Hne.
    rewrite (generate_image_after_provider env self _ _ _ _ _ _ _ _ _ Hq Hs Hresp).
    rewrite Hdata.
    erewrite persist_images_first_raises; [reflexivity|].
    rewrite Hitem, (persist_base64_media_decoded env self _ _ _ _ _ Hb64), Hdecode.
    now apply persist_media_bytes_without_storage.
  - intros text model voice response_format speed w payload.
    now apply generate_audio_names_storage.
  - intros prompt model seconds size variant w job payload.
    now apply generate_video_names_storage.
  - intros prompt size quality count user w q s response.
    now apply generate_image_names_storage.
  - now apply generate_audio_no_uploader.
  - now apply generate_video_no_uploader.
  - intros prompt size quality count user w w' r. now apply generate_image_no_uploader.
Qed.

Lemma storage_absent_fails_loudly_witness :
  OpenAIService.generate_audio (sample_env [x68] None None) (no_storage openai)
    "hi" None None "mp3" 1 []
  = (Raise (RuntimeError _STORAGE_REQUIRED_MSG),
     [EvSpeechCreate (speech_request_of (no_storage openai) "hi" None None "mp3" 1)])
  /\ OpenAIService.generate_image (sample_env [] (Some "aGk=") None) (no_storage openai)
       "a cat" "auto" "hd" 1 None []
     = (Raise (RuntimeError _STORAGE_REQUIRED_MSG),
        [EvImagesGenerate (images_request_of (no_storage openai) "a cat" "auto" "high" 1 None)]).
Proof.
  split.
  - apply (proj1 (storage_absent_fails_loudly (sample_env [x68] None None)
                    (no_storage openai) eq_refl)
             "hi" None None "mp3" 1%Q [] [x68]); [reflexivity | discriminate].
  - apply (proj1 (proj2 (proj2 (storage_absent_fails_loudly (sample_env [] (Some "aGk=") None)
                                  (no_storage openai) eq_refl)))
             "a cat" "auto" "hd" 1%Z None [] "high" "auto"
             {| data := [ {| b64_json := Some "aGk="; item_revised_prompt := None |} ];
                response_model := None; created := 1762246080%Z |}
             {| b64_json := Some "aGk="; item_revised_prompt := None |} [] "aGk=" [x68; x69]);
      try reflexivity; discriminate.
Defined.

(** ** With a storage configuration *)

Lemma persist_images_app (env : Env) (self : OpenAIService.t) (pre post : list image_item) :
  forall w : world,
    OpenAIService.persist_images env self (pre ++ post) w
    = match OpenAIService.persist_images env self pre w with
      | (Ok entries, w1) =>
          match OpenAIService.persist_images env self post w1 with
          | (Ok more, w2) => (Ok (entries ++ more)%list, w2)
          | (Raise e, w2) => (Raise e, w2)
          end
      | (Raise e, w1) => (Raise e, w1)
      end.
Proof.
  induction pre as [|item pre IH]; intro w.
  - cbn [app OpenAIService.persist_images]. unfold ret.
    destruct (OpenAIService.persist_images env self post w) as [[more | e] w2]; reflexivity.
  - cbn [app OpenAIService.persist_images]. unfold bind, lift, ret.
    destruct (OpenAIService._persist_base64_media env self (b64_json item) "images" "png"
                (Some "image/png") w) as [[persisted | e] w1]; [|reflexivity].
    destruct (OpenAIService._require_blob_url persisted "image") as [url | e]; [|reflexivity].
    rewrite IH.
    destruct (OpenAIService.persist_images env self pre w1) as [[entries | e] w2];
      [|reflexivity].
    destruct (OpenAIService.persist_images env self post w2) as [[more | e] w3]; reflexivity.
Qed.



(** C10: an empty payload is never uploaded, whether or not an uploader
    exists.  Persisting no bytes, a missing or empty base64 field, or a
    field that decodes to no bytes, reports no URL and leaves the history
    untouched; the audio, video and image calls then raise the missing-URL
    error, whose text ends with the storage-not-configured message, with
    nothing recorded after the provider interaction (for an image, after the
    uploads of the items before the empty one). *)
Theorem empty_payload_reports_missing_url (env : Env) (self : OpenAIService.t) :
  (forall payload category extension content_type w,
     payload = None \/ payload = Some [] ->
     OpenAIService._persist_media_bytes env self payload category extension content_type w
     = (Ok None, w))
  /\ (forall base64_payload category extension content_type w,
        base64_payload = None \/ base64_payload = Some ""
        \/ (exists b64, base64_payload = Some b64 /\ b64decode env b64 = Some []) ->
        OpenAIService._persist_base64_media env self base64_payload category extension
          content_type w
        = (Ok None, w))
  /\ (forall text model voice response_format speed w,
        audio_speech_create env w
          (speech_request_of self text model voice response_format speed) = Ok [] ->
        OpenAIService.generate_audio env self text model voice response_format speed w
        = (Raise (RuntimeError (OpenAIService.missing_url_msg "audio")),
           (w ++ [EvSpeechCreate
                    (speech_request_of self text model voice response_format speed)])%list))
  /\ (forall prompt model seconds size variant w job,
        provider (OpenAIService.config self) = openai ->
        videos_create_and_poll env w (video_request_of self prompt model seconds size)
        = Ok job ->
        status job = "completed" ->
        videos_download_content env
          (w ++ [EvVideosCreateAndPoll (video_request_of self prompt model seconds size)])%list
          (video_id job) variant = Ok [] ->
        OpenAIService.generate_video env self prompt model seconds size variant w
        = (Raise (RuntimeError (OpenAIService.missing_url_msg "video")),
           ((w ++ [EvVideosCreateAndPoll (video_request_of self prompt model seconds size)])
            ++ [EvVideosDownload (video_id job) variant])%list))
  /\ (forall prompt size quality count user w q s response pre item post entries w1,
        OpenAIService.normalize_quality quality = Ok q ->
        OpenAIService.normalize_size size = Ok s ->
        images_generate env w (images_request_of self prompt s q count user) = Ok response ->
        data response = (pre ++ item :: post)%list ->
        OpenAIService.persist_images env self pre
          (w ++ [EvImagesGenerate (images_request_of self prompt s q count user)])%list
        = (Ok entries, w1) ->
        b64_json item = None \/ b64_json item = Some ""
        \/ (exists b64, b64_json item = Some b64 /\ b64decode env b64 = Some []) ->
        OpenAIService.generate_image env self prompt size quality count user w
        = (Raise (RuntimeError (OpenAIService.missing_url_msg "image")), w1))
  /\ (forall asset_type,
        OpenAIService.missing_url_msg asset_type
        = ("Unable to produce a publicly accessible " ++ asset_type ++ " asset URL. ")
          ++ _STORAGE_REQUIRED_MSG)
  /\ contains "Azure Blob Storage uploads are not configured" _STORAGE_REQUIRED_MSG = true.
Proof.
  assert (Hb64 : forall base64_payload category extension content_type w,
             base64_payload = None \/ base64_payload = Some ""
             \/ (exists b64, base64_payload = Some b64 /\ b64decode env b64 = Some []) ->
             OpenAIService._persist_base64_media env self base64_payload category extension
               content_type w = (Ok None, w)).
  { intros base64_payload category extension content_type w [-> | [-> | (b64 & -> & Hdec)]];
      try reflexivity.
    destruct b64 as [|c b64]; [reflexivity|].
    rewrite persist_base64_media_decoded by discriminate. now rewrite Hdec. }
  repeat match goal with |- _ /\ _ => split end; try reflexivity.
  - intros. now apply persist_media_bytes_empty.
  - exact Hb64.
  - intros text model voice response_format speed w Hcall.
    now rewrite (generate_audio_after_provider env self _ _ _ _ _ _ _ Hcall).
  - intros prompt model seconds size variant w job Hprov Hjob Hdone Hbytes.
    now rewrite (generate_video_after_provider env self _ _ _ _ _ _ _ _
                   Hprov Hjob Hdone Hbytes).
  - intros prompt size quality count user w q s response pre item post entries w1
      Hq Hs Hresp Hdata Hpre Hitem.
    rewrite (generate_image_after_provider env self _ _ _ _ _ _ _ _ _ Hq Hs Hresp).
    rewrite Hdata, persist_images_app, Hpre.
    now rewrite (persist_images_first_without_url env self item post w1 w1
                   (Hb64 _ _ _ _ _ Hitem)).
  - apply missing_url_msg_suffix.
Qed.

Lemma empty_payload_reports_missing_url_witness :
  OpenAIService.generate_audio (sample_env [] None None) (with_storage openai)
    "hi" None None "mp3" 1 []
  = (Raise (RuntimeError (OpenAIService.missing_url_msg "audio")),
     [EvSpeechCreate (speech_request_of (with_storage openai) "hi" None None "mp3" 1)])
  /\ OpenAIService.generate_video (sample_env [] None None) (with_storage openai)
       "a cat" None 8 "1280x720" "thumbnail" []
     = (Raise (RuntimeError (OpenAIService.missing_url_msg "video")),
        [EvVideosCreateAndPoll (video_request_of (with_storage openai) "a cat" None 8 "1280x720");
         EvVideosDownload "video_123" "thumbnail"]).
Proof.
  split.
  - apply (proj1 (proj2 (proj2
             (empty_payload_reports_missing_url (sample_env [] None None)
                (with_storage openai))))
             "hi" None None "mp3" 1%Q []).
    reflexivity.
  - apply (proj1 (proj2 (proj2 (proj2
             (empty_payload_reports_missing_url (sample_env [] None None)
                (with_storage openai)))))
             "a cat" None 8%Z "1280x720" "thumbnail" [] sample_job); reflexivity.
Defined.

(** * Further properties of the code *)

(** ** Text helpers *)

Lemma lower_char_idempotent (c : ascii) : Py.lower_char (Py.lower_char c) = Py.lower_char c.
Proof. destruct c as [[] [] [] [] [] [] [] []]; reflexivity. Qed.

Lemma lower_idempotent (s : string) : Py.lower (Py.lower s) = Py.lower s.
Proof.
  induction s as [|c s IH]; simpl; [reflexivity|].
  now rewrite lower_char_idempotent, IH.
Qed.


Lemma lower_nonempty (s : string) : s <> "" -> Py.lower s <> "".
Proof. destruct s; simpl; [intro H; now contradiction H | discriminate]. Qed.


Lemma append_cancel_l (a x y : string) : a ++ x = a ++ y -> x = y.
Proof.
  induction a as [|c a IH]; simpl; intro H; [exact H|].
  injection H as H. now apply IH.
Qed.

Lemma append_same_length (a b x y : string) :
  String.length a = String.length b -> a ++ x = b ++ y -> a = b /\ x = y.
Proof.
  revert b; induction a as [|c a IH]; intros [|d b] Hlen H; simpl in *;
    try discriminate Hlen.
  - now split.
  - injection Hlen as Hlen. injection H as -> H.
    destruct (IH b Hlen H) as [-> ->]. now split.
Qed.

(** ** Blob names: one per drawn UUID, with a clean extension *)

Lemma hex_char_injective (n m : N) :
  Py.hex_char n = Py.hex_char m -> (n mod 16 = m mod 16)%N.
Proof.
  unfold Py.hex_char.
  assert (Hn : (n mod 16 < 16)%N) by (apply N.mod_lt; discriminate).
  assert (Hm : (m mod 16 < 16)%N) by (apply N.mod_lt; discriminate).
  generalize dependent (n mod 16)%N. intros a Ha.
  generalize dependent (m mod 16)%N. intros b Hb. cbv zeta.
  intro H. apply (f_equal N_of_ascii) in H.
  destruct (N.ltb_spec a 10), (N.ltb_spec b 10);
    rewrite !N_ascii_embedding in H by lia; lia.
Qed.

Lemma hex_lower_injective (k : nat) :
  forall n m : N,
    Py.hex_lower k n = Py.hex_lower k m ->
    (n mod 16 ^ N.of_nat k = m mod 16 ^ N.of_nat k)%N.
Proof.
  induction k as [|k IH]; intros n m H.
  - now rewrite !N.mod_1_r.
  - cbn [Py.hex_lower] in H.
    apply append_same_length in H; [|now rewrite !hex_lower_length].
    destruct H as [Hhigh Hlow]. injection Hlow as Hlow.
    apply IH in Hhigh. apply hex_char_injective in Hlow.
    rewrite Nat2N.inj_succ, N.pow_succ_r'.
    now rewrite !N.Div0.mod_mul_r, Hhigh, Hlow.
Qed.

(** X1: two names built for the same instant, category and extension
    coincide only when the two UUIDs drawn are the same 128-bit number. *)
Theorem blob_names_distinct
    (cfg : AzureBlobStorageConfig) (now : datetime) (u1 u2 : N) (category extension : string) :
  (u1 mod 2 ^ 128 <> u2 mod 2 ^ 128)%N ->
  AzureBlobUploader.blob_name_at cfg now u1 category extension
  <> AzureBlobUploader.blob_name_at cfg now u2 category extension.
Proof.
  intros Hdiff H. apply Hdiff.
  rewrite !blob_name_at_closed_form in H.
  do 4 apply append_cancel_l in H.
  apply append_same_length in H; [|now rewrite !(proj1 (uuid_hex_shape _))].
  destruct H as [H _]. apply (hex_lower_injective 32) in H.
  exact H.
Qed.

Lemma blob_names_distinct_witness :
  AzureBlobUploader.blob_name_at sample_storage
    {| year := 2026; month := 11; day := 4; hour := 8; minute := 48; second := 5 |}
    7 "images" "png"
  <> AzureBlobUploader.blob_name_at sample_storage
       {| year := 2026; month := 11; day := 4; hour := 8; minute := 48; second := 5 |}
       8 "images" "png".
Proof.
  apply (blob_names_distinct sample_storage
           {| year := 2026; month := 11; day := 4; hour := 8; minute := 48; second := 5 |}
           7 8 "images" "png").
  discriminate.
Defined.



Lemma attempted_blob_name_suffix
    (env : Env) (storage : AzureBlobStorageConfig) (w : world) (category extension : string) :
  exists stem,
    attempted_blob_name env storage w category extension
    = stem ++ "." ++ sanitized_extension extension.
Proof.
  unfold attempted_blob_name. fold (sanitized_extension extension).
  rewrite blob_name_at_closed_form.
  eexists. rewrite <- !append_assoc. reflexivity.
Qed.



Example sanitized_extension_samples :
  sanitized_extension ".MP3" = "mp3" /\ sanitized_extension "" = "bin"
  /\ sanitized_extension "..Wav" = "wav".
Proof. repeat split. Qed.

(** ** What a generation call sends out *)

Lemma storage_only_nil (n : nat) : storage_only n [].
Proof. split; [constructor | simpl; lia]. Qed.

Lemma storage_only_app (n m : nat) (a b : list event) :
  storage_only n a -> storage_only m b -> storage_only (n + m) (a ++ b).
Proof.
  intros [Ha Hna] [Hb Hnb]. split.
  - apply Forall_app; now split.
  - rewrite filter_app, length_app. lia.
Qed.

Lemma storage_only_weaken (n m : nat) (a : list event) :
  (n <= m)%nat -> storage_only n a -> storage_only m a.
Proof. intros Hle [Ha Hn]. split; [exact Ha | lia]. Qed.

Lemma persist_media_bytes_trace
    (env : Env) (self : OpenAIService.t) (payload : option Py.bytes)
    (category extension : string) (content_type : option string) (w : world) :
  exists rest,
    snd (OpenAIService._persist_media_bytes env self payload category extension
           content_type w) = (w ++ rest)%list
    /\ storage_only 1 rest.
Proof.
  destruct payload as [[|b content]|].
  - exists []. rewrite app_nil_r. split; [reflexivity | apply storage_only_nil].
  - destruct (OpenAIService._blob_uploader self) as [storage|] eqn:Hup.
    + rewrite (persist_media_bytes_upload env self storage (b :: content) _ _ _ _ Hup)
        by discriminate.
      destruct (attempted_upload env storage w (b :: content) category extension
                  content_type) as [e|].
      * destruct (is_Exception e).
        -- eexists. rewrite <- app_assoc. split; [reflexivity|].
           split; [repeat constructor | simpl; lia].
        -- eexists. split; [reflexivity|]. split; [repeat constructor | simpl; lia].
      * eexists. split; [reflexivity|]. split; [repeat constructor | simpl; lia].
    + rewrite (persist_media_bytes_without_storage env self (b :: content) _ _ _ _ Hup)
        by discriminate.
      exists []. rewrite app_nil_r. split; [reflexivity | apply storage_only_nil].
  - exists []. rewrite app_nil_r. split; [reflexivity | apply storage_only_nil].
Qed.

Lemma persist_base64_media_trace
    (env : Env) (self : OpenAIService.t) (base64_payload : option string)
    (category extension : string) (content_type : option string) (w : world) :
  exists rest,
    snd (OpenAIService._persist_base64_media env self base64_payload category extension
           content_type w) = (w ++ rest)%list
    /\ storage_only 1 rest.
Proof.
  destruct base64_payload as [[|c b64]|].
  - exists []. rewrite app_nil_r. split; [reflexivity | apply storage_only_nil].
  - rewrite persist_base64_media_decoded by discriminate.
    destruct (b64decode env (String c b64)) as [decoded|].
    + apply persist_media_bytes_trace.
    + eexists. split; [reflexivity|]. split; [repeat constructor | simpl; lia].
  - exists []. rewrite app_nil_r. split; [reflexivity | apply storage_only_nil].
Qed.

Lemma persist_images_trace (env : Env) (self : OpenAIService.t) (items : list image_item) :
  forall w : world,
    exists rest,
      snd (OpenAIService.persist_images env self items w) = (w ++ rest)%list
      /\ storage_only (List.length items) rest.
Proof.
  induction items as [|item items IH]; intro w.
  - exists []. rewrite app_nil_r. split; [reflexivity | apply storage_only_nil].
  - cbn [OpenAIService.persist_images]. unfold bind, lift, ret.
    destruct (persist_base64_media_trace env self (b64_json item) "images" "png"
                (Some "image/png") w) as (r1 & H1 & Hs1).
    destruct (OpenAIService._persist_base64_media env self (b64_json item) "images" "png"
                (Some "image/png") w) as [[persisted | e] w1]; cbn [snd] in H1; subst w1.
    + destruct (OpenAIService._require_blob_url persisted "image") as [url | e].
      * destruct (IH (w ++ r1)%list) as (r2 & H2 & Hs2).
        destruct (OpenAIService.persist_images env self items (w ++ r1)%list)
          as [[entries | e] w2]; cbn [snd] in H2; subst w2;
          exists (r1 ++ r2)%list; rewrite app_assoc;
          (split; [reflexivity | now apply (storage_only_app 1 (List.length items))]).
      * exists r1. split; [reflexivity|].
        apply (storage_only_weaken 1); [simpl; lia | exact Hs1].
    + exists r1. split; [reflexivity|].
      apply (storage_only_weaken 1); [simpl; lia | exact Hs1].
Qed.

Lemma normalize_size_canonical (size : string) :
  Py.mem (Py.lower size) allowed_sizes = true ->
  OpenAIService.normalize_size size = Ok (Py.lower size).
Proof.
  intro H. unfold OpenAIService.normalize_size. fold allowed_sizes. now rewrite H.
Qed.

Lemma normalize_size_rejects (size : string) :
  Py.mem (Py.lower size) allowed_sizes = false ->
  OpenAIService.normalize_size size = Raise (size_error size).
Proof.
  intro H. unfold OpenAIService.normalize_size, size_error. fold allowed_sizes.
  now rewrite H.
Qed.

Lemma normalize_size_range (size r : string) :
  OpenAIService.normalize_size size = Ok r -> Py.mem r allowed_sizes = true.
Proof.
  unfold OpenAIService.normalize_size. fold allowed_sizes.
  destruct (Py.mem (Py.lower size) allowed_sizes) eqn:E; simpl; [|discriminate].
  intro H. injection H as <-. exact E.
Qed.

(** X3: the image size is accepted exactly when its lowercase form is one of
    the four sizes, and is then sent in that form; any other size raises the
    [ValueError] naming the four sizes and the received value, with nothing
    sent to the provider, once the quality has passed. *)
Theorem image_size_validation (size : string) :
  (Py.mem (Py.lower size) allowed_sizes = true ->
     OpenAIService.normalize_size size = Ok (Py.lower size))
  /\ (Py.mem (Py.lower size) allowed_sizes = false ->
        forall env self prompt quality q count user w,
          OpenAIService.normalize_quality quality = Ok q ->
          OpenAIService.generate_image env self prompt size quality count user w
          = (Raise (ValueError
                      ("size must be one of 1024x1024, 1024x1536, 1536x1024, auto (received: "
                       ++ Py.repr size ++ ")")), w))
  /\ (forall r, OpenAIService.normalize_size size = Ok r -> Py.mem r allowed_sizes = true).
Proof.
  split; [apply normalize_size_canonical|].
  split; [|apply normalize_size_range].
  intros H env self prompt quality q count user w Hq.
  unfold OpenAIService.generate_image, bind, lift.
  now rewrite Hq, (normalize_size_rejects size H).
Qed.

Lemma image_size_validation_witness :
  OpenAIService.normalize_size "1024X1536" = Ok "1024x1536"
  /\ OpenAIService.generate_image (sample_env [] None None) (with_storage openai)
       "a cat" "512x512" "hd" 1 None []
     = (Raise (ValueError
                 "size must be one of 1024x1024, 1024x1536, 1536x1024, auto (received: '512x512')"),
        []).
Proof.
  split.
  - apply (proj1 (image_size_validation "1024X1536")). reflexivity.
  - apply (proj1 (proj2 (image_size_validation "512x512")) eq_refl
             (sample_env [] None None) (with_storage openai) "a cat" "hd" "high" 1%Z None []).
    reflexivity.
Defined.

Lemma generate_image_outgoing
    (env : Env) (self : OpenAIService.t) (prompt size quality : string) (count : Z)
    (user : option string) (w : world) :
  exists rest,
    snd (OpenAIService.generate_image env self prompt size quality count user w)
    = (w ++ rest)%list
    /\ (rest = []
        \/ exists q s tail,
             rest = EvImagesGenerate (images_request_of self prompt s q count user) :: tail
             /\ OpenAIService.normalize_quality quality = Ok q
             /\ OpenAIService.normalize_size size = Ok s
             /\ (forall response,
                   images_generate env w (images_request_of self prompt s q count user)
                   = Ok response ->
                   storage_only (List.length (data response)) tail)
             /\ (forall e,
                   images_generate env w (images_request_of self prompt s q count user)
                   = Raise e -> tail = [])).
Proof.
  destruct (OpenAIService.normalize_quality quality) as [q | e] eqn:Hq.
  2:{ exists []. rewrite app_nil_r. split; [|now left].
      unfold OpenAIService.generate_image, bind, lift. now rewrite Hq. }
  destruct (OpenAIService.normalize_size size) as [s | e] eqn:Hs.
  2:{ exists []. rewrite app_nil_r. split; [|now left].
      unfold OpenAIService.generate_image, bind, lift. now rewrite Hq, Hs. }
  destruct (images_generate env w (images_request_of self prompt s q count user))
    as [response | e] eqn:Hresp.
  2:{ exists [EvImagesGenerate (images_request_of self prompt s q count user)].
      split.
      - pose proof Hresp as Hcall. unfold images_request_of in Hcall.
        unfold OpenAIService.generate_image, bind, lift, call. rewrite Hq, Hs. cbv zeta.
        now rewrite Hcall.
      - right. exists q, s, [].
        split; [reflexivity|]. split; [reflexivity|]. split; [reflexivity|].
        split; [intros response H; rewrite Hresp in H; discriminate H | reflexivity]. }
  rewrite (generate_image_after_provider env self _ _ _ _ _ _ _ _ _ Hq Hs Hresp).
  destruct (persist_images_trace env self (data response)
              (w ++ [EvImagesGenerate (images_request_of self prompt s q count user)])%list)
    as (tail & Htail & Hquiet).
  exists (EvImagesGenerate (images_request_of self prompt s q count user) :: tail).
  split.
  - destruct (OpenAIService.persist_images env self (data response)
                (w ++ [EvImagesGenerate (images_request_of self prompt s q count user)])%list)
      as [[entries | e] w']; cbn [snd] in *; subst w';
      now rewrite <- app_assoc.
  - right. exists q, s, tail.
    split; [reflexivity|]. split; [reflexivity|]. split; [reflexivity|].
    split.
    + intros response' H. rewrite Hresp in H. injection H as <-. apply Hquiet.
    + intros e H. rewrite Hresp in H. discriminate H.
Qed.

(** X4: whatever its arguments, [generate_image] only appends to the
    history, and what it appends is either nothing or one [images.generate]
    request followed by storage traffic alone.  The request carries the
    configured image model, the prompt, the count and the user as given, and
    a size and a quality that belong to the accepted sets; after it there is
    no other provider call and at most one upload per returned image. *)
Theorem image_request_canonical
    (env : Env) (self : OpenAIService.t) (prompt size quality : string) (count : Z)
    (user : option string) (w : world) :
  exists rest,
    snd (OpenAIService.generate_image env self prompt size quality count user w)
    = (w ++ rest)%list
    /\ (rest = []
        \/ exists req tail,
             rest = EvImagesGenerate req :: tail
             /\ ir_model req = image_model (OpenAIService.config self)
             /\ ir_prompt req = prompt /\ ir_n req = count /\ ir_user req = user
             /\ Py.mem (ir_size req) allowed_sizes = true
             /\ Py.mem (ir_quality req) allowed_qualities = true
             /\ Forall (fun ev => is_provider_call ev = false) tail
             /\ (forall response,
                   images_generate env w req = Ok response ->
                   (List.length (filter is_upload tail) <= List.length (data response))%nat)).
Proof.
  destruct (generate_image_outgoing env self prompt size quality count user w)
    as (rest & Hrest & [-> | (q & s & tail & -> & Hq & Hs & Hok & Hraise)]).
  - exists []. split; [exact Hrest | now left].
  - eexists. split; [exact Hrest|]. right.
    exists (images_request_of self prompt s q count user), tail.
    repeat split; try reflexivity.
    + now apply normalize_size_range with (size := size).
    + now apply normalize_quality_range with (quality := quality).
    + destruct (images_generate env w (images_request_of self prompt s q count user))
        as [response | e] eqn:Hresp.
      * apply (Hok response eq_refl).
      * rewrite (Hraise e eq_refl). constructor.
    + intros response H. apply (Hok response H).
Qed.

(** X5: the [generate_image] tool refuses a count below 1 or above 10 with a
    [ValueError] before anything is sent; any [images.generate] request that
    does go out through the tool asks for between 1 and 10 images. *)
Theorem tool_image_count_bounds
    (env : Env) (service : OpenAIService.t) (prompt size quality : string) (count : Z)
    (user : option string) (w : world) :
  ((count < 1 \/ 10 < count)%Z ->
     AppTools.generate_image env service prompt size quality count user w
     = (Raise (ValueError "count must be between 1 and 10"), w))
  /\ ((1 <= count <= 10)%Z ->
        AppTools.generate_image env service prompt size quality count user w
        = OpenAIService.generate_image env service prompt size quality count user w)
  /\ (forall req,
        In (EvImagesGenerate req)
          (skipn (List.length w)
             (snd (AppTools.generate_image env service prompt size quality count user w))) ->
        (1 <= ir_n req <= 10)%Z).
Proof.
  assert (Hout : (count < 1 \/ 10 < count)%Z ->
                 AppTools.generate_image env service prompt size quality count user w
                 = (Raise (ValueError "count must be between 1 and 10"), w)).
  { intro H. unfold AppTools.generate_image.
    destruct (Z.leb_spec 1 count), (Z.leb_spec count 10); try reflexivity; lia. }
  assert (Hin : (1 <= count <= 10)%Z ->
                AppTools.generate_image env service prompt size quality count user w
                = OpenAIService.generate_image env service prompt size quality count user w).
  { intros [H1 H10]. unfold AppTools.generate_image.
    now rewrite (proj2 (Z.leb_le _ _) H1), (proj2 (Z.leb_le _ _) H10). }
  split; [exact Hout|]. split; [exact Hin|].
  intros req Hreq.
  destruct (Z.lt_ge_cases count 1) as [Hlow | Hlow];
    [rewrite Hout in Hreq by now left|].
  { cbn [snd] in Hreq. rewrite skipn_all in Hreq. contradiction. }
  destruct (Z.lt_ge_cases 10 count) as [Hhigh | Hhigh];
    [rewrite Hout in Hreq by now right|].
  { cbn [snd] in Hreq. rewrite skipn_all in Hreq. contradiction. }
  rewrite Hin in Hreq by lia.
  destruct (generate_image_outgoing env service prompt size quality count user w)
    as (rest & Hrest & Hshape).
  rewrite Hrest, skipn_app, skipn_all, Nat.sub_diag in Hreq. cbn [skipn app] in Hreq.
  destruct Hshape as [-> | (q & s & tail & -> & _ & _ & Hok & Hraise)]; [contradiction|].
  destruct Hreq as [Heq | Hreq].
  - injection Heq as <-. cbn [ir_n images_request_of]. lia.
  - destruct (images_generate env w (images_request_of service prompt s q count user))
      as [response | e] eqn:Hresp.
    + destruct (Hok response eq_refl) as [Hquiet _].
      rewrite Forall_forall in Hquiet. specialize (Hquiet _ Hreq). discriminate Hquiet.
    + rewrite (Hraise e eq_refl) in Hreq. contradiction.
Qed.

Lemma tool_image_count_bounds_witness :
  AppTools.generate_image (sample_env [] None None) (with_storage openai)
    "a cat" "auto" "high" 11 None []
  = (Raise (ValueError "count must be between 1 and 10"), []).
Proof.
  apply (proj1 (tool_image_count_bounds (sample_env [] None None) (with_storage openai)
                  "a cat" "auto" "high" 11 None [])).
  right. reflexivity.
Defined.

(** ** Provider failures *)

(** X6: an exception raised by the provider leaves each call unchanged, with
    or without a storage configuration: the one request is on record,
    nothing is uploaded and nothing is logged. *)
Theorem provider_errors_propagate (env : Env) (self : OpenAIService.t) (e : exn) (w : world) :
  (forall prompt system_prompt model temperature top_p max_output_tokens user
          response_format presence_penalty frequency_penalty seed metadata,
     let req := chat_request_of self prompt system_prompt model temperature top_p
                  max_output_tokens user response_format presence_penalty
                  frequency_penalty seed metadata in
     chat_completions_create env w req = Raise e ->
     OpenAIService.chat_completion env self prompt system_prompt model temperature top_p
       max_output_tokens user response_format presence_penalty frequency_penalty seed
       metadata w
     = (Raise e, (w ++ [EvChatCreate req])%list))
  /\ (forall prompt size quality count user q s,
        let req := images_request_of self prompt s q count user in
        OpenAIService.normalize_quality quality = Ok q ->
        OpenAIService.normalize_size size = Ok s ->
        images_generate env w req = Raise e ->
        OpenAIService.generate_image env self prompt size quality count user w
        = (Raise e, (w ++ [EvImagesGenerate req])%list))
  /\ (forall text model voice response_format speed,
        let req := speech_request_of self text model voice response_format speed in
        audio_speech_create env w req = Raise e ->
        OpenAIService.generate_audio env self text model voice response_format speed w
        = (Raise e, (w ++ [EvSpeechCreate req])%list))
  /\ (forall prompt model seconds size variant,
        let req := video_request_of self prompt model seconds size in
        provider (OpenAIService.config self) = openai ->
        videos_create_and_poll env w req = Raise e ->
        OpenAIService.generate_video env self prompt model seconds size variant w
        = (Raise e, (w ++ [EvVideosCreateAndPoll req])%list))
  /\ (forall prompt model seconds size variant job,
        let req := video_request_of self prompt model seconds size in
        provider (OpenAIService.config self) = openai ->
        videos_create_and_poll env w req = Ok job ->
        status job = "completed" ->
        videos_download_content env (w ++ [EvVideosCreateAndPoll req])%list
          (video_id job) variant = Raise e ->
        OpenAIService.generate_video env self prompt model seconds size variant w
        = (Raise e,
           ((w ++ [EvVideosCreateAndPoll req]) ++ [EvVideosDownload (video_id job) variant])%list)).
Proof.
  repeat match goal with |- _ /\ _ => split end.
  - intros until req. intro H. subst req. unfold chat_request_of in H.
    unfold OpenAIService.chat_completion, bind, call. cbv zeta. now rewrite H.
  - intros until req. intros Hq Hs H. subst req. unfold images_request_of in H.
    unfold OpenAIService.generate_image, bind, lift, call. rewrite Hq, Hs. cbv zeta.
    now rewrite H.
  - intros until req. intro H. subst req. unfold speech_request_of in H.
    unfold OpenAIService.generate_audio, bind, call. cbv zeta. now rewrite H.
  - intros until req. intros Hprov H. subst req. unfold video_request_of in H.
    unfold OpenAIService.generate_video, bind, call. rewrite Hprov. cbv zeta.
    now rewrite H.
  - intros until req. intros Hprov Hjob Hdone H. subst req.
    unfold video_request_of in Hjob, H.
    unfold OpenAIService.generate_video, bind, call. rewrite Hprov. cbv zeta.
    rewrite Hjob, Hdone. cbn [String.eqb Ascii.eqb Bool.eqb negb]. now rewrite H.
Qed.

Lemma provider_errors_propagate_witness :
  OpenAIService.generate_audio failing_provider (with_storage openai) "hi" None None "mp3" 1 []
  = (Raise rate_limited,
     [EvSpeechCreate (speech_request_of (with_storage openai) "hi" None None "mp3" 1)]).
Proof.
  apply (proj1 (proj2 (proj2
           (provider_errors_propagate failing_provider (with_storage openai) rate_limited [])))
           "hi" None None "mp3" 1%Q).
  reflexivity.
Defined.

(** X7: a video job that comes back in any state other than [completed]
    raises a [RuntimeError] carrying the job id and its status; the job
    request is the only interaction, so nothing is downloaded or uploaded. *)
Theorem video_job_failure
    (env : Env) (self : OpenAIService.t) (prompt : string) (model : option string)
    (seconds : Z) (size variant : string) (w : world) (job : Video) :
  provider (OpenAIService.config self) = openai ->
  videos_create_and_poll env w (video_request_of self prompt model seconds size) = Ok job ->
  status job <> "completed" ->
  OpenAIService.generate_video env self prompt model seconds size variant w
  = (Raise (RuntimeError
              ("Video job " ++ video_id job ++ " did not complete successfully (status="
               ++ status job ++ ")")),
     (w ++ [EvVideosCreateAndPoll (video_request_of self prompt model seconds size)])%list).
Proof.
  intros Hprov Hjob Hdone. unfold video_request_of in Hjob.
  unfold OpenAIService.generate_video, bind, call, raise. rewrite Hprov. cbv zeta.
  rewrite Hjob. now rewrite (proj2 (String.eqb_neq _ _) Hdone).
Qed.

Lemma video_job_failure_witness :
  OpenAIService.generate_video failing_provider (with_storage openai)
    "a cat" None 4 "1280x720" "video" []
  = (Raise (RuntimeError "Video job video_9 did not complete successfully (status=failed)"),
     [EvVideosCreateAndPoll (video_request_of (with_storage openai) "a cat" None 4 "1280x720")]).
Proof.
  apply (video_job_failure failing_provider (with_storage openai) "a cat" None 4
           "1280x720" "video" []
           {| video_id := "video_9"; status := "failed"; video_job_model := "sora-2";
              video_size := "1280x720"; video_seconds := "4" |});
    [reflexivity | reflexivity | discriminate].
Defined.

(** ** When a call returns a result *)

Lemma url_truthy (base name : string) : Py.truthy (base ++ "/" ++ name) = true.
Proof. apply truthy_append_r. reflexivity. Qed.

Lemma persist_media_bytes_some
    (env : Env) (self : OpenAIService.t) (payload : option Py.bytes)
    (category extension : string) (content_type : option string) (w w1 : world)
    (url : string) :
  OpenAIService._persist_media_bytes env self payload category extension content_type w
  = (Ok (Some url), w1) ->
  exists storage content,
    payload = Some content /\ content <> []
    /\ OpenAIService._blob_uploader self = Some storage
    /\ attempted_upload env storage w content category extension content_type = None
    /\ url = public_base_url storage ++ "/"
             ++ attempted_blob_name env storage w category extension
    /\ w1 = (w ++ [attempted_upload_event env storage w content category extension
                     content_type])%list.
Proof.
  destruct payload as [[|b content]|]; try discriminate.
  destruct (OpenAIService._blob_uploader self) as [storage|] eqn:Hup.
  2:{ rewrite (persist_media_bytes_without_storage env self (b :: content) _ _ _ _ Hup)
        by discriminate.
      discriminate. }
  rewrite (persist_media_bytes_upload env self storage (b :: content) _ _ _ _ Hup)
    by discriminate.
  destruct (attempted_upload env storage w (b :: content) category extension content_type)
    as [e|] eqn:Hans.
  - destruct (is_Exception e); discriminate.
  - intro H. injection H as <- <-.
    exists storage, (b :: content).
    repeat split; try reflexivity; [discriminate | exact Hans].
Qed.

(** X8: [generate_audio] returns a result exactly when an uploader exists,
    the provider returned a non-empty body and the storage accepted the
    upload.  The result then reports the voice sent, the format as given,
    the length of the body and the URL of the blob just written, and the
    history has grown by the speech request and that one upload. *)
Theorem audio_success_iff
    (env : Env) (self : OpenAIService.t) (text : string) (model voice : option string)
    (response_format : string) (speed : Q) (w w' : world) (r : audio_result) :
  let req := speech_request_of self text model voice response_format speed in
  let w1 := (w ++ [EvSpeechCreate req])%list in
  let content_type := Some (OpenAIService._audio_content_type response_format) in
  OpenAIService.generate_audio env self text model voice response_format speed w = (Ok r, w')
  <->
  exists storage payload,
    OpenAIService._blob_uploader self = Some storage
    /\ audio_speech_create env w req = Ok payload
    /\ payload <> []
    /\ attempted_upload env storage w1 payload "audio" response_format content_type = None
    /\ r = {| audio_voice := Py.or_else voice (default_voice (OpenAIService.config self));
              audio_format := response_format;
              audio_byte_length := List.length payload;
              audio_blob_url :=
                public_base_url storage ++ "/"
                ++ attempted_blob_name env storage w1 "audio" response_format |}
    /\ w' = (w1 ++ [attempted_upload_event env storage w1 payload "audio" response_format
                      content_type])%list.
Proof.
  intros req w1 content_type. split.
  - intro H.
    destruct (audio_speech_create env w req) as [payload | e] eqn:Hcall.
    2:{ pose proof Hcall as Hc. unfold req, speech_request_of in Hc.
        unfold OpenAIService.generate_audio, bind, call in H. cbv zeta in H.
        rewrite Hc in H. discriminate H. }
    rewrite (generate_audio_after_provider env self _ _ _ _ _ _ _ Hcall) in H.
    fold req w1 content_type in H.
    destruct (OpenAIService._persist_media_bytes env self (Some payload) "audio"
                response_format content_type w1) as [[persisted | e] w2] eqn:Hpersist;
      [|discriminate H].
    destruct (OpenAIService._require_blob_url persisted "audio") as [url | e] eqn:Hurl;
      [|discriminate H].
    apply require_blob_url_ok in Hurl as [-> _].
    apply persist_media_bytes_some in Hpersist
      as (storage & content & Hpay & Hne & Hup & Hans & -> & ->).
    injection Hpay as <-. injection H as <- <-.
    exists storage, payload. repeat split; assumption || reflexivity.
  - intros (storage & payload & Hup & Hcall & Hne & Hans & -> & ->).
    rewrite (generate_audio_after_provider env self _ _ _ _ _ _ _ Hcall).
    fold req w1 content_type.
    rewrite (persist_media_bytes_upload env self storage _ _ _ _ _ Hup Hne), Hans.
    unfold OpenAIService._require_blob_url. now rewrite url_truthy.
Qed.

Lemma audio_success_iff_witness :
  OpenAIService.generate_audio (sample_env [x68] None None) (with_storage openai)
    "hi" None None ".WAV" 1 []
  = (Ok {| audio_voice := "alloy";
           audio_format := ".WAV";
           audio_byte_length := 1;
           audio_blob_url :=
             "https://cdn.example.net/media/prod/audio/20261104T084805-00000000000000000000000000000008.wav" |},
     [EvSpeechCreate (speech_request_of (with_storage openai) "hi" None None ".WAV" 1);
      EvUploadBlob "prod/audio/20261104T084805-00000000000000000000000000000008.wav"
        [x68] "application/octet-stream"]).
Proof.
  apply (proj2 (audio_success_iff (sample_env [x68] None None) (with_storage openai)
                  "hi" None None ".WAV" 1%Q [] _ _)).
  exists sample_storage, [x68].
  repeat split; try reflexivity. discriminate.
Defined.

(** X9: [generate_video] returns a result exactly when the provider is
    [openai], the job came back [completed], the download returned a
    non-empty body, an uploader exists and the storage accepted the upload.
    The result then carries the job's own id, status, model, size and
    duration, the variant as given, the length of the body and the URL of
    the blob just written under the extension of that variant. *)
Theorem video_success_iff
    (env : Env) (self : OpenAIService.t) (prompt : string) (model : option string)
    (seconds : Z) (size variant : string) (w w' : world) (r : video_result) :
  let req := video_request_of self prompt model seconds size in
  let w1 := (w ++ [EvVideosCreateAndPoll req])%list in
  let extension := fst (OpenAIService._video_variant_meta variant) in
  let content_type := Some (snd (OpenAIService._video_variant_meta variant)) in
  OpenAIService.generate_video env self prompt model seconds size variant w = (Ok r, w')
  <->
  exists storage job payload,
    let w2 := (w1 ++ [EvVideosDownload (video_id job) variant])%list in
    provider (OpenAIService.config self) = openai
    /\ OpenAIService._blob_uploader self = Some storage
    /\ videos_create_and_poll env w req = Ok job
    /\ status job = "completed"
    /\ videos_download_content env w1 (video_id job) variant = Ok payload
    /\ payload <> []
    /\ attempted_upload env storage w2 payload "videos" extension content_type = None
    /\ r = {| vres_video_id := video_id job;
              vres_status := status job;
              vres_model := video_job_model job;
              vres_size := video_size job;
              vres_seconds := video_seconds job;
              vres_variant := variant;
              vres_byte_length := List.length payload;
              vres_blob_url :=
                public_base_url storage ++ "/"
                ++ attempted_blob_name env storage w2 "videos" extension |}
    /\ w' = (w2 ++ [attempted_upload_event env storage w2 payload "videos" extension
                      content_type])%list.
Proof.
  intros req w1 extension content_type. split.
  - intro H.
    destruct (provider (OpenAIService.config self)) eqn:Hprov.
    2:{ rewrite (generate_video_azure env self _ _ _ _ _ _ Hprov) in H. discriminate H. }
    destruct (videos_create_and_poll env w req) as [job | e] eqn:Hjob.
    2:{ pose proof Hjob as Hj. unfold req, video_request_of in Hj.
        unfold OpenAIService.generate_video, bind, call in H. rewrite Hprov in H.
        cbv zeta in H. rewrite Hj in H. discriminate H. }
    destruct (String.eqb (status job) "completed") eqn:Hdone.
    2:{ pose proof Hjob as Hj. unfold req, video_request_of in Hj.
        unfold OpenAIService.generate_video, bind, call, raise in H. rewrite Hprov in H.
        cbv zeta in H. rewrite Hj, Hdone in H. discriminate H. }
    apply String.eqb_eq in Hdone.
    destruct (videos_download_content env w1 (video_id job) variant)
      as [payload | e] eqn:Hbytes.
    2:{ pose proof Hjob as Hj. pose proof Hbytes as Hb.
        unfold w1, req, video_request_of in Hj, Hb.
        unfold OpenAIService.generate_video, bind, call in H. rewrite Hprov in H.
        cbv zeta in H. rewrite Hj, Hdone in H.
        cbn [String.eqb Ascii.eqb Bool.eqb negb] in H. rewrite Hb in H. discriminate H. }
    rewrite (generate_video_after_provider env self _ _ _ _ _ _ _ _ Hprov Hjob Hdone Hbytes)
      in H.
    fold req w1 extension content_type in H.
    match type of H with
    | context [OpenAIService._persist_media_bytes env self ?p ?c ?x ?t ?v] =>
        destruct (OpenAIService._persist_media_bytes env self p c x t v)
          as [[persisted | e] w3] eqn:Hpersist; [|discriminate H]
    end.
    destruct (OpenAIService._require_blob_url persisted "video") as [url | e] eqn:Hurl;
      [|discriminate H].
    apply require_blob_url_ok in Hurl as [-> _].
    apply persist_media_bytes_some in Hpersist
      as (storage & content & Hpay & Hne & Hup & Hans & -> & ->).
    injection Hpay as <-. injection H as <- <-.
    exists storage, job, payload. repeat split; assumption || reflexivity.
  - intros (storage & job & payload & Hprov & Hup & Hjob & Hdone & Hbytes & Hne & Hans
            & -> & ->).
    rewrite (generate_video_after_provider env self _ _ _ _ _ _ _ _ Hprov Hjob Hdone Hbytes).
    fold req w1 extension content_type.
    rewrite (persist_media_bytes_upload env self storage _ _ _ _ _ Hup Hne), Hans.
    unfold OpenAIService._require_blob_url. now rewrite url_truthy.
Qed.

Lemma video_success_iff_witness :
  OpenAIService.generate_video (sample_env [x68] None None) (with_storage openai)
    "a cat" None 8 "1280x720" "thumbnail" []
  = (Ok {| vres_video_id := "video_123";
           vres_status := "completed";
           vres_model := "sora-2";
           vres_size := "1280x720";
           vres_seconds := "8";
           vres_variant := "thumbnail";
           vres_byte_length := 1;
           vres_blob_url :=
             "https://cdn.example.net/media/prod/videos/20261104T084805-00000000000000000000000000000009.png" |},
     [EvVideosCreateAndPoll (video_request_of (with_storage openai) "a cat" None 8 "1280x720");
      EvVideosDownload "video_123" "thumbnail";
      EvUploadBlob "prod/videos/20261104T084805-00000000000000000000000000000009.png"
        [x68] "image/png"]).
Proof.
  apply (proj2 (video_success_iff (sample_env [x68] None None) (with_storage openai)
                  "a cat" None 8%Z "1280x720" "thumbnail" [] _ _)).
  exists sample_storage, sample_job, [x68].
  repeat split; try reflexivity. discriminate.
Defined.

Lemma persist_base64_media_some
    (env : Env) (self : OpenAIService.t) (base64_payload : option string)
    (category extension : string) (content_type : option string) (w w1 : world)
    (url : string) :
  OpenAIService._persist_base64_media env self base64_payload category extension
    content_type w = (Ok (Some url), w1) ->
  exists storage b64 decoded,
    base64_payload = Some b64 /\ b64decode env b64 = Some decoded /\ decoded <> []
    /\ OpenAIService._blob_uploader self = Some storage
    /\ url = public_base_url storage ++ "/"
             ++ attempted_blob_name env storage w category extension
    /\ w1 = (w ++ [attempted_upload_event env storage w decoded category extension
                     content_type])%list.
Proof.
  destruct base64_payload as [[|c b64]|]; try discriminate.
  rewrite persist_base64_media_decoded by discriminate.
  destruct (b64decode env (String c b64)) as [decoded|] eqn:Hdec; [|discriminate].
  intro H. apply persist_media_bytes_some in H
    as (storage & content & Hpay & Hne & Hup & _ & -> & ->).
  injection Hpay as <-.
  exists storage, (String c b64), decoded. repeat split; assumption || reflexivity.
Qed.

Lemma persist_images_backed (env : Env) (self : OpenAIService.t) (items : list image_item) :
  forall (w w' : world) (entries : list image_entry),
    OpenAIService.persist_images env self items w = (Ok entries, w') ->
    exists uploads,
      w' = (w ++ uploads)%list
      /\ List.length entries = List.length items
      /\ List.length uploads = List.length items
      /\ Forall (image_backed_by_upload env self) (combine items (combine entries uploads)).
Proof.
  induction items as [|item items IH]; intros w w' entries H.
  - injection H as <- <-. exists []. rewrite app_nil_r.
    repeat split; constructor.
  - cbn [OpenAIService.persist_images] in H. unfold bind, lift, ret in H.
    destruct (OpenAIService._persist_base64_media env self (b64_json item) "images" "png"
                (Some "image/png") w) as [[persisted | e] w1] eqn:Hitem; [|discriminate H].
    destruct (OpenAIService._require_blob_url persisted "image") as [url | e] eqn:Hurl;
      [|discriminate H].
    destruct (OpenAIService.persist_images env self items w1) as [[tail | e] w2] eqn:Hrest;
      [|discriminate H].
    injection H as <- <-.
    apply require_blob_url_ok in Hurl as [-> _].
    apply persist_base64_media_some in Hitem
      as (storage & b64 & decoded & Hb64 & Hdec & Hne & Hup & -> & ->).
    destruct (IH _ _ _ Hrest) as (uploads & -> & Hlen1 & Hlen2 & Hall).
    destruct (attempted_blob_name_suffix env storage w "images" "png") as [stem Hstem].
    change (sanitized_extension "png") with "png" in Hstem.
    exists (attempted_upload_event env storage w decoded "images" "png" (Some "image/png")
              :: uploads).
    rewrite <- app_assoc. cbn [app List.length combine].
    repeat split; try (now f_equal).
    constructor; [|exact Hall].
    exists storage, b64, decoded, stem. cbn [blob_url revised_prompt].
    unfold attempted_upload_event. rewrite Hstem.
    repeat split; assumption || reflexivity.
Qed.

(** X10: when [generate_image] returns a result, the provider's answer had
    passed validation and every image in the result is backed by an upload:
    after the one provider request the history holds exactly one upload per
    returned item, in the provider's order, of the decoded non-empty bytes,
    as [image/png], under a name ending in [.png]; each entry's URL is the
    public base URL, a slash and that name, and carries the item's revised
    prompt. *)
Theorem image_success_sound
    (env : Env) (self : OpenAIService.t) (prompt size quality : string) (count : Z)
    (user : option string) (w w' : world) (r : image_result) :
  OpenAIService.generate_image env self prompt size quality count user w = (Ok r, w') ->
  exists q s response uploads,
    OpenAIService.normalize_quality quality = Ok q
    /\ OpenAIService.normalize_size size = Ok s
    /\ images_generate env w (images_request_of self prompt s q count user) = Ok response
    /\ w' = ((w ++ [EvImagesGenerate (images_request_of self prompt s q count user)])
             ++ uploads)%list
    /\ image_created r = created response
    /\ List.length (images r) = List.length (data response)
    /\ List.length uploads = List.length (data response)
    /\ Forall (image_backed_by_upload env self)
         (combine (data response) (combine (images r) uploads)).
Proof.
  intro H.
  destruct (OpenAIService.normalize_quality quality) as [q | e] eqn:Hq.
  2:{ unfold OpenAIService.generate_image, bind, lift in H. rewrite Hq in H. discriminate H. }
  destruct (OpenAIService.normalize_size size) as [s | e] eqn:Hs.
  2:{ unfold OpenAIService.generate_image, bind, lift in H. rewrite Hq, Hs in H.
      discriminate H. }
  destruct (images_generate env w (images_request_of self prompt s q count user))
    as [response | e] eqn:Hresp.
  2:{ pose proof Hresp as Hr. unfold images_request_of in Hr.
      unfold OpenAIService.generate_image, bind, lift, call in H. rewrite Hq, Hs in H.
      cbv zeta in H. rewrite Hr in H. discriminate H. }
  rewrite (generate_image_after_provider env self _ _ _ _ _ _ _ _ _ Hq Hs Hresp) in H.
  match type of H with
  | context [OpenAIService.persist_images env self ?l ?v] =>
      destruct (OpenAIService.persist_images env self l v) as [[entries | e] w2] eqn:Hloop;
        [|discriminate H]
  end.
  injection H as <- <-.
  apply persist_images_backed in Hloop as (uploads & -> & Hlen1 & Hlen2 & Hall).
  exists q, s, response, uploads.
  repeat split; assumption || reflexivity.
Qed.

Lemma image_success_sound_witness :
  exists uploads,
    snd (OpenAIService.generate_image (sample_env [] (Some "aGk=") None) (with_storage openai)
           "a cat" "auto" "hd" 1 None [])
    = ([EvImagesGenerate (images_request_of (with_storage openai) "a cat" "auto" "high" 1 None)]
       ++ uploads)%list
    /\ List.length uploads = 1%nat.
Proof.
  destruct (image_success_sound (sample_env [] (Some "aGk=") None) (with_storage openai)
              "a cat" "auto" "hd" 1 None [] _ _ eq_refl)
    as (q & s & response & uploads & Hq & Hs & Hresp & Hw & _ & _ & Hlen & _).
  injection Hq as <-. injection Hs as <-. injection Hresp as <-.
  exists uploads. split; [exact Hw | exact Hlen].
Defined.

(** ** What a video call sends out *)

Lemma video_variant_meta_cases (variant : string) :
  OpenAIService._video_variant_meta variant = ("mp4", "video/mp4")
  \/ OpenAIService._video_variant_meta variant = ("png", "image/png")
  \/ OpenAIService._video_variant_meta variant = ("json", "application/json")
  \/ OpenAIService._video_variant_meta variant = ("bin", _DEFAULT_CONTENT_TYPE).
Proof.
  unfold OpenAIService._video_variant_meta. cbn [Py.get].
  destruct (String.eqb (Py.lower variant) "video"); [now left|].
  destruct (String.eqb (Py.lower variant) "thumbnail"); [now right; left|].
  destruct (String.eqb (Py.lower variant) "spritesheet"); [now right; right; left|].
  now right; right; right.
Qed.

Lemma video_variant_meta_allowed (variant : string) :
  Py.mem variant allowed_variants = true ->
  OpenAIService._video_variant_meta variant = ("mp4", "video/mp4")
  \/ OpenAIService._video_variant_meta variant = ("png", "image/png")
  \/ OpenAIService._video_variant_meta variant = ("json", "application/json").
Proof.
  intro H. unfold allowed_variants in H.
  apply mem_cons_true in H as [-> | H]; [now left|].
  apply mem_cons_true in H as [-> | H]; [now right; left|].
  apply mem_cons_true in H as [-> | H]; [now right; right|].
  discriminate H.
Qed.

Lemma video_content_type_kept (variant : string) :
  Py.or_else (Some (snd (OpenAIService._video_variant_meta variant))) _DEFAULT_CONTENT_TYPE
  = snd (OpenAIService._video_variant_meta variant).
Proof.
  destruct (video_variant_meta_cases variant) as [H | [H | [H | H]]]; now rewrite H.
Qed.

Lemma persist_video_bytes_events
    (env : Env) (self : OpenAIService.t) (req : video_request) (variant : string)
    (payload : Py.bytes) (w : world) :
  exists rest,
    snd (OpenAIService._persist_media_bytes env self (Some payload) "videos"
           (fst (OpenAIService._video_variant_meta variant))
           (Some (snd (OpenAIService._video_variant_meta variant))) w) = (w ++ rest)%list
    /\ Forall (video_event_ok req variant) rest.
Proof.
  destruct payload as [|b content].
  { exists []. rewrite app_nil_r. split; [reflexivity | constructor]. }
  destruct (OpenAIService._blob_uploader self) as [storage|] eqn:Hup.
  2:{ rewrite (persist_media_bytes_without_storage env self (b :: content) _ _ _ _ Hup)
        by discriminate.
      exists []. rewrite app_nil_r. split; [reflexivity | constructor]. }
  rewrite (persist_media_bytes_upload env self storage (b :: content) _ _ _ _ Hup)
    by discriminate.
  assert (Hev : video_event_ok req variant
                  (attempted_upload_event env storage w (b :: content) "videos"
                     (fst (OpenAIService._video_variant_meta variant))
                     (Some (snd (OpenAIService._video_variant_meta variant))))).
  { right; right; left.
    destruct (attempted_blob_name_suffix env storage w "videos"
                (fst (OpenAIService._video_variant_meta variant))) as [stem Hstem].
    exists stem, (b :: content).
    unfold attempted_upload_event. now rewrite Hstem, video_content_type_kept. }
  match goal with
  | |- context [attempted_upload env storage w ?c ?k ?x ?t] =>
      destruct (attempted_upload env storage w c k x t) as [e|]
  end.
  - destruct (is_Exception e).
    + eexists. rewrite <- app_assoc. split; [reflexivity|].
      constructor; [exact Hev|]. constructor; [|constructor].
      right; right; right. eexists; reflexivity.
    + eexists. split; [reflexivity|]. constructor; [exact Hev | constructor].
  - eexists. split; [reflexivity|]. constructor; [exact Hev | constructor].
Qed.

Lemma generate_video_create_raises
    (env : Env) (self : OpenAIService.t) (prompt : string) (model : option string)
    (seconds : Z) (size variant : string) (w : world) (e : exn) :
  provider (OpenAIService.config self) = openai ->
  videos_create_and_poll env w (video_request_of self prompt model seconds size) = Raise e ->
  OpenAIService.generate_video env self prompt model seconds size variant w
  = (Raise e,
     (w ++ [EvVideosCreateAndPoll (video_request_of self prompt model seconds size)])%list).
Proof.
  intros Hprov H. unfold video_request_of in H.
  unfold OpenAIService.generate_video, bind, call. rewrite Hprov. cbv zeta.
  now rewrite H.
Qed.

Lemma generate_video_not_completed
    (env : Env) (self : OpenAIService.t) (prompt : string) (model : option string)
    (seconds : Z) (size variant : string) (w : world) (job : Video) :
  provider (OpenAIService.config self) = openai ->
  videos_create_and_poll env w (video_request_of self prompt model seconds size) = Ok job ->
  status job <> "completed" ->
  OpenAIService.generate_video env self prompt model seconds size variant w
  = (Raise (RuntimeError (job_failure_msg job)),
     (w ++ [EvVideosCreateAndPoll (video_request_of self prompt model seconds size)])%list).
Proof.
  intros Hprov Hjob Hdone. unfold video_request_of in Hjob.
  unfold OpenAIService.generate_video, bind, call, raise. rewrite Hprov. cbv zeta.
  rewrite Hjob. now rewrite (proj2 (String.eqb_neq _ _) Hdone).
Qed.

Lemma generate_video_download_raises
    (env : Env) (self : OpenAIService.t) (prompt : string) (model : option string)
    (seconds : Z) (size variant : string) (w : world) (job : Video) (e : exn) :
  provider (OpenAIService.config self) = openai ->
  videos_create_and_poll env w (video_request_of self prompt model seconds size) = Ok job ->
  status job = "completed" ->
  videos_download_content env
    (w ++ [EvVideosCreateAndPoll (video_request_of self prompt model seconds size)])%list
    (video_id job) variant = Raise e ->
  OpenAIService.generate_video env self prompt model seconds size variant w
  = (Raise e,
     ((w ++ [EvVideosCreateAndPoll (video_request_of self prompt model seconds size)])
      ++ [EvVideosDownload (video_id job) variant])%list).
Proof.
  intros Hprov Hjob Hdone H. unfold video_request_of in Hjob, H.
  unfold OpenAIService.generate_video, bind, call. rewrite Hprov. cbv zeta.
  rewrite Hjob, Hdone. cbn [String.eqb Ascii.eqb Bool.eqb negb]. now rewrite H.
Qed.


Lemma generate_video_events
    (env : Env) (self : OpenAIService.t) (prompt : string) (model : option string)
    (seconds : Z) (size variant : string) (w : world) :
  exists rest,
    snd (OpenAIService.generate_video env self prompt model seconds size variant w)
    = (w ++ rest)%list
    /\ Forall (video_event_ok (video_request_of self prompt model seconds size) variant) rest
    /\ (rest <> [] -> provider (OpenAIService.config self) = openai).
Proof.
  set (req := video_request_of self prompt model seconds size).
  destruct (provider (OpenAIService.config self)) eqn:Hprov.
  2:{ rewrite (generate_video_azure env self _ _ _ _ _ _ Hprov).
      exists []. rewrite app_nil_r. repeat split; [constructor | intro H; now contradiction H]. }
  assert (Hcreate : video_event_ok req variant (EvVideosCreateAndPoll req)) by now left.
  destruct (videos_create_and_poll env w req) as [job | e] eqn:Hjob.
  2:{ rewrite (generate_video_create_raises env self _ _ _ _ _ _ _ Hprov Hjob).
      exists [EvVideosCreateAndPoll req].
      split; [reflexivity | split; [constructor; [exact Hcreate | constructor] | reflexivity]]. }
  destruct (String.eqb_spec (status job) "completed") as [Hdone | Hdone].
  2:{ rewrite (generate_video_not_completed env self _ _ _ _ _ _ _ Hprov Hjob Hdone).
      exists [EvVideosCreateAndPoll req].
      split; [reflexivity | split; [constructor; [exact Hcreate | constructor] | reflexivity]]. }
  assert (Hdown : video_event_ok req variant (EvVideosDownload (video_id job) variant))
    by (right; left; eexists; reflexivity).
  destruct (videos_download_content env (w ++ [EvVideosCreateAndPoll req])%list
              (video_id job) variant) as [payload | e] eqn:Hbytes.
  2:{ rewrite (generate_video_download_raises env self _ _ _ _ _ _ _ _ Hprov Hjob Hdone
                 Hbytes).
      exists [EvVideosCreateAndPoll req; EvVideosDownload (video_id job) variant].
      split; [cbn [snd]; now rewrite <- app_assoc|].
      split; [constructor; [exact Hcreate | constructor; [exact Hdown | constructor]] | reflexivity]. }
  rewrite (generate_video_after_provider env self _ _ _ _ _ _ _ _ Hprov Hjob Hdone Hbytes).
  fold req.
  destruct (persist_video_bytes_events env self req variant payload
              ((w ++ [EvVideosCreateAndPoll req])
               ++ [EvVideosDownload (video_id job) variant])%list) as (tail & Htail & Hall).
  exists (EvVideosCreateAndPoll req :: EvVideosDownload (video_id job) variant :: tail).
  split; [|split; [constructor; [exact Hcreate | constructor; [exact Hdown | exact Hall]] | reflexivity]].
  match goal with
  | |- context [OpenAIService._persist_media_bytes env self ?p ?c ?x ?t ?v] =>
      destruct (OpenAIService._persist_media_bytes env self p c x t v)
        as [[persisted | e] w3]
  end; cbn [snd] in Htail; subst w3.
  - destruct (OpenAIService._require_blob_url persisted "video"); cbn [snd];
      now rewrite <- !app_assoc.
  - cbn [snd]. now rewrite <- !app_assoc.
Qed.

Lemma tool_video_passes
    (env : Env) (service : OpenAIService.t) (prompt : string) (model : option string)
    (seconds : Z) (size variant : string) (w : world) :
  App.generate_video env service prompt model seconds size variant w
  = OpenAIService.generate_video env service prompt model seconds size variant w
    /\ (seconds = 4 \/ seconds = 8 \/ seconds = 12)%Z
    /\ Py.mem variant allowed_variants = true
  \/ (exists msg,
        App.generate_video env service prompt model seconds size variant w
        = (Raise (ValueError msg), w)).
Proof.
  unfold App.generate_video. fold allowed_variants.
  destruct (existsb (Z.eqb seconds) [4%Z; 8%Z; 12%Z]) eqn:Hsec; cbn [negb];
    [|right; eexists; reflexivity].
  destruct (Py.mem variant allowed_variants) eqn:Hvar; cbn [negb];
    [|right; eexists; reflexivity].
  left. repeat split.
  cbn [existsb] in Hsec.
  destruct (Z.eqb_spec seconds 4); [now left|].
  destruct (Z.eqb_spec seconds 8); [now right; left|].
  destruct (Z.eqb_spec seconds 12); [now right; right|].
  discriminate Hsec.
Qed.

(** X11: the [generate_video] tool refuses a variant outside
    {video, thumbnail, spritesheet} before anything is sent.  Whatever it
    puts on record happens on the [openai] provider for 4, 8 or 12 seconds:
    the job request carries exactly those seconds, and any upload is named
    and tagged after the variant, [.mp4] as [video/mp4], [.png] as
    [image/png] or [.json] as [application/json], never the generic
    fallback. *)
Theorem tool_video_outgoing
    (env : Env) (service : OpenAIService.t) (prompt : string) (model : option string)
    (seconds : Z) (size variant : string) (w : world) :
  ((seconds = 4 \/ seconds = 8 \/ seconds = 12)%Z ->
     Py.mem variant allowed_variants = false ->
     App.generate_video env service prompt model seconds size variant w
     = (Raise (ValueError "variant must be video, thumbnail, or spritesheet"), w))
  /\ exists rest,
       snd (App.generate_video env service prompt model seconds size variant w)
       = (w ++ rest)%list
       /\ (rest <> [] ->
             provider (OpenAIService.config service) = openai
             /\ (seconds = 4 \/ seconds = 8 \/ seconds = 12)%Z
             /\ Py.mem variant allowed_variants = true)
       /\ (forall req, In (EvVideosCreateAndPoll req) rest -> vr_seconds req = seconds)
       /\ (forall name content content_type,
             In (EvUploadBlob name content content_type) rest ->
             exists stem,
               (name = stem ++ ".mp4" /\ content_type = "video/mp4")
               \/ (name = stem ++ ".png" /\ content_type = "image/png")
               \/ (name = stem ++ ".json" /\ content_type = "application/json")).
Proof.
  split.
  - intros Hsec Hvar. unfold App.generate_video. fold allowed_variants. rewrite Hvar.
    destruct Hsec as [-> | [-> | ->]]; reflexivity.
  - destruct (tool_video_passes env service prompt model seconds size variant w)
      as [(Hcall & Hsec & Hvar) | (msg & Hcall)]; rewrite Hcall.
    2:{ exists []. rewrite app_nil_r.
        repeat split; try (intro H; now contradiction H); intros; contradiction. }
    destruct (generate_video_events env service prompt model seconds size variant w)
      as (rest & Hrest & Hall & Hprov).
    exists rest. rewrite Forall_forall in Hall.
    split; [exact Hrest|]. split; [intro H; now repeat split; auto|]. split.
    + intros req Hin.
      destruct (Hall _ Hin) as [H | [(id & H) | [(stem & content & H) | (msg & H)]]];
        try discriminate H.
      injection H as ->. reflexivity.
    + intros name content content_type Hin.
      destruct (Hall _ Hin) as [H | [(id & H) | [(stem & content' & H) | (msg & H)]]];
        try discriminate H.
      injection H as -> _ ->. exists stem.
      destruct (video_variant_meta_allowed variant Hvar) as [Hm | [Hm | Hm]]; rewrite Hm.
      * left. split; reflexivity.
      * right; left. split; reflexivity.
      * right; right. split; reflexivity.
Qed.

Lemma tool_video_outgoing_witness :
  App.generate_video (sample_env [x68] None None) (with_storage openai)
    "a cat" None 8 "1280x720" "Thumbnail" []
  = (Raise (ValueError "variant must be video, thumbnail, or spritesheet"), []).
Proof.
  apply (proj1 (tool_video_outgoing (sample_env [x68] None None) (with_storage openai)
                  "a cat" None 8 "1280x720" "Thumbnail" []));
    [right; left; reflexivity | reflexivity].
Defined.

(** ** Chat *)

(** X12: [chat_completion] makes one provider call and nothing else.  The
    request uses the given model, or the configured one when the model is
    missing or empty, and ends with the user's prompt; a system message
    comes first exactly when a non-empty system prompt was given.  The text
    returned is extracted from the first choice, so a plain string reply
    comes back unchanged, and a completion without choices raises
    [IndexError] after the call. *)
Theorem chat_completion_end_to_end
    (env : Env) (self : OpenAIService.t) (prompt : string)
    (system_prompt model : option string) (temperature top_p : Q)
    (max_output_tokens : option Z) (user response_format : option string)
    (presence_penalty frequency_penalty : Q) (seed : option Z) (metadata : option pyval)
    (w : world) :
  let req := chat_request_of self prompt system_prompt model temperature top_p
               max_output_tokens user response_format presence_penalty frequency_penalty
               seed metadata in
  snd (OpenAIService.chat_completion env self prompt system_prompt model temperature top_p
         max_output_tokens user response_format presence_penalty frequency_penalty seed
         metadata w) = (w ++ [EvChatCreate req])%list
  /\ (model = None \/ model = Some "" -> cr_model req = chat_model (OpenAIService.config self))
  /\ (forall m, model = Some m -> m <> "" -> cr_model req = m)
  /\ (system_prompt = None \/ system_prompt = Some "" -> cr_messages req = [("user", prompt)])
  /\ (forall sp, system_prompt = Some sp -> sp <> "" ->
        cr_messages req = [("system", sp); ("user", prompt)])
  /\ (forall c first others,
        chat_completions_create env w req = Ok c ->
        choices c = first :: others ->
        fst (OpenAIService.chat_completion env self prompt system_prompt model temperature
               top_p max_output_tokens user response_format presence_penalty
               frequency_penalty seed metadata w)
        = Ok {| chat_text := OpenAIService._extract_text (message_content first);
                chat_finish_reason := finish_reason first;
                chat_model_used := completion_model c;
                chat_usage := usage c;
                chat_raw := model_dump c |})
  /\ (forall c first others reply,
        chat_completions_create env w req = Ok c ->
        choices c = first :: others ->
        message_content first = PStr reply ->
        exists r,
          fst (OpenAIService.chat_completion env self prompt system_prompt model temperature
                 top_p max_output_tokens user response_format presence_penalty
                 frequency_penalty seed metadata w) = Ok r
          /\ chat_text r = reply)
  /\ (forall c,
        chat_completions_create env w req = Ok c ->
        choices c = [] ->
        fst (OpenAIService.chat_completion env self prompt system_prompt model temperature
               top_p max_output_tokens user response_format presence_penalty
               frequency_penalty seed metadata w)
        = Raise (IndexError "list index out of range")).
Proof.
  intro req.
  assert (Hrun : OpenAIService.chat_completion env self prompt system_prompt model
                   temperature top_p max_output_tokens user response_format
                   presence_penalty frequency_penalty seed metadata w
                 = match chat_completions_create env w req with
                   | Ok c =>
                       match choices c with
                       | [] => (Raise (IndexError "list index out of range"),
                                (w ++ [EvChatCreate req])%list)
                       | first :: _ =>
                           (Ok {| chat_text := OpenAIService._extract_text (message_content first);
                                  chat_finish_reason := finish_reason first;
                                  chat_model_used := completion_model c;
                                  chat_usage := usage c;
                                  chat_raw := model_dump c |},
                            (w ++ [EvChatCreate req])%list)
                       end
                   | Raise e => (Raise e, (w ++ [EvChatCreate req])%list)
                   end).
  { unfold OpenAIService.chat_completion, bind, call, raise, ret. cbv zeta.
    fold (chat_request_of self prompt system_prompt model temperature top_p
            max_output_tokens user response_format presence_penalty frequency_penalty
            seed metadata). fold req.
    destruct (chat_completions_create env w req) as [c | e]; [|reflexivity].
    destruct (choices c); reflexivity. }
  rewrite Hrun.
  split.
  { destruct (chat_completions_create env w req) as [c | e]; [|reflexivity].
    destruct (choices c); reflexivity. }
  split; [intros [-> | ->]; reflexivity|].
  split.
  { intros m -> Hm. cbn [req chat_request_of cr_model Py.or_else].
    now rewrite (proj2 (truthy_true_iff m) Hm). }
  split; [intros [-> | ->]; reflexivity|].
  split.
  { intros sp -> Hsp. cbn [req chat_request_of cr_messages].
    unfold OpenAIService._build_messages. now rewrite (proj2 (truthy_true_iff sp) Hsp). }
  split; [intros c first others -> ->; reflexivity|].
  split.
  { intros c first others reply -> -> Hreply. eexists. split; [reflexivity|].
    cbn [chat_text]. now rewrite Hreply. }
  intros c -> ->. reflexivity.
Qed.

Lemma chat_completion_end_to_end_witness :
  exists r,
    fst (OpenAIService.chat_completion (sample_env [] None None) (with_storage openai)
           "hi" (Some "be brief") (Some "") 0 1 None None None 0 0 None None []) = Ok r
    /\ chat_text r = "hello".
Proof.
  apply (proj1 (proj2 (proj2 (proj2 (proj2 (proj2 (proj2
           (chat_completion_end_to_end (sample_env [] None None) (with_storage openai)
              "hi" (Some "be brief") (Some "") 0 1 None None None 0 0 None None [])))))))
           sample_completion
           {| message_content := PStr "hello"; finish_reason := "stop" |} [] "hello");
    reflexivity.
Defined.

(** ** Listing the configured models *)

Lemma Forall_flat_map {A B : Type} (P : B -> Prop) (f : A -> list B) (l : list A) :
  (forall x, In x l -> Forall P (f x)) -> Forall P (flat_map f l).
Proof.
  induction l as [|a l IH]; intro H; simpl; [constructor|].
  apply Forall_app. split; [apply H; now left | apply IH; intros x Hx; apply H; now right].
Qed.

Lemma capability_entry_describes
    (self : OpenAIService.t) (normalized : option string)
    (item : string * (OpenAIConfig -> string)) :
  In item ServiceModels._CAPABILITY_TO_FIELD ->
  Forall (entry_describes self) (ServiceModels.capability_entry self normalized item).
Proof.
  intro Hin. destruct item as [cap field]. unfold ServiceModels.capability_entry.
  destruct (Py.truthy_opt normalized && negb (String.eqb cap (Py.or_else normalized "")));
    [constructor|].
  destruct (Py.truthy (field (OpenAIService.config self))) eqn:Hmodel; cbn [negb];
    [|constructor].
  constructor; [|constructor].
  unfold entry_describes.
  cbn [ServiceModels.configured_model ServiceModels.entry_provider
       ServiceModels.azure_supported ServiceModels.notes].
  split; [exists field; now split|].
  split; [now apply truthy_true_iff|].
  split; [reflexivity|].
  destruct (String.eqb_spec cap "video") as [Hv | Hv].
  - split; [|split].
    + rewrite andb_false_r. split; [discriminate | intros [_ H]; now contradiction H].
    + split; auto.
    + split; [discriminate | intro H; now contradiction H].
  - split; [|split].
    + rewrite andb_true_r.
      destruct (provider (OpenAIService.config self)); cbn; split; try discriminate;
        auto; intros [H _]; discriminate H.
    + split; [discriminate | intro H; now contradiction Hv].
    + split; auto.
Qed.

(** X13: every entry of a returned payload names one of the four
    capabilities, whose configured model is non-empty and is the one of the
    configuration; it is marked as supported on Azure exactly when the
    provider is [azure] and the capability is not [video], and carries the
    note about video exactly when it is the [video] entry.  The [_provider]
    entry is present exactly when it was asked for. *)
Theorem listed_models_describe_config
    (self : OpenAIService.t) (capability : option string) (include_provider_metadata : bool)
    (payload : ServiceModels.models_payload) :
  ServiceModels.list_supported_models self capability include_provider_metadata = Ok payload ->
  Forall (entry_describes self) (ServiceModels.capabilities payload)
  /\ (ServiceModels._provider payload <> None <-> include_provider_metadata = true)
  /\ (forall meta, ServiceModels._provider payload = Some meta ->
        ServiceModels.meta_provider meta = provider (OpenAIService.config self)
        /\ ServiceModels.meta_base_url meta = base_url (OpenAIService.config self)
        /\ ServiceModels.meta_azure_endpoint meta = azure_endpoint (OpenAIService.config self)).
Proof.
  unfold ServiceModels.list_supported_models.
  set (normalized := match capability with
                     | Some c => if Py.truthy c then Some (Py.lower c) else None
                     | None => None
                     end).
  destruct (Py.truthy_opt normalized
            && negb (Py.mem (Py.or_else normalized "")
                       (map fst ServiceModels._CAPABILITY_TO_FIELD))); [discriminate|].
  intro H. injection H as <-.
  split.
  { change (Forall (entry_describes self)
              (flat_map (ServiceModels.capability_entry self normalized)
                 ServiceModels._CAPABILITY_TO_FIELD)).
    apply Forall_flat_map. intros item Hin. now apply capability_entry_describes. }
  destruct include_provider_metadata; split.
  - split; [reflexivity | discriminate].
  - intros meta H. injection H as <-. repeat split.
  - split; [intro H; now contradiction H | discriminate].
  - discriminate.
Qed.

Lemma listed_models_describe_config_witness :
  exists payload,
    ServiceModels.list_supported_models (with_storage azure) None true = Ok payload
    /\ Forall (entry_describes (with_storage azure)) (ServiceModels.capabilities payload).
Proof.
  eexists. split; [reflexivity|].
  apply (proj1 (listed_models_describe_config (with_storage azure) None true _ eq_refl)).
Defined.

Lemma list_models_case_insensitive
    (self : OpenAIService.t) (c : string) (include_provider_metadata : bool) :
  ServiceModels.list_supported_models self (Some c) include_provider_metadata
  = ServiceModels.list_supported_models self (Some (Py.lower c)) include_provider_metadata.
Proof.
  unfold ServiceModels.list_supported_models.
  rewrite lower_idempotent. destruct c; reflexivity.
Qed.

Lemma list_models_filtered
    (self : OpenAIService.t) (n : string) (include_provider_metadata : bool) :
  Py.mem n capability_names = true ->
  exists payload field,
    ServiceModels.list_supported_models self (Some n) include_provider_metadata = Ok payload
    /\ In (n, field) ServiceModels._CAPABILITY_TO_FIELD
    /\ (field (OpenAIService.config self) = "" -> ServiceModels.capabilities payload = [])
    /\ (field (OpenAIService.config self) <> "" ->
          exists entry, ServiceModels.capabilities payload = [(n, entry)]).
Proof.
  intro H. unfold capability_names in H.
  apply mem_cons_true in H as [-> | H]; [|apply mem_cons_true in H as [-> | H];
    [|apply mem_cons_true in H as [-> | H]; [|apply mem_cons_true in H as [-> | H];
    [|discriminate H]]]].
  all: eexists; eexists; split; [reflexivity|]; split;
    [cbn; first [left; reflexivity | right; left; reflexivity
                | right; right; left; reflexivity | right; right; right; left; reflexivity]|].
  all: cbn [ServiceModels.capabilities ServiceModels._CAPABILITY_TO_FIELD flat_map
            ServiceModels.capability_entry Py.truthy_opt Py.truthy Py.or_else Py.lower
            String.eqb Ascii.eqb Bool.eqb andb negb app Py.lower_char].
  all: unfold ServiceModels.capability_entry; cbn.
  all: split; [intros ->; reflexivity|].
  all: intro Hne; apply truthy_true_iff in Hne; rewrite Hne; eexists; reflexivity.
Qed.

(** X14: the capability filter is case-insensitive and exclusive.  A name
    whose lowercase form is not one of the four capabilities raises a
    [ValueError]; otherwise the payload holds the entry of that capability
    alone, or no entry when its model is not configured.  A missing or empty
    filter never raises. *)
Theorem list_models_filter
    (self : OpenAIService.t) (include_provider_metadata : bool) :
  (forall c,
     c <> "" -> Py.mem (Py.lower c) capability_names = false ->
     ServiceModels.list_supported_models self (Some c) include_provider_metadata
     = Raise (ValueError "capability must be one of chat, image, audio, video"))
  /\ (forall c,
        Py.mem (Py.lower c) capability_names = true ->
        exists payload field,
          ServiceModels.list_supported_models self (Some c) include_provider_metadata
          = Ok payload
          /\ In (Py.lower c, field) ServiceModels._CAPABILITY_TO_FIELD
          /\ (field (OpenAIService.config self) = "" ->
                ServiceModels.capabilities payload = [])
          /\ (field (OpenAIService.config self) <> "" ->
                exists entry, ServiceModels.capabilities payload = [(Py.lower c, entry)]))
  /\ (forall capability,
        capability = None \/ capability = Some "" ->
        exists payload,
          ServiceModels.list_supported_models self capability include_provider_metadata
          = Ok payload).
Proof.
  split; [|split].
  - intros c Hne Hmem. unfold ServiceModels.list_supported_models.
    rewrite (proj2 (truthy_true_iff c) Hne).
    cbn [Py.truthy_opt Py.or_else].
    assert (Ht : Py.truthy (Py.lower c) = true)
      by (apply truthy_true_iff; now apply lower_nonempty).
    rewrite Ht. change (map fst ServiceModels._CAPABILITY_TO_FIELD) with capability_names.
    now rewrite Hmem.
  - intros c Hmem. rewrite list_models_case_insensitive.
    now apply list_models_filtered.
  - intros capability [-> | ->]; eexists; reflexivity.
Qed.

Lemma list_models_filter_witness :
  ServiceModels.list_supported_models (with_storage openai) (Some "Embeddings") true
  = Raise (ValueError "capability must be one of chat, image, audio, video")
  /\ exists payload entry,
       ServiceModels.list_supported_models (with_storage openai) (Some "VIDEO") false
       = Ok payload
       /\ ServiceModels.capabilities payload = [("video", entry)].
Proof.
  split.
  - apply (proj1 (list_models_filter (with_storage openai) true) "Embeddings");
      [discriminate | reflexivity].
  - destruct (proj1 (proj2 (list_models_filter (with_storage openai) false)) "VIDEO" eq_refl)
      as (payload & field & Hok & Hin & _ & Hsome).
    destruct Hin as [H | [H | [H | [H | []]]]]; try discriminate H.
    injection H as <-.
    destruct (Hsome ltac:(discriminate)) as [entry Hentry].
    exists payload, entry. split; [exact Hok | exact Hentry].
Defined.

(** X15: the [list_supported_models] tool never raises for a member of
    [ModelCapability]: it returns a payload that lists at most that
    capability and leaves the history as it was.  A plain string is
    lowercased before it reaches the service, which changes nothing. *)
Theorem tool_list_models
    (service : OpenAIService.t) (include_provider_metadata : bool) (w : world) :
  (forall m,
     exists payload,
       AppTools.list_supported_models service (AppTools.Member m) include_provider_metadata w
       = (Ok payload, w)
       /\ forall key entry,
            In (key, entry) (ServiceModels.capabilities payload) -> key = AppTools.value m)
  /\ (forall s,
        AppTools.list_supported_models service (AppTools.Plain s) include_provider_metadata w
        = (ServiceModels.list_supported_models service (Some s) include_provider_metadata, w))
  /\ AppTools.list_supported_models service AppTools.Absent include_provider_metadata w
     = (ServiceModels.list_supported_models service None include_provider_metadata, w).
Proof.
  split; [|split].
  - intro m.
    destruct (list_models_filtered service (AppTools.value m) include_provider_metadata)
      as (payload & field & Hok & _ & Hnone & Hsome); [destruct m; reflexivity|].
    exists payload. unfold AppTools.list_supported_models, lift. rewrite Hok.
    split; [reflexivity|].
    intros key entry Hin.
    destruct (String.eqb_spec (field (OpenAIService.config service)) "") as [He | He].
    + rewrite (Hnone He) in Hin. contradiction.
    + destruct (Hsome He) as [entry' H]. rewrite H in Hin.
      destruct Hin as [Hin | []]. now injection Hin as <- _.
  - intro s. unfold AppTools.list_supported_models, lift.
    now rewrite <- list_models_case_insensitive.
  - reflexivity.
Qed.

(** ** Settings read from the environment *)

Lemma split_on_nonempty (c : ascii) (s : string) : PyText.split_on c s <> [].
Proof.
  destruct s as [|a r]; simpl; [discriminate|].
  destruct (Ascii.eqb a c); [discriminate|].
  destruct (PyText.split_on c r); discriminate.
Qed.

Lemma split_on_pieces_free (c d : ascii) (s : string) :
  (d = c \/ Py.contains_char d s = false) ->
  Forall (fun piece => Py.contains_char d piece = false) (PyText.split_on c s).
Proof.
  induction s as [|a r IH]; intro H; simpl.
  - repeat constructor.
  - assert (Hr : d = c \/ Py.contains_char d r = false).
    { destruct H as [H | H]; [now left | right].
      simpl in H. now apply orb_false_elim in H. }
    specialize (IH Hr).
    destruct (Ascii.eqb_spec a c) as [-> | Hac].
    + constructor; [reflexivity | exact IH].
    + destruct (PyText.split_on c r) as [|piece pieces]; [repeat constructor|].
      * simpl. rewrite orb_false_r.
        destruct H as [-> | H]; [now apply Ascii.eqb_neq|].
        simpl in H. now apply orb_false_elim in H.
      * inversion IH as [|? ? Hp Hps]; subst. constructor; [|exact Hps].
        simpl. rewrite Hp, orb_false_r.
        destruct H as [-> | H]; [now apply Ascii.eqb_neq|].
        simpl in H. now apply orb_false_elim in H.
Qed.

Lemma split_on_free (c : ascii) (p : string) :
  Py.contains_char c p = false -> PyText.split_on c p = [p].
Proof.
  induction p as [|a p IH]; intro H; simpl; [reflexivity|].
  simpl in H. apply orb_false_elim in H as [Ha Hp].
  now rewrite Ha, (IH Hp).
Qed.

Lemma split_on_app (c : ascii) (p r : string) :
  Py.contains_char c p = false ->
  PyText.split_on c (p ++ String c r) = p :: PyText.split_on c r.
Proof.
  induction p as [|a p IH]; intro H; simpl.
  - now rewrite Ascii.eqb_refl.
  - simpl in H. apply orb_false_elim in H as [Ha Hp].
    now rewrite Ha, (IH Hp).
Qed.

Lemma split_on_join (c : ascii) (parts : list string) :
  parts <> [] ->
  Forall (fun piece => Py.contains_char c piece = false) parts ->
  PyText.split_on c (Py.join (String c "") parts) = parts.
Proof.
  induction parts as [|p parts IH]; intros Hne Hall; [now contradiction Hne|].
  inversion Hall as [|? ? Hp Hps]; subst.
  destruct parts as [|q parts].
  - simpl. now apply split_on_free.
  - change (Py.join (String c "") (p :: q :: parts))
      with (p ++ String c (Py.join (String c "") (q :: parts))).
    rewrite (split_on_app c p _ Hp). f_equal. apply IH; [discriminate | exact Hps].
Qed.

Lemma Forall_filter_keep {A : Type} (P : A -> Prop) (f : A -> bool) (l : list A) :
  Forall P l -> Forall P (filter f l).
Proof.
  induction 1 as [|a l Ha Hl IH]; simpl; [constructor|].
  destruct (f a); [now constructor | exact IH].
Qed.

Lemma Forall_filter_true {A : Type} (f : A -> bool) (l : list A) :
  Forall (fun a => f a = true) (filter f l).
Proof.
  induction l as [|a l IH]; simpl; [constructor|].
  destruct (f a) eqn:E; [now constructor | exact IH].
Qed.

Lemma normalize_path_segment_parts (raw : option string) (s : string) :
  Config._normalize_path_segment raw = Some s ->
  exists parts,
    parts <> []
    /\ Forall (fun piece => Py.truthy piece = true) parts
    /\ Forall (fun piece => Py.contains_char "/" piece = false) parts
    /\ s = Py.join "/" parts
    /\ PyText.split_on "/" s = parts.
Proof.
  unfold Config._normalize_path_segment.
  destruct raw as [r|]; [|discriminate].
  destruct (Py.truthy r); cbn [negb]; [|discriminate].
  set (trimmed := Py.strip "/" (PyText.strip_ws r)).
  destruct (Py.truthy trimmed); cbn [negb]; [|discriminate].
  set (parts := filter Py.truthy (PyText.split_on "/" trimmed)).
  assert (Hfree : Forall (fun piece => Py.contains_char "/" piece = false) parts).
  { apply Forall_filter_keep. apply split_on_pieces_free. now left. }
  assert (Htruthy : Forall (fun piece => Py.truthy piece = true) parts)
    by apply Forall_filter_true.
  clearbody parts.
  destruct parts as [|p rest]; [discriminate|].
  intro H. injection H as <-.
  exists (p :: rest). repeat split; try assumption; try discriminate.
  exact (split_on_join "/"%char (p :: rest) ltac:(discriminate) Hfree).
Qed.

Lemma forallb_Forall_truthy (l : list string) :
  Forall (fun piece => Py.truthy piece = true) l -> forallb Py.truthy l = true.
Proof. induction 1 as [|a l Ha Hl IH]; simpl; [reflexivity | now rewrite Ha]. Qed.

(** X16: when [_normalize_path_segment] returns a path, the path is the
    [/]-join of one or more non-empty, slash-free segments, and splitting it
    on [/] gives those segments back: it is not empty, it neither starts nor
    ends with a slash and it holds no doubled slash. *)
Theorem normalize_path_segment_clean (raw : option string) (s : string) :
  Config._normalize_path_segment raw = Some s ->
  clean_path s = true
  /\ s <> ""
  /\ (forall r, s <> String "/"%char r)
  /\ exists parts,
       parts <> []
       /\ Forall (fun piece => piece <> "" /\ Py.contains_char "/" piece = false) parts
       /\ s = Py.join "/" parts
       /\ PyText.split_on "/" s = parts.
Proof.
  intro H. apply normalize_path_segment_parts in H
    as (parts & Hne & Htruthy & Hfree & Hs & Hsplit).
  split; [unfold clean_path; rewrite Hsplit; now apply forallb_Forall_truthy|].
  assert (Hhead : s <> "" /\ forall r, s <> String "/"%char r).
  { destruct parts as [|p parts]; [now contradiction Hne|].
    inversion Htruthy as [|? ? Hp _]; subst. inversion Hfree as [|? ? Hf _]; subst.
    destruct p as [|a p]; [discriminate Hp|].
    simpl in Hf. apply orb_false_elim in Hf as [Ha _]. apply Ascii.eqb_neq in Ha.
    destruct parts; simpl; split; try discriminate;
      intros r E; injection E as E _; now contradiction Ha. }
  split; [apply Hhead|]. split; [apply Hhead|].
  exists parts. repeat split; try assumption.
  rewrite Forall_forall in *. intros piece Hin.
  split; [apply truthy_true_iff; now apply Htruthy | now apply Hfree].
Qed.

Lemma normalize_path_segment_clean_witness :
  clean_path "media/2026/raw" = true.
Proof.
  apply (proj1 (normalize_path_segment_clean (Some "  //media//2026/raw/ ")
                  "media/2026/raw" eq_refl)).
Defined.

Lemma lstrip_by_free (p : ascii -> bool) (d : ascii) (s : string) :
  Py.contains_char d s = false -> Py.contains_char d (PyText.lstrip_by p s) = false.
Proof.
  induction s as [|a r IH]; intro H; simpl; [reflexivity|].
  destruct (p a); [|exact H].
  simpl in H. apply orb_false_elim in H as [_ H]. now apply IH.
Qed.

Lemma rstrip_by_free (p : ascii -> bool) (d : ascii) (s : string) :
  Py.contains_char d s = false -> Py.contains_char d (PyText.rstrip_by p s) = false.
Proof.
  induction s as [|a r IH]; intro H; simpl; [reflexivity|].
  simpl in H. apply orb_false_elim in H as [Ha Hr]. specialize (IH Hr).
  destruct (PyText.rstrip_by p r) as [|b r'].
  - destruct (p a); simpl; [reflexivity | now rewrite Ha].
  - change (Py.contains_char d (String a (String b r')))
      with (Ascii.eqb a d || Py.contains_char d (String b r')).
    now rewrite Ha, IH.
Qed.

Lemma strip_ws_free (d : ascii) (s : string) :
  Py.contains_char d s = false -> Py.contains_char d (PyText.strip_ws s) = false.
Proof. intro H. unfold PyText.strip_ws. now apply rstrip_by_free, lstrip_by_free. Qed.

Lemma replace_char_removes (c d : ascii) (s : string) :
  c <> d -> Py.contains_char c (PyText.replace_char c d s) = false.
Proof.
  intro Hcd. induction s as [|a r IH]; simpl; [reflexivity|].
  rewrite IH, orb_false_r.
  destruct (Ascii.eqb_spec a c) as [-> | Hac].
  - apply Ascii.eqb_neq. intro E. now apply Hcd.
  - now apply Ascii.eqb_neq.
Qed.

Lemma replace_char_same (c : ascii) (s : string) : PyText.replace_char c c s = s.
Proof.
  induction s as [|a r IH]; simpl; [reflexivity|].
  rewrite IH. destruct (Ascii.eqb_spec a c) as [-> | _]; reflexivity.
Qed.

Lemma as_scopes_replaced (r : string) :
  fold_left (fun acc sep => PyText.replace_char sep " " acc) [","%char; " "%char] r
  = PyText.replace_char "," " " r.
Proof. simpl. apply replace_char_same. Qed.

(** X17: every scope [_as_scopes] returns is non-empty and holds neither a
    space nor a comma; a missing or empty setting gives no scope. *)
Theorem as_scopes_shape (raw : option string) :
  Forall (fun scope =>
            scope <> ""
            /\ Py.contains_char " " scope = false
            /\ Py.contains_char "," scope = false)
    (Config._as_scopes raw)
  /\ (raw = None \/ raw = Some "" -> Config._as_scopes raw = []).
Proof.
  split; [|intros [-> | ->]; reflexivity].
  unfold Config._as_scopes.
  destruct raw as [r|]; [|constructor].
  destruct (Py.truthy r); cbn [negb]; [|constructor].
  rewrite as_scopes_replaced.
  apply Forall_flat_map. intros piece Hin.
  destruct (Py.truthy (PyText.strip_ws piece)) eqn:Ht; [|constructor].
  constructor; [|constructor].
  split; [now apply truthy_true_iff|].
  split; apply strip_ws_free.
  - pose proof (split_on_pieces_free " " " " (PyText.replace_char "," " " r)
                  (or_introl eq_refl)) as Hall.
    rewrite Forall_forall in Hall. now apply Hall.
  - pose proof (split_on_pieces_free " " "," (PyText.replace_char "," " " r)
                  (or_intror (replace_char_removes "," " " r ltac:(discriminate)))) as Hall.
    rewrite Forall_forall in Hall. now apply Hall.
Qed.

Example as_scopes_sample :
  Config._as_scopes (Some " read,write  admin, ") = ["read"; "write"; "admin"].
Proof. reflexivity. Qed.

Lemma replace_char_join (c d : ascii) (parts : list string) :
  Forall (fun piece => Py.contains_char c piece = false) parts ->
  PyText.replace_char c d (Py.join (String c "") parts) = Py.join (String d "") parts.
Proof.
  assert (Hfree : forall p, Py.contains_char c p = false -> PyText.replace_char c d p = p).
  { induction p as [|a p IH]; intro H; simpl; [reflexivity|].
    simpl in H. apply orb_false_elim in H as [Ha Hp]. now rewrite Ha, (IH Hp). }
  assert (Happ : forall p q, PyText.replace_char c d (p ++ q)
                             = PyText.replace_char c d p ++ PyText.replace_char c d q).
  { induction p as [|a p IH]; intro q; simpl; [reflexivity | now rewrite IH]. }
  induction 1 as [|p parts Hp Hps IH]; [reflexivity|].
  destruct parts as [|q parts]; [simpl; now apply Hfree|].
  change (Py.join (String c "") (p :: q :: parts))
    with (p ++ String c (Py.join (String c "") (q :: parts))).
  change (Py.join (String d "") (p :: q :: parts))
    with (p ++ String d (Py.join (String d "") (q :: parts))).
  rewrite Happ, (Hfree p Hp). cbn [PyText.replace_char]. rewrite Ascii.eqb_refl.
  now rewrite IH.
Qed.

Lemma all_chars_free (p : ascii -> bool) (d : ascii) (s : string) :
  p d = false -> all_chars p s = true -> Py.contains_char d s = false.
Proof.
  intro Hd. induction s as [|a r IH]; intro H; simpl; [reflexivity|].
  simpl in H. apply andb_prop in H as [Ha Hr]. rewrite (IH Hr), orb_false_r.
  apply Ascii.eqb_neq. intros ->. rewrite Hd in Ha. discriminate Ha.
Qed.

Lemma rstrip_by_none (p : ascii -> bool) (s : string) :
  all_chars (fun c => negb (p c)) s = true -> PyText.rstrip_by p s = s.
Proof.
  induction s as [|a r IH]; intro H; simpl; [reflexivity|].
  simpl in H. apply andb_prop in H as [Ha Hr]. rewrite (IH Hr).
  apply negb_true_iff in Ha. destruct r; [now rewrite Ha | reflexivity].
Qed.

Lemma lstrip_by_none (p : ascii -> bool) (s : string) :
  all_chars (fun c => negb (p c)) s = true -> PyText.lstrip_by p s = s.
Proof.
  destruct s as [|a r]; intro H; simpl; [reflexivity|].
  simpl in H. apply andb_prop in H as [Ha _]. apply negb_true_iff in Ha. now rewrite Ha.
Qed.

Lemma plain_scope_keeps (scope : string) :
  plain_scope scope ->
  PyText.strip_ws scope = scope /\ Py.truthy scope = true
  /\ Py.contains_char " " scope = false.
Proof.
  intros (Hne & _ & Hws). split; [|split].
  - unfold PyText.strip_ws. now rewrite (lstrip_by_none _ _ Hws), (rstrip_by_none _ _ Hws).
  - now apply truthy_true_iff.
  - apply (all_chars_free (fun c => negb (PyText.is_space c))); [reflexivity | exact Hws].
Qed.

(** X18: scopes written without whitespace or commas come back as they were
    written, in order, whether the setting lists them with commas or with
    spaces. *)
Theorem as_scopes_round_trip (scopes : list string) :
  Forall plain_scope scopes ->
  Config._as_scopes (Some (Py.join "," scopes)) = scopes
  /\ Config._as_scopes (Some (Py.join " " scopes)) = scopes.
Proof.
  intro Hall.
  assert (Hkeep : flat_map
                    (fun scope =>
                       if Py.truthy (PyText.strip_ws scope) then [PyText.strip_ws scope]
                       else []) scopes = scopes).
  { induction Hall as [|s l Hs Hl IH]; [reflexivity|].
    destruct (plain_scope_keeps s Hs) as (Hstrip & Ht & _).
    cbn [flat_map]. now rewrite Hstrip, Ht, IH. }
  assert (Hspace : Forall (fun piece => Py.contains_char " " piece = false) scopes).
  { rewrite Forall_forall in *. intros s Hin. now apply plain_scope_keeps, Hall. }
  assert (Hcomma : Forall (fun piece => Py.contains_char "," piece = false) scopes).
  { rewrite Forall_forall in *. intros s Hin. now apply (Hall s Hin). }
  destruct scopes as [|s0 rest]; [split; reflexivity|].
  assert (Hsplit : PyText.split_on " " (Py.join " " (s0 :: rest)) = s0 :: rest)
    by (apply (split_on_join " "%char); [discriminate | exact Hspace]).
  assert (Hnonempty : forall sep, Py.truthy (Py.join sep (s0 :: rest)) = true).
  { intro sep. inversion Hall as [|? ? (Hne & _) _]; subst.
    destruct rest; cbn [Py.join];
      [now apply truthy_true_iff | apply truthy_append_l; now apply truthy_true_iff]. }
  split; unfold Config._as_scopes; rewrite Hnonempty; cbn [negb];
    rewrite as_scopes_replaced.
  - rewrite (replace_char_join ","%char " "%char (s0 :: rest) Hcomma).
    now rewrite Hsplit.
  - assert (Hid : PyText.replace_char "," " " (Py.join " " (s0 :: rest))
                  = Py.join " " (s0 :: rest)).
    { assert (Hfree : forall p, Py.contains_char "," p = false ->
                                PyText.replace_char "," " " p = p).
      { induction p as [|a p IH]; intro H; simpl; [reflexivity|].
        simpl in H. apply orb_false_elim in H as [Ha Hp]. now rewrite Ha, (IH Hp). }
      apply Hfree.
      clear -Hcomma. induction Hcomma as [|p l Hp Hl IH]; [reflexivity|].
      destruct l as [|q l]; [exact Hp|].
      change (Py.join " " (p :: q :: l)) with (p ++ String " " (Py.join " " (q :: l))).
      assert (Happ : forall a b, Py.contains_char "," (a ++ b)
                                 = Py.contains_char "," a || Py.contains_char "," b).
      { induction a as [|x a IHa]; intro b; simpl; [reflexivity|].
        now rewrite IHa, orb_assoc. }
      rewrite Happ, Hp. simpl. exact IH. }
    now rewrite Hid, Hsplit.
Qed.

Lemma as_scopes_round_trip_witness :
  Config._as_scopes (Some "mcp:read,mcp:write") = ["mcp:read"; "mcp:write"].
Proof.
  apply (proj1 (as_scopes_round_trip ["mcp:read"; "mcp:write"]
                  ltac:(repeat constructor; discriminate))).
Defined.

Lemma rstrip_idempotent (c : ascii) (s : string) :
  Py.rstrip c (Py.rstrip c s) = Py.rstrip c s.
Proof.
  induction s as [|a r IH]; simpl; [reflexivity|].
  destruct (Py.rstrip c r) as [|b r'] eqn:E.
  - destruct (Ascii.eqb a c) eqn:Ha; simpl; [reflexivity | now rewrite Ha].
  - change (Py.rstrip c (String a (String b r')))
      with (match Py.rstrip c (String b r') with
            | EmptyString => if Ascii.eqb a c then EmptyString else String a EmptyString
            | r'' => String a r''
            end).
    now rewrite IH.
Qed.

Lemma normalized_or_clean (raw : option string) (default : string) :
  clean_path default = true -> clean_path (Config.normalized_or raw default) = true.
Proof.
  intro Hd. unfold Config.normalized_or, Py.or_else.
  destruct (Config._normalize_path_segment raw) as [s|] eqn:E; [|exact Hd].
  apply normalize_path_segment_parts in E as (parts & Hne & Htruthy & Hfree & Hs & Hsplit).
  assert (Hclean : clean_path s = true)
    by (unfold clean_path; rewrite Hsplit; now apply forallb_Forall_truthy).
  destruct (Py.truthy s); [exact Hclean | exact Hd].
Qed.

Lemma load_blob_storage_config_none (getenv : string -> option string) :
  Config._load_blob_storage_config getenv = None <-> storage_settings_present getenv = false.
Proof.
  unfold Config._load_blob_storage_config. fold (storage_settings_present getenv).
  destruct (storage_settings_present getenv); cbn [negb]; split; discriminate || reflexivity.
Qed.

Lemma load_blob_storage_config_some
    (getenv : string -> option string) (cfg : AzureBlobStorageConfig) :
  Config._load_blob_storage_config getenv = Some cfg ->
  storage_settings_present getenv = true
  /\ cfg = {| connection_string := Py.or_else (getenv "AZURE_STORAGE_CONNECTION_STRING") "";
              container := Py.or_else (getenv "AZURE_BLOB_CONTAINER") "";
              public_base_url :=
                Py.rstrip "/" (Py.or_else (getenv "AZURE_BLOB_PUBLIC_BASE_URL") "");
              path_prefix := Config._normalize_path_segment (getenv "AZURE_BLOB_PATH_PREFIX");
              image_root := Config.normalized_or (getenv "AZURE_BLOB_IMAGE_ROOT") "images";
              audio_root := Config.normalized_or (getenv "AZURE_BLOB_AUDIO_ROOT") "audio";
              video_root := Config.normalized_or (getenv "AZURE_BLOB_VIDEO_ROOT") "videos" |}.
Proof.
  unfold Config._load_blob_storage_config. fold (storage_settings_present getenv).
  destruct (storage_settings_present getenv); cbn [negb]; [|discriminate].
  intro H. injection H as <-. now split.
Qed.

Lemma load_blob_storage_config_paths
    (getenv : string -> option string) (cfg : AzureBlobStorageConfig) :
  Config._load_blob_storage_config getenv = Some cfg ->
  clean_path (image_root cfg) = true
  /\ clean_path (audio_root cfg) = true
  /\ clean_path (video_root cfg) = true
  /\ (forall p, path_prefix cfg = Some p -> clean_path p = true).
Proof.
  intro H. apply load_blob_storage_config_some in H as [_ ->].
  cbn [image_root audio_root video_root path_prefix].
  split; [now apply normalized_or_clean|].
  split; [now apply normalized_or_clean|].
  split; [now apply normalized_or_clean|].
  intros p Hp. apply normalize_path_segment_parts in Hp
    as (parts & _ & Htruthy & _ & _ & Hsplit).
  unfold clean_path. rewrite Hsplit. now apply forallb_Forall_truthy.
Qed.

(** X19: [_load_blob_storage_config] gives no configuration exactly when one
    of the connection string, the container and the public base URL is
    unset or empty.  A configuration it does give has clean image, audio and
    video roots (each the default when the setting is missing or holds
    nothing but slashes and blanks), a clean prefix or none, and a public
    base URL from which the trailing slashes are gone. *)
Theorem load_blob_storage_config_shape (getenv : string -> option string) :
  (Config._load_blob_storage_config getenv = None <-> storage_settings_present getenv = false)
  /\ forall cfg,
       Config._load_blob_storage_config getenv = Some cfg ->
       clean_path (image_root cfg) = true
       /\ clean_path (audio_root cfg) = true
       /\ clean_path (video_root cfg) = true
       /\ (forall p, path_prefix cfg = Some p -> clean_path p = true)
       /\ Py.rstrip "/" (public_base_url cfg) = public_base_url cfg
       /\ connection_string cfg <> "" /\ container cfg <> ""
       /\ (Config._normalize_path_segment (getenv "AZURE_BLOB_IMAGE_ROOT") = None ->
             image_root cfg = "images")
       /\ (Config._normalize_path_segment (getenv "AZURE_BLOB_AUDIO_ROOT") = None ->
             audio_root cfg = "audio")
       /\ (Config._normalize_path_segment (getenv "AZURE_BLOB_VIDEO_ROOT") = None ->
             video_root cfg = "videos").
Proof.
  split; [apply load_blob_storage_config_none|].
  intros cfg Hcfg.
  destruct (load_blob_storage_config_paths getenv cfg Hcfg) as (Himg & Haud & Hvid & Hprefix).
  apply load_blob_storage_config_some in Hcfg as [Hpresent ->].
  cbn [image_root audio_root video_root path_prefix public_base_url connection_string
       container] in *.
  unfold storage_settings_present in Hpresent.
  apply andb_prop in Hpresent as [Hpresent _]. apply andb_prop in Hpresent as [Hcs Hct].
  split; [exact Himg|]. split; [exact Haud|]. split; [exact Hvid|].
  split; [exact Hprefix|].
  split; [apply rstrip_idempotent|].
  split.
  { destruct (getenv "AZURE_STORAGE_CONNECTION_STRING") as [[|c s]|];
      try discriminate Hcs. discriminate. }
  split.
  { destruct (getenv "AZURE_BLOB_CONTAINER") as [[|c s]|]; try discriminate Hct.
    discriminate. }
  repeat split; intro H; unfold Config.normalized_or; now rewrite H.
Qed.

Lemma load_blob_storage_config_shape_witness :
  exists cfg,
    Config._load_blob_storage_config sample_environ = Some cfg
    /\ image_root cfg = "images"
    /\ path_prefix cfg = Some "prod/eu"
    /\ public_base_url cfg = "https://cdn.example.net/media".
Proof.
  eexists. split; [reflexivity|].
  split; [|split; reflexivity].
  apply (proj1 (proj2 (proj2 (proj2 (proj2 (proj2 (proj2 (proj2
           (proj2 (load_blob_storage_config_shape sample_environ) _ eq_refl))))))))).
  reflexivity.
Defined.

Lemma split_on_app_sep (c : ascii) (a b : string) :
  PyText.split_on c (a ++ String c b) = (PyText.split_on c a ++ PyText.split_on c b)%list.
Proof.
  induction a as [|x a IH]; simpl.
  - now rewrite Ascii.eqb_refl.
  - destruct (Ascii.eqb x c); [now rewrite IH|].
    rewrite IH.
    destruct (PyText.split_on c a) as [|piece pieces] eqn:E; [|reflexivity].
    now contradiction (split_on_nonempty c a).
Qed.

Lemma clean_path_app (a b : string) :
  clean_path (a ++ "/" ++ b) = clean_path a && clean_path b.
Proof.
  unfold clean_path. cbn [append]. now rewrite split_on_app_sep, forallb_app.
Qed.

Lemma segment_slash_clean (a b : string) :
  clean_path a = true -> clean_path b = true -> clean_path (segment_slash a ++ b) = true.
Proof.
  intros Ha Hb. unfold segment_slash.
  destruct (Py.truthy a); [|exact Hb].
  rewrite append_assoc, clean_path_app. now rewrite Ha, Hb.
Qed.

(** X20: under a configuration loaded from the environment, the name built
    for an image, audio or video artifact with a slash-free extension is a
    clean path: prefix, root and file name are joined by single slashes,
    with no empty segment and no leading slash. *)
Theorem loaded_config_blob_names_clean
    (getenv : string -> option string) (cfg : AzureBlobStorageConfig)
    (now : datetime) (drawn : N) (category extension : string) :
  Config._load_blob_storage_config getenv = Some cfg ->
  Py.mem category known_categories = true ->
  Py.contains_char "/" extension = false ->
  clean_path (AzureBlobUploader.blob_name_at cfg now drawn category extension) = true.
Proof.
  intros Hcfg Hcat Hext.
  destruct (load_blob_storage_config_paths getenv cfg Hcfg)
    as (Himg & Haud & Hvid & Hprefix).
  rewrite blob_name_at_closed_form.
  assert (Hroot : clean_path (AzureBlobUploader._root_for_category cfg category) = true).
  { unfold known_categories in Hcat.
    repeat (apply mem_cons_true in Hcat as [-> | Hcat]; [assumption|]).
    discriminate Hcat. }
  assert (Hfile : clean_path (strftime now ++ "-" ++ uuid_hex drawn ++ "." ++ extension)
                  = true).
  { unfold clean_path. rewrite split_on_free.
    - cbn [forallb]. rewrite andb_true_r. apply truthy_append_l, strftime_truthy.
    - assert (Happ : forall a b, Py.contains_char "/" (a ++ b)
                                 = Py.contains_char "/" a || Py.contains_char "/" b).
      { induction a as [|x a IHa]; intro b; simpl; [reflexivity|].
        now rewrite IHa, orb_assoc. }
      rewrite !Happ, Hext.
      rewrite (all_chars_free is_lower_hex "/" (uuid_hex drawn) eq_refl
                 (proj2 (uuid_hex_shape drawn))).
      destruct (strftime_shape now) as (d & h & -> & _ & Hd & _ & Hh).
      rewrite !Happ.
      rewrite (all_chars_free is_digit "/" d eq_refl Hd),
        (all_chars_free is_digit "/" h eq_refl Hh).
      reflexivity. }
  destruct (path_prefix cfg) as [p|] eqn:Hp.
  - cbn [Py.or_else]. destruct (Py.truthy p) eqn:Htp.
    + apply segment_slash_clean; [now apply Hprefix|]. now apply segment_slash_clean.
    + cbn. now apply segment_slash_clean.
  - cbn. now apply segment_slash_clean.
Qed.

Lemma loaded_config_blob_names_clean_witness :
  clean_path (AzureBlobUploader.blob_name_at sample_loaded_storage
                {| year := 2026; month := 11; day := 4; hour := 8; minute := 48; second := 5 |}
                7 "images" "png") = true.
Proof.
  apply (loaded_config_blob_names_clean sample_environ sample_loaded_storage
           {| year := 2026; month := 11; day := 4; hour := 8; minute := 48; second := 5 |}
           7 "images" "png"); reflexivity.
Defined.

Lemma value_with_fallback_nonempty
    (getenv : string -> option string) (primary_var : string) (fallback : option string)
    (default : string) :
  default <> "" -> Config._value_with_fallback getenv primary_var fallback default <> "".
Proof.
  intro Hd. unfold Config._value_with_fallback.
  destruct (Py.truthy_opt (getenv primary_var)
            && Py.truthy (PyText.strip_ws (Py.or_else (getenv primary_var) ""))) eqn:E1.
  - apply andb_prop in E1 as [_ E1]. now apply truthy_true_iff.
  - destruct (Py.truthy_opt fallback
              && Py.truthy (PyText.strip_ws (Py.or_else fallback ""))) eqn:E2.
    + apply andb_prop in E2 as [_ E2]. now apply truthy_true_iff.
    + exact Hd.
Qed.

Lemma require_present (getenv : string -> option string) (name : string) :
  Py.truthy_opt (getenv name) = true ->
  exists v, getenv name = Some v /\ v <> "" /\ Config._require getenv name = Ok v.
Proof.
  unfold Config._require. destruct (getenv name) as [[|c v]|]; try discriminate.
  intros _. eexists. repeat split. discriminate.
Qed.

Lemma require_missing (getenv : string -> option string) (name : string) :
  Py.truthy_opt (getenv name) = false ->
  Config._require getenv name
  = Raise (RuntimeError ("Missing required environment variable: " ++ name)).
Proof.
  unfold Config._require. destruct (getenv name) as [[|c v]|]; try discriminate; reflexivity.
Qed.

Lemma load_openai_config_azure (getenv : string -> option string) (cfg : OpenAIConfig) :
  Config._load_openai_config getenv = Ok cfg ->
  Py.truthy_opt (getenv "AZURE_OPENAI_ENDPOINT") = true ->
  provider cfg = azure
  /\ chat_model cfg <> "" /\ image_model cfg <> ""
  /\ audio_model cfg <> "" /\ video_model cfg <> "".
Proof.
  unfold Config._load_openai_config. intros H Hazure. rewrite Hazure in H.
  destruct (Config._require getenv "AZURE_OPENAI_API_KEY") as [key | e]; [|discriminate H].
  destruct (Config._require getenv "AZURE_OPENAI_ENDPOINT") as [endpoint | e];
    [|discriminate H].
  injection H as <-. cbn [provider chat_model image_model audio_model video_model].
  repeat split; apply value_with_fallback_nonempty; discriminate.
Qed.

(** X21: [_load_openai_config] selects [azure] exactly when
    [AZURE_OPENAI_ENDPOINT] is set and non-empty, and fails with a
    [RuntimeError] naming the API key variable of the selected provider
    when that variable is unset or empty.  An Azure configuration keeps the
    endpoint, has no base URL and has four non-empty model names; an OpenAI
    one has no Azure field and takes its model names from the environment
    as they are. *)
Theorem load_openai_config_shape (getenv : string -> option string) :
  (Py.truthy_opt (getenv (api_key_variable getenv)) = false ->
     Config._load_openai_config getenv
     = Raise (RuntimeError ("Missing required environment variable: "
                            ++ api_key_variable getenv)))
  /\ (Py.truthy_opt (getenv (api_key_variable getenv)) = true ->
        exists cfg,
          Config._load_openai_config getenv = Ok cfg
          /\ getenv (api_key_variable getenv) = Some (api_key cfg)
          /\ api_key cfg <> ""
          /\ (Py.truthy_opt (getenv "AZURE_OPENAI_ENDPOINT") = true ->
                provider cfg = azure
                /\ azure_endpoint cfg = getenv "AZURE_OPENAI_ENDPOINT"
                /\ base_url cfg = None /\ organization cfg = None
                /\ chat_model cfg <> "" /\ image_model cfg <> ""
                /\ audio_model cfg <> "" /\ video_model cfg <> "")
          /\ (Py.truthy_opt (getenv "AZURE_OPENAI_ENDPOINT") = false ->
                provider cfg = openai
                /\ azure_endpoint cfg = None /\ azure_api_version cfg = None
                /\ azure_ad_token cfg = None
                /\ base_url cfg = getenv "OPENAI_BASE_URL"
                /\ chat_model cfg = Config.getenv_default getenv "OPENAI_CHAT_MODEL" "gpt-4.1-mini"
                /\ video_model cfg = Config.getenv_default getenv "OPENAI_VIDEO_MODEL" "sora-2")).
Proof.
  unfold api_key_variable, Config._load_openai_config.
  destruct (Py.truthy_opt (getenv "AZURE_OPENAI_ENDPOINT")) eqn:Hazure.
  - split.
    + intro Hkey. now rewrite (require_missing getenv _ Hkey).
    + intro Hkey.
      destruct (require_present getenv _ Hkey) as (key & Hget & Hne & ->).
      destruct (require_present getenv _ Hazure) as (endpoint & Hep & _ & ->).
      eexists. split; [reflexivity|].
      cbn [api_key provider azure_endpoint base_url organization chat_model image_model
           audio_model video_model azure_api_version azure_ad_token].
      split; [exact Hget|]. split; [exact Hne|].
      split; [|discriminate].
      intros _. split; [reflexivity|]. split; [now rewrite Hep|].
      split; [reflexivity|]. split; [reflexivity|].
      repeat split; apply value_with_fallback_nonempty; discriminate.
  - split.
    + intro Hkey. now rewrite (require_missing getenv _ Hkey).
    + intro Hkey.
      destruct (require_present getenv _ Hkey) as (key & Hget & Hne & ->).
      eexists. split; [reflexivity|].
      cbn [api_key provider azure_endpoint base_url organization chat_model image_model
           audio_model video_model azure_api_version azure_ad_token].
      split; [exact Hget|]. split; [exact Hne|].
      split; [discriminate|].
      intros _. repeat split.
Qed.

Lemma load_openai_config_shape_witness :
  Config._load_openai_config (environ [("AZURE_OPENAI_ENDPOINT", "https://x.openai.azure.com")])
  = Raise (RuntimeError "Missing required environment variable: AZURE_OPENAI_API_KEY")
  /\ exists cfg,
       Config._load_openai_config sample_environ = Ok cfg /\ chat_model cfg <> "".
Proof.
  split.
  - apply (proj1 (load_openai_config_shape
                    (environ [("AZURE_OPENAI_ENDPOINT", "https://x.openai.azure.com")]))).
    reflexivity.
  - destruct (proj2 (load_openai_config_shape sample_environ) eq_refl)
      as (cfg & Hok & _ & _ & Hazure & _).
    exists cfg. split; [exact Hok|]. apply (Hazure eq_refl).
Defined.

Example load_openai_config_sample :
  exists cfg,
    Config._load_openai_config sample_environ = Ok cfg
    /\ chat_model cfg = "shared-deployment" /\ video_model cfg = "shared-deployment"
    /\ azure_api_version cfg = Some "2024-10-21".
Proof. eexists. repeat split. Qed.

(** X22: a service built from an environment that sets
    [AZURE_OPENAI_ENDPOINT] refuses every video request without contacting
    the provider, and lists all four capabilities, each with a model, with
    chat, image and audio marked as supported on Azure and video not. *)
Theorem azure_environment_end_to_end
    (getenv : string -> option string) (cfg : OpenAIConfig)
    (storage : option AzureBlobStorageConfig) (env : Env) :
  Config._load_openai_config getenv = Ok cfg ->
  Py.truthy_opt (getenv "AZURE_OPENAI_ENDPOINT") = true ->
  (forall prompt model seconds size variant w,
     OpenAIService.generate_video env (OpenAIService.__init__ cfg storage)
       prompt model seconds size variant w
     = (Raise (RuntimeError "Azure OpenAI does not currently support video generation"), w))
  /\ exists chat image audio video,
       ServiceModels.list_supported_models (OpenAIService.__init__ cfg storage) None false
       = Ok {| ServiceModels.capabilities :=
                 [("chat", chat); ("image", image); ("audio", audio); ("video", video)];
               ServiceModels._provider := None |}
       /\ ServiceModels.azure_supported chat = true
       /\ ServiceModels.azure_supported image = true
       /\ ServiceModels.azure_supported audio = true
       /\ ServiceModels.azure_supported video = false
       /\ ServiceModels.notes video = Some ServiceModels.video_notes.
Proof.
  intros Hload Hazure.
  destruct (load_openai_config_azure getenv cfg Hload Hazure)
    as (Hprov & Hchat & Himage & Haudio & Hvideo).
  split.
  - intros. now apply generate_video_azure.
  - apply truthy_true_iff in Hchat, Himage, Haudio, Hvideo.
    unfold ServiceModels.list_supported_models, ServiceModels._CAPABILITY_TO_FIELD,
      ServiceModels.capability_entry.
    cbn [Py.truthy_opt andb flat_map app OpenAIService.config OpenAIService.__init__
         String.eqb Ascii.eqb Bool.eqb negb].
    rewrite Hchat, Himage, Haudio, Hvideo, Hprov.
    do 4 eexists. split; [reflexivity|]. repeat split.
Qed.

Lemma azure_environment_end_to_end_witness :
  exists cfg,
    Config._load_openai_config sample_environ = Ok cfg
    /\ OpenAIService.generate_video (sample_env [x68] None None)
         (OpenAIService.__init__ cfg None) "a cat" None 4 "1280x720" "video" []
       = (Raise (RuntimeError "Azure OpenAI does not currently support video generation"), []).
Proof.
  eexists. split; [reflexivity|].
  apply (proj1 (azure_environment_end_to_end sample_environ _ None
                  (sample_env [x68] None None) eq_refl eq_refl)).
Defined.

(** X23: a service built from an environment in which one of the three
    storage settings is unset or empty has no uploader: its audio and video
    calls always raise, and an image call returns only a result without
    images.  With all three set, the uploader exists. *)
Theorem environment_decides_uploader
    (getenv : string -> option string) (cfg : OpenAIConfig) (env : Env) :
  let self := OpenAIService.__init__ cfg (Config._load_blob_storage_config getenv) in
  (storage_settings_present getenv = false ->
     OpenAIService._blob_uploader self = None
     /\ (forall text model voice response_format speed w,
           exists e w',
             OpenAIService.generate_audio env self text model voice response_format speed w
             = (Raise e, w'))
     /\ (forall prompt model seconds size variant w,
           exists e w',
             OpenAIService.generate_video env self prompt model seconds size variant w
             = (Raise e, w'))
     /\ (forall prompt size quality count user w w' r,
           OpenAIService.generate_image env self prompt size quality count user w = (Ok r, w') ->
           images r = []))
  /\ (storage_settings_present getenv = true ->
        exists storage, OpenAIService._blob_uploader self = Some storage).
Proof.
  intro self. split.
  - intro Hmissing.
    assert (Hnone : OpenAIService._blob_uploader self = None).
    { cbn [self OpenAIService._blob_uploader OpenAIService.__init__].
      now apply load_blob_storage_config_none. }
    split; [exact Hnone|].
    split; [intros; now apply generate_audio_no_uploader|].
    split; [intros; now apply generate_video_no_uploader|].
    intros prompt size quality count user w w' r.
    now apply generate_image_no_uploader.
  - intro Hpresent.
    cbn [self OpenAIService._blob_uploader OpenAIService.__init__].
    destruct (Config._load_blob_storage_config getenv) as [storage|] eqn:E;
      [now exists storage|].
    apply load_blob_storage_config_none in E.
    rewrite E in Hpresent. discriminate Hpresent.
Qed.

Lemma environment_decides_uploader_witness :
  OpenAIService._blob_uploader
    (OpenAIService.__init__ (sample_config openai)
       (Config._load_blob_storage_config
          (environ [("AZURE_STORAGE_CONNECTION_STRING", "UseDevelopmentStorage=true");
                    ("AZURE_BLOB_CONTAINER", "");
                    ("AZURE_BLOB_PUBLIC_BASE_URL", "https://cdn.example.net")])))
  = None.
Proof.
  apply (proj1 (proj1 (environment_decides_uploader
                         (environ [("AZURE_STORAGE_CONNECTION_STRING",
                                    "UseDevelopmentStorage=true");
                                   ("AZURE_BLOB_CONTAINER", "");
                                   ("AZURE_BLOB_PUBLIC_BASE_URL", "https://cdn.example.net")])
                         (sample_config openai) (sample_env [] None None)) eq_refl)).
Defined.

(** ** Authentication *)

Lemma take_app_exact (k : nat) (p x : string) :
  String.length p = k -> PyText.take k (p ++ x) = p.
Proof.
  revert p; induction k as [|k IH]; intros [|a p] H; simpl in *; try discriminate H.
  - destruct x; reflexivity.
  - injection H as H. now rewrite IH.
Qed.

Lemma take_all (k : nat) (t : string) :
  (String.length t <= k)%nat -> PyText.take k t = t.
Proof.
  revert t; induction k as [|k IH]; intros [|a t] H; simpl in *; try reflexivity; try lia.
  rewrite IH; [reflexivity | lia].
Qed.

Lemma drop_app_exact (x s : string) : PyText.drop (String.length x) (x ++ s) = s.
Proof. induction x as [|a x IH]; simpl; [now destruct s | exact IH]. Qed.

Lemma last_chars_app (k : nat) (x s : string) :
  String.length s = k -> PyText.last_chars k (x ++ s) = s.
Proof.
  intro H. unfold PyText.last_chars. rewrite length_append, H.
  replace (String.length x + k - k)%nat with (String.length x) by lia.
  apply drop_app_exact.
Qed.

Lemma last_chars_all (k : nat) (t : string) :
  (String.length t <= k)%nat -> PyText.last_chars k t = t.
Proof.
  intro H. unfold PyText.last_chars.
  replace (String.length t - k)%nat with 0%nat by lia. now destruct t.
Qed.

Lemma take_length (k : nat) (t : string) :
  String.length (PyText.take k t) = Nat.min (String.length t) k.
Proof.
  revert t; induction k as [|k IH]; intros [|a t]; simpl; try reflexivity.
  now rewrite IH.
Qed.

Lemma take_drop (k : nat) (t : string) : PyText.take k t ++ PyText.drop k t = t.
Proof.
  revert t; induction k as [|k IH]; intros [|a t]; simpl; try reflexivity.
  now rewrite IH.
Qed.

Lemma drop_length (k : nat) (t : string) :
  String.length (PyText.drop k t) = (String.length t - k)%nat.
Proof.
  revert t; induction k as [|k IH]; intros [|a t]; simpl; try reflexivity.
  apply IH.
Qed.

Lemma last_chars_length (k : nat) (t : string) :
  String.length (PyText.last_chars k t) = Nat.min (String.length t) k.
Proof. unfold PyText.last_chars. rewrite drop_length. lia. Qed.

(** X24: [_mask_token] shows [<missing>] for an absent or empty token.  Of a
    token longer than eight characters it shows the first four and the last
    four around [***] and nothing of what lies between; of a shorter one the
    first two and the last two, so that a token of one or two characters is
    shown whole on both sides.  The two ends may overlap: a token of three
    characters shows its middle character on both sides, and in general a
    token of two to eight characters that starts with the two characters [p]
    and ends with the two characters [s] is shown as [p], [***], [s]. *)
Theorem mask_token_shape :
  Auth._mask_token None = "<missing>"
  /\ Auth._mask_token (Some "") = "<missing>"
  /\ (forall p mid s,
        String.length p = 4%nat -> String.length s = 4%nat -> mid <> "" ->
        Auth._mask_token (Some (p ++ mid ++ s)) = p ++ "***" ++ s)
  /\ (forall p mid s,
        String.length p = 2%nat -> String.length s = 2%nat ->
        (String.length mid <= 4)%nat ->
        Auth._mask_token (Some (p ++ mid ++ s)) = p ++ "***" ++ s)
  /\ (forall t,
        t <> "" -> (String.length t <= 2)%nat ->
        Auth._mask_token (Some t) = t ++ "***" ++ t)
  /\ (forall a b c : ascii,
        Auth._mask_token (Some (String a (String b (String c ""))))
        = String a (String b ("***" ++ String b (String c ""))))
  /\ (forall t p after before s,
        t = p ++ after -> t = before ++ s ->
        String.length p = 2%nat -> String.length s = 2%nat ->
        (String.length t <= 8)%nat ->
        Auth._mask_token (Some t) = p ++ "***" ++ s)
  /\ (forall t p after before s,
        t = p ++ after -> t = before ++ s ->
        String.length p = 4%nat -> String.length s = 4%nat ->
        (8 < String.length t)%nat ->
        Auth._mask_token (Some t) = p ++ "***" ++ s)
  /\ (forall t,
        t <> "" ->
        exists p s : string,
          Auth._mask_token (Some t) = p ++ "***" ++ s
          /\ String.length p = String.length s
          /\ String.length p
             = Nat.min (String.length t) (if (String.length t <=? 8)%nat then 2 else 4)
          /\ (exists after, t = p ++ after)
          /\ (exists before, t = before ++ s)).
Proof.
  split; [reflexivity|]. split; [reflexivity|].
  split; [|split; [|split; [|split; [|split; [|split]]]]].
  - intros p mid s Hp Hs Hmid. unfold Auth._mask_token.
    assert (Ht : Py.truthy (p ++ mid ++ s) = true).
    { apply truthy_append_l. destruct p; [discriminate Hp | reflexivity]. }
    rewrite Ht. cbn [negb].
    assert (Hlen : (String.length (p ++ mid ++ s) <=? 8)%nat = false).
    { apply Nat.leb_gt. rewrite !length_append, Hp, Hs.
      destruct mid; [now contradiction Hmid | simpl; lia]. }
    rewrite Hlen, (take_app_exact 4 p _ Hp).
    now rewrite <- (append_assoc p mid s), (last_chars_app 4 (p ++ mid) s Hs).
  - intros p mid s Hp Hs Hmid. unfold Auth._mask_token.
    assert (Ht : Py.truthy (p ++ mid ++ s) = true).
    { apply truthy_append_l. destruct p; [discriminate Hp | reflexivity]. }
    rewrite Ht. cbn [negb].
    assert (Hlen : (String.length (p ++ mid ++ s) <=? 8)%nat = true).
    { apply Nat.leb_le. rewrite !length_append, Hp, Hs. lia. }
    rewrite Hlen, (take_app_exact 2 p _ Hp).
    now rewrite <- (append_assoc p mid s), (last_chars_app 2 (p ++ mid) s Hs).
  - intros t Hne Hlen. unfold Auth._mask_token.
    rewrite (proj2 (truthy_true_iff t) Hne). cbn [negb].
    assert (H8 : (String.length t <=? 8)%nat = true) by (apply Nat.leb_le; lia).
    now rewrite H8, (take_all 2 t Hlen), (last_chars_all 2 t Hlen).
  - reflexivity.
  - intros t p after before s Hp Hs Hlp Hls Hlen. unfold Auth._mask_token.
    assert (Ht : Py.truthy t = true).
    { rewrite Hp. apply truthy_append_l. destruct p; [discriminate Hlp | reflexivity]. }
    rewrite Ht. cbn [negb].
    assert (H8 : (String.length t <=? 8)%nat = true) by (apply Nat.leb_le; lia).
    rewrite H8.
    assert (Htake : PyText.take 2 t = p) by (rewrite Hp; now apply take_app_exact).
    assert (Hlast : PyText.last_chars 2 t = s) by (rewrite Hs; now apply last_chars_app).
    now rewrite Htake, Hlast.
  - intros t p after before s Hp Hs Hlp Hls Hlen. unfold Auth._mask_token.
    assert (Ht : Py.truthy t = true).
    { rewrite Hp. apply truthy_append_l. destruct p; [discriminate Hlp | reflexivity]. }
    rewrite Ht. cbn [negb].
    assert (H8 : (String.length t <=? 8)%nat = false) by (apply Nat.leb_gt; lia).
    rewrite H8.
    assert (Htake : PyText.take 4 t = p) by (rewrite Hp; now apply take_app_exact).
    assert (Hlast : PyText.last_chars 4 t = s) by (rewrite Hs; now apply last_chars_app).
    now rewrite Htake, Hlast.
  - intros t Hne. unfold Auth._mask_token.
    rewrite (proj2 (truthy_true_iff t) Hne). cbn [negb].
    set (k := if (String.length t <=? 8)%nat then 2%nat else 4%nat).
    assert (Hmask : (if (String.length t <=? 8)%nat
                     then PyText.take 2 t ++ "***" ++ PyText.last_chars 2 t
                     else PyText.take 4 t ++ "***" ++ PyText.last_chars 4 t)
                    = PyText.take k t ++ "***" ++ PyText.last_chars k t)
      by (unfold k; now destruct (String.length t <=? 8)%nat).
    rewrite Hmask.
    exists (PyText.take k t), (PyText.last_chars k t).
    split; [reflexivity|].
    split; [now rewrite take_length, last_chars_length|].
    split; [apply take_length|].
    split.
    + exists (PyText.drop k t). symmetry. apply take_drop.
    + exists (PyText.take (String.length t - k) t). symmetry. apply take_drop.
Qed.

Lemma mask_token_shape_witness :
  Auth._mask_token (Some "sk-live-0123456789abcdef") = "sk-l***cdef"
  /\ Auth._mask_token (Some "ab") = "ab***ab"
  /\ Auth._mask_token (Some "abc") = "ab***bc"
  /\ Auth._mask_token (Some "secret") = "se***et"
  /\ Auth._mask_token (Some "123456789") = "1234***6789".
Proof.
  destruct mask_token_shape
    as (_ & _ & Hlong & _ & Hshort & _ & Htwo & Hfour & _).
  split; [|split; [|split; [|split]]].
  - apply (Hlong "sk-l" "ive-0123456789ab" "cdef");
      [reflexivity | reflexivity | discriminate].
  - apply (Hshort "ab"); [discriminate | simpl; lia].
  - apply (Htwo "abc" "ab" "c" "a" "bc");
      [reflexivity | reflexivity | reflexivity | reflexivity | simpl; lia].
  - apply (Htwo "secret" "se" "cret" "secr" "et");
      [reflexivity | reflexivity | reflexivity | reflexivity | simpl; lia].
  - apply (Hfour "123456789" "1234" "56789" "12345" "6789");
      [reflexivity | reflexivity | reflexivity | reflexivity | simpl; lia].
Defined.

Lemma is_ascii_eqb (a b : string) :
  String.eqb a b = true -> PyText.is_ascii a = PyText.is_ascii b.
Proof. intro H. apply String.eqb_eq in H. now subst. Qed.

(** X25: [verify_token] returns a token only for a non-empty token equal to
    the configured key, and the token it returns carries the caller's
    token, the fixed client id, the required scopes and no expiry.  An empty
    token is refused whatever the key, so an empty key admits nobody; a
    non-empty ASCII token equal to the key is always admitted, one that
    differs from an ASCII key is refused, and non-ASCII text on either side
    ends in the [TypeError] of the comparison. *)
Theorem verify_token_accepts_only_the_key (self : Auth.StaticAPIKeyAuth) (tok : string) :
  (forall t,
     fst (Auth.verify_token self tok) = Auth.Verified t ->
     tok <> "" /\ tok = Auth._api_key self
     /\ t = {| Auth.token := tok;
               Auth.client_id := "static-api-key";
               Auth.scopes := Auth.required_scopes self;
               Auth.expires_at := None;
               Auth.claims := [("auth", "api-key")] |})
  /\ (tok = "" -> fst (Auth.verify_token self tok) = Auth.Refused)
  /\ (tok <> "" -> PyText.is_ascii tok = true -> tok = Auth._api_key self ->
        exists t, fst (Auth.verify_token self tok) = Auth.Verified t)
  /\ (tok <> "" -> PyText.is_ascii tok = true -> PyText.is_ascii (Auth._api_key self) = true ->
        tok <> Auth._api_key self ->
        fst (Auth.verify_token self tok) = Auth.Refused)
  /\ (tok <> "" ->
        PyText.is_ascii tok = false \/ PyText.is_ascii (Auth._api_key self) = false ->
        fst (Auth.verify_token self tok) = Auth.CompareTypeError).
Proof.
  unfold Auth.verify_token.
  destruct (Py.truthy tok) eqn:Ht.
  - apply truthy_true_iff in Ht.
    destruct (PyText.is_ascii tok && PyText.is_ascii (Auth._api_key self)) eqn:Hascii;
      cbn [negb].
    + apply andb_prop in Hascii as [Ha Hk].
      destruct (String.eqb_spec tok (Auth._api_key self)) as [Heq | Hneq]; cbn [fst].
      * split; [|split; [|split; [|split]]].
        -- intros t H. injection H as <-. now repeat split.
        -- intro H. now contradiction Ht.
        -- intros _ _ _. eexists; reflexivity.
        -- intros _ _ _ H. now contradiction H.
        -- intros _ [H | H]; [rewrite Ha in H | rewrite Hk in H]; discriminate H.
      * split; [|split; [|split; [|split]]].
        -- intros t H. discriminate H.
        -- reflexivity.
        -- intros _ _ H. now contradiction Hneq.
        -- reflexivity.
        -- intros _ [H | H]; [rewrite Ha in H | rewrite Hk in H]; discriminate H.
    + cbn [fst]. split; [|split; [|split; [|split]]].
      * intros t H. discriminate H.
      * intro H. now contradiction Ht.
      * intros _ Ha Heq. rewrite <- Heq, Ha in Hascii. discriminate Hascii.
      * intros _ Ha Hk _. rewrite Ha, Hk in Hascii. discriminate Hascii.
      * reflexivity.
  - apply truthy_false_iff in Ht. subst tok. cbn [fst].
    split; [|split; [|split; [|split]]].
    + intros t H. discriminate H.
    + reflexivity.
    + intro H. now contradiction H.
    + intro H. now contradiction H.
    + intro H. now contradiction H.
Qed.

Lemma verify_token_accepts_only_the_key_witness :
  (exists t,
     fst (Auth.verify_token {| Auth._api_key := "s3cret"; Auth.required_scopes := ["mcp"] |}
            "s3cret") = Auth.Verified t)
  /\ fst (Auth.verify_token {| Auth._api_key := ""; Auth.required_scopes := [] |} "")
     = Auth.Refused.
Proof.
  split.
  - apply (proj1 (proj2 (proj2
             (verify_token_accepts_only_the_key
                {| Auth._api_key := "s3cret"; Auth.required_scopes := ["mcp"] |} "s3cret"))));
      [discriminate | reflexivity | reflexivity].
  - apply (proj1 (proj2
             (verify_token_accepts_only_the_key
                {| Auth._api_key := ""; Auth.required_scopes := [] |} ""))).
    reflexivity.
Defined.

(** ** Audio content types *)

Lemma audio_content_type_dot (x : string) :
  OpenAIService._audio_content_type (String "."%char x) = _DEFAULT_CONTENT_TYPE.
Proof. reflexivity. Qed.

(** X26: the content type of an audio format is looked up without regard to
    case, and the generic binary type stands in for a format the table does
    not know.  A format written with a leading dot is one of those: its
    upload is tagged as generic binary although its extension is the format
    with the dots removed. *)
Theorem audio_content_type_lookup (response_format : string) :
  OpenAIService._audio_content_type (Py.lower response_format)
  = OpenAIService._audio_content_type response_format
  /\ (Py.mem (Py.lower response_format) (map fst _AUDIO_CONTENT_TYPES) = false ->
        OpenAIService._audio_content_type response_format = _DEFAULT_CONTENT_TYPE)
  /\ (Py.mem (Py.lower response_format) (map fst _AUDIO_CONTENT_TYPES) = true ->
        exists subtype,
          OpenAIService._audio_content_type response_format = "audio/" ++ subtype)
  /\ OpenAIService._audio_content_type ("." ++ response_format) = _DEFAULT_CONTENT_TYPE
  /\ sanitized_extension ("." ++ response_format) = sanitized_extension response_format.
Proof.
  split; [unfold OpenAIService._audio_content_type; now rewrite lower_idempotent|].
  split; [|split; [|split; reflexivity]].
  - intro H. unfold OpenAIService._audio_content_type.
    cbn [map fst _AUDIO_CONTENT_TYPES] in H.
    repeat (apply mem_cons_false in H as [?E H]).
    unfold _AUDIO_CONTENT_TYPES. cbn [Py.get].
    now rewrite E, E0, E1, E2, E3, E4, E5.
  - intro H. unfold OpenAIService._audio_content_type.
    cbn [map fst _AUDIO_CONTENT_TYPES] in H.
    repeat (apply mem_cons_true in H as [-> | H]; [eexists; reflexivity|]).
    discriminate H.
Qed.

Lemma audio_content_type_lookup_witness :
  OpenAIService._audio_content_type "webm" = _DEFAULT_CONTENT_TYPE
  /\ exists subtype, OpenAIService._audio_content_type "OPUS" = "audio/" ++ subtype.
Proof.
  split.
  - apply (proj1 (proj2 (audio_content_type_lookup "webm"))). reflexivity.
  - apply (proj1 (proj2 (proj2 (audio_content_type_lookup "OPUS")))). reflexivity.
Defined.

(** ** Sample runs of the statements above *)

Lemma image_request_canonical_witness :
  exists rest,
    snd (OpenAIService.generate_image (sample_env [] (Some "aGk=") None) (with_storage openai)
           "a cat" "AUTO" "Standard" 2 None []) = rest
    /\ exists req tail,
         rest = EvImagesGenerate req :: tail
         /\ ir_size req = "auto" /\ ir_quality req = "medium" /\ ir_n req = 2%Z.
Proof.
  destruct (image_request_canonical (sample_env [] (Some "aGk=") None) (with_storage openai)
              "a cat" "AUTO" "Standard" 2 None [])
    as (rest & Hrest & Hshape).
  exists rest. split; [exact Hrest|].
  destruct Hshape as [-> | (req & tail & -> & _)]; [discriminate Hrest|].
  exists req, tail. split; [reflexivity|].
  injection Hrest as Hreq _. rewrite <- Hreq. repeat split.
Defined.

Lemma tool_list_models_witness :
  exists payload,
    AppTools.list_supported_models (with_storage openai) (AppTools.Member AppTools.AUDIO)
      false []
    = (Ok payload, [])
    /\ forall key entry,
         In (key, entry) (ServiceModels.capabilities payload) -> key = "audio".
Proof.
  apply (proj1 (tool_list_models (with_storage openai) false []) AppTools.AUDIO).
Defined.

Lemma as_scopes_shape_witness :
  Config._as_scopes (Some " read,write admin, ") = ["read"; "write"; "admin"]
  /\ Forall (fun scope =>
               scope <> ""
               /\ Py.contains_char " " scope = false
               /\ Py.contains_char "," scope = false)
            ["read"; "write"; "admin"]
  /\ Config._as_scopes (Some "") = [].
Proof.
  split; [reflexivity|]. split.
  - exact (proj1 (as_scopes_shape (Some " read,write admin, "))).
  - apply (proj2 (as_scopes_shape (Some ""))). right. reflexivity.
Defined.
